(** * App Engine dashboard report: chart decoding, aggregation, watermark

    A shallow embedding of [gae_dashboard/dashboard_report.py] (Python 2).
    Python values are modelled as the interpreter has them:
    - [int]/[long] as [Z]; [float] as IEEE-754 binary64 ([spec_float] with
      precision 53 and maximal exponent 1024, round to nearest even);
    - [str] as [string]; [list] as [list]; [dict] as [gmap]; [set] as [gset];
    - raising an exception as the [Raise] outcome of the [result] monad;
    - a generator as the items it yields and the exception that ends it,
      if one does;
    - the iteration order of a dict, which Python 2 leaves open, as a
      parameter [dict_order] of the functions that iterate over one.
    The chart library (GChartWrapper) and the graphite client are not part
    of the program: a chart object is taken as its query parameters plus the
    token lists its [getdata()] returns, and a delivery is an entry of a log.
    The file of the last record's time is an [option Z]: the time it holds,
    if it exists. *)

From Stdlib Require Import ZArith QArith_base Ascii String DecimalString.
From Stdlib Require DecimalFacts DecimalPos DecimalN.
From Corelib Require Import SpecFloat.
From stdpp Require Import gmap strings list sorting.

Local Open Scope string_scope.
Local Open Scope Z_scope.

(** ** Exceptions *)

Inductive exn : Set :=
| AssertionError
| KeyError
| IndexError
| ValueError
| OverflowError
| TypeError
| UnboundLocalError.

Inductive result (A : Type) : Type :=
| Ok (a : A)
| Raise (e : exn).
Arguments Ok {A} a.
Arguments Raise {A} e.

#[global] Instance result_ret : MRet result := @Ok.
#[global] Instance result_bind : MBind result := λ A B f m,
  match m with Ok a => f a | Raise e => Raise e end.

(** [assert cond] *)
Definition assert (b : bool) : result unit :=
  if b then Ok tt else Raise AssertionError.

Definition raised {A} (r : result A) : Prop :=
  match r with Ok _ => False | Raise _ => True end.

(** [for a in l: acc = body(acc, a)], stopping at the first exception. *)
Fixpoint for_each {A S} (body : S → A → result S) (l : list A) (s : S)
  : result S :=
  match l with
  | [] => Ok s
  | a :: l' => s' ← body s a; for_each body l' s'
  end.

(** ** Sequences and strings *)

(** [l[i]] with Python's negative indices. *)
Definition getitem {A} (l : list A) (i : Z) : result A :=
  let n := Z.of_nat (length l) in
  let j := if i <? 0 then i + n else i in
  if (0 <=? j) && (j <? n)
  then match l !! Z.to_nat j with Some a => Ok a | None => Raise IndexError end
  else Raise IndexError.

(** [d[k]] on a dict. *)
Definition dict_get {V} (d : gmap string V) (k : string) : result V :=
  match d !! k with Some v => Ok v | None => Raise KeyError end.

(** [dict(pairs)]: a later pair replaces an earlier one with the same key. *)
Definition dict_of_pairs {V} (pairs : list (string * V)) : gmap string V :=
  foldl (λ d kv, <[kv.1 := kv.2]> d) ∅ pairs.

(** [s.split(sep)] for a one-character separator. *)
Fixpoint split (sep : ascii) (s : string) : list string :=
  match s with
  | EmptyString => [EmptyString]
  | String c s' =>
      if Ascii.eqb c sep then EmptyString :: split sep s'
      else match split sep s' with
           | h :: t => String c h :: t
           | [] => [String c EmptyString]
           end
  end.

(** [s.endswith(c)] for a one-character suffix. *)
Fixpoint endswith (s : string) (c : ascii) : bool :=
  match s with
  | EmptyString => false
  | String a s' =>
      match s' with
      | EmptyString => Ascii.eqb a c
      | String _ _ => endswith s' c
      end
  end.

(** [s.startswith(p)] *)
Definition startswith (s p : string) : bool := String.prefix p s.

(** [s[:1]] *)
Definition first_char (s : string) : string :=
  match s with
  | EmptyString => EmptyString
  | String c _ => String c EmptyString
  end.

Definition is_space (c : ascii) : bool :=
  let n := N_of_ascii c in ((9 <=? n) && (n <=? 13) || (n =? 32))%N.

Definition digit_of (c : ascii) : option Z :=
  let n := Z.of_N (N_of_ascii c) in
  if (48 <=? n) && (n <=? 57) then Some (n - 48) else None.

Definition to_lower (c : ascii) : ascii :=
  let n := N_of_ascii c in
  if ((65 <=? n) && (n <=? 90))%N then ascii_of_N (n + 32) else c.

Fixpoint lower (s : string) : string :=
  match s with
  | EmptyString => EmptyString
  | String c s' => String (to_lower c) (lower s')
  end.

Fixpoint lstrip (s : string) : string :=
  match s with
  | EmptyString => EmptyString
  | String c s' => if is_space c then lstrip s' else s
  end.

Fixpoint rstrip (s : string) : string :=
  match s with
  | EmptyString => EmptyString
  | String c s' =>
      match rstrip s' with
      | EmptyString => if is_space c then EmptyString else String c EmptyString
      | r => String c r
      end
  end.

(** [s.strip()] *)
Definition strip (s : string) : string := rstrip (lstrip s).

(** Reads a run of decimal digits: the number read so far, how many digits
    were read, and the rest of the string. *)
Fixpoint take_digits (s : string) (acc cnt : Z) : Z * Z * string :=
  match s with
  | EmptyString => (acc, cnt, EmptyString)
  | String c s' =>
      match digit_of c with
      | Some d => take_digits s' (10 * acc + d) (cnt + 1)
      | None => (acc, cnt, s)
      end
  end.

(** An optional sign: [true] for a minus. *)
Definition take_sign (s : string) : bool * string :=
  match s with
  | String "-" s' => (true, s')
  | String "+" s' => (false, s')
  | _ => (false, s)
  end.

(** [int(s)] on a string, base 10. *)
Definition int_of_string (s : string) : result Z :=
  let '(neg, s1) := take_sign (strip s) in
  let '(v, cnt, rest) := take_digits s1 0 0 in
  if (0 <? cnt) && bool_decide (rest = EmptyString)
  then Ok (if neg then - v else v)
  else Raise ValueError.

(** ** Floating point

    Python's [float] is IEEE-754 binary64.  The arithmetic is that of the
    standard library's executable specification [SpecFloat], at precision 53
    and maximal exponent 1024; a finite non-zero float [S754_finite s m e]
    stands for [(-1)^s * m * 2^e]. *)

Abbreviation float := spec_float.

Definition prec : Z := 53.
Definition emax : Z := 1024.

Definition fadd : float → float → float := SFadd prec emax.
Definition fsub : float → float → float := SFsub prec emax.
Definition fmul : float → float → float := SFmul prec emax.
(** Python raises [ZeroDivisionError] on a zero divisor; the program only
    divides by the constant 4095. *)
Definition fdiv : float → float → float := SFdiv prec emax.

(** The float nearest to the rational [p / q] for [0 < p] and [0 < q]
    (ties to even), with sign [s]. *)
Definition float_of_ratio (s : bool) (p q : Z) : float :=
  let '(mz, ez, lz) := SFdiv_core_binary prec emax p 0 q 0 in
  binary_round_aux prec emax s mz ez lz.

(** [float(z)], and the coercion of an [int] operand of a float operation. *)
Definition float_of_int (z : Z) : result float :=
  match binary_normalize prec emax z 0 false with
  | S754_infinity _ => Raise OverflowError
  | f => Ok f
  end.

(** The coercion of an integer literal that is exactly representable. *)
Definition float_literal (z : Z) : float := binary_normalize prec emax z 0 false.

(** [int(f)]: truncation towards zero. *)
Definition int_of_float (f : float) : result Z :=
  match f with
  | S754_zero _ => Ok 0
  | S754_finite s m e => Ok (cond_Zopp s (Z.shiftl (Zpos m) e))
  | S754_infinity _ => Raise OverflowError
  | S754_nan => Raise ValueError
  end.

(** [f > z] for a float and an int: Python compares the exact values. *)
Definition float_gt_int (f : float) (z : Z) : bool :=
  match f with
  | S754_nan => false
  | S754_infinity s => negb s
  | S754_zero _ => z <? 0
  | S754_finite s m e =>
      let v := cond_Zopp s (Zpos m) in
      if 0 <=? e then z <? v * 2 ^ e else z * 2 ^ (- e) <? v
  end.

(** *** ['%.*e' % (P, x)]: decimal scientific notation, correctly rounded *)

Definition decimal_string (n : Z) : string :=
  NilZero.string_of_uint (N.to_uint (Z.to_N n)).

Definition digits10 (n : Z) : Z :=
  Z.of_nat (String.length (decimal_string n)).

(** The exponent [k] with [10^k <= p/q < 10^(k+1)], for [0 < p], [0 < q]. *)
Definition decimal_exponent (p q : Z) : Z :=
  if q <=? p then digits10 (p / q) - 1
  else let j := digits10 q - digits10 p in
       if q <=? p * 10 ^ j then - j else - (j + 1).

(** The integer nearest to [p / q], ties to even. *)
Definition round_half_even (p q : Z) : Z :=
  let d := p / q in
  match 2 * (p mod q) ?= q with
  | Lt => d
  | Gt => d + 1
  | Eq => if Z.even d then d else d + 1
  end.

Definition sign_string (s : bool) : string :=
  if s then "-" else EmptyString.

Fixpoint zeros (n : nat) : string :=
  match n with
  | O => EmptyString
  | S n' => String "0" (zeros n')
  end.

(** Puts the decimal point after the first digit, if more digits follow. *)
Definition mantissa_string (digits : string) : string :=
  match digits with
  | EmptyString => EmptyString
  | String c EmptyString => digits
  | String c rest => String c (String "." rest)
  end.

(** A sign and at least two digits. *)
Definition exponent_string (k : Z) : string :=
  let ds := decimal_string (Z.abs k) in
  (if k <? 0 then "-" else "+") ++
  (if (String.length ds <? 2)%nat then String "0" ds else ds).

Definition format_e (P : nat) (x : float) : string :=
  match x with
  | S754_nan => "nan"
  | S754_infinity s => sign_string s ++ "inf"
  | S754_zero s =>
      sign_string s ++ mantissa_string (String "0" (zeros P)) ++ "e+00"
  | S754_finite s m e =>
      let p := if 0 <=? e then Zpos m * 2 ^ e else Zpos m in
      let q := if 0 <=? e then 1 else 2 ^ (- e) in
      let k := decimal_exponent p q in
      let sc := Z.of_nat P - k in
      let D := if 0 <=? sc then round_half_even (p * 10 ^ sc) q
               else round_half_even p (q * 10 ^ (- sc)) in
      let '(D, k) := if D =? 10 ^ (Z.of_nat P + 1)
                     then (10 ^ Z.of_nat P, k + 1) else (D, k) in
      sign_string s ++ mantissa_string (decimal_string D) ++
      String "e" (exponent_string k)
  end.

(** *** [float(s)] on a string *)

(** The float nearest to [d * 10^e10], for [0 <= d]. *)
Definition float_of_decimal (s : bool) (d e10 : Z) : float :=
  if d =? 0 then S754_zero s
  else if 0 <=? e10 then float_of_ratio s (d * 10 ^ e10) 1
  else float_of_ratio s d (10 ^ (- e10)).

(** What follows the digits of the mantissa: nothing, or an exponent. *)
Definition take_exponent (s : string) : option Z :=
  match s with
  | EmptyString => Some 0
  | String c s1 =>
      if Ascii.eqb (to_lower c) "e" then
        let '(neg, s2) := take_sign s1 in
        let '(v, cnt, rest) := take_digits s2 0 0 in
        if (0 <? cnt) && bool_decide (rest = EmptyString)
        then Some (if neg then - v else v) else None
      else None
  end.

Definition float_of_string (str : string) : result float :=
  let '(neg, s1) := take_sign (strip str) in
  let w := lower s1 in
  if bool_decide (w = "inf") || bool_decide (w = "infinity")
  then Ok (S754_infinity neg)
  else if bool_decide (w = "nan") then Ok S754_nan
  else
    let '(ip, icnt, s2) := take_digits s1 0 0 in
    let '(d, fcnt, s3) :=
      match s2 with
      | String "." s2' => take_digits s2' ip 0
      | _ => (ip, 0, s2)
      end in
    if icnt + fcnt =? 0 then Raise ValueError
    else match take_exponent s3 with
         | Some ex => Ok (float_of_decimal neg d (ex - fcnt))
         | None => Raise ValueError
         end.

(** ** The program *)

(** [round_to_n_significant_digits(x, n)]: [float('%.*e' % (n - 1, x))].
    The precision is taken as any natural number (the interpreter limits
    it to a C int). *)
Definition round_to_n_significant_digits (x : float) (n : Z) : result float :=
  if n <? 1 then Raise ValueError
  else float_of_string (format_e (Z.to_nat (n - 1)) x).

(** The field names of a well-known chart: one name for its lone series, or
    a dict from the chart's series labels to field names. *)
Inductive field_names : Type :=
| Single (name : string)
| Multi (names : gmap string string).

(** The [OrderedDict] from chart label to field names, in the order of the
    dashboard's drop-down. *)
Definition _label_to_field_map : list (string * field_names) := [
  ("Summary", Multi (dict_of_pairs [
     ("Client (4xx)", "client_errors_per_second");
     ("Server (5xx)", "server_errors_per_second");
     ("Total Requests", "requests_per_second")]));
  ("Requests by Type/Second", Multi (dict_of_pairs [
     ("Static Requests", "static_requests_per_second");
     ("Dynamic Requests", "dynamic_requests_per_second");
     ("Cached Requests", "cached_requests_per_second");
     ("PageSpeed Requests", "pagespeed_requests_per_second")]));
  ("Latency", Single "milliseconds_per_dynamic_request");
  ("Loading Latency", Single "milliseconds_per_loading_request");
  ("Error Details", Multi (dict_of_pairs [
     ("Client (4xx)", "client_errors_per_second");
     ("Server (5xx)", "server_errors_per_second");
     ("Quota Denials", "quota_denials_per_second");
     ("DoS API Denials", "dos_api_denials_per_second")]));
  ("Traffic (Bytes/Second)", Multi (dict_of_pairs [
     ("Sent", "bytes_sent_per_second");
     ("Received", "bytes_received_per_second")]));
  ("Utilization", Multi (dict_of_pairs [
     ("Total CPU", "total_cpu_seconds_used_per_second");
     ("API Calls CPU", "api_cpu_seconds_used_per_second")]));
  ("Milliseconds Used/Second", Single "milliseconds_used_per_second");
  ("Instances", Multi (dict_of_pairs [
     ("Total", "total_instance_count");
     ("Active", "active_instance_count");
     ("Billed", "billed_instance_count")]));
  ("Memory Usage (MB)", Single "memory_usage_mb");
  ("Memcache Operations/Second", Single "memcache_ops_per_second");
  ("Memcache Compute Units/Second",
     Single "memcache_compute_units_per_second");
  ("Memcache Traffic (Bytes/Second)", Multi (dict_of_pairs [
     ("Sent", "memcache_bytes_sent_per_second");
     ("Received", "memcache_bytes_received_per_second");
     ("Total", "memcache_total_bytes_per_second")]));
  ("Memcache Total Cache Size (MB)", Single "memcache_size_mb")
  ].

(** The time windows of the dashboard's picker, with their length in
    hours. *)
Definition _time_windows : list (string * Q) := [
  ("30 mins", 0.5%Q);
  ("3 hrs", inject_Z 3);
  ("6 hrs", inject_Z 6);
  ("12 hrs", inject_Z 12);
  ("24 hrs", inject_Z 24);
  ("2 days", inject_Z (2 * 24));
  ("4 days", inject_Z (4 * 24));
  ("7 days", inject_Z (7 * 24));
  ("14 days", inject_Z (14 * 24));
  ("30 days", inject_Z (30 * 24))
  ].

(** [datetime.timedelta(hours=h).total_seconds()]: every window of the
    table is a whole number of seconds, which a float holds exactly. *)
Definition total_seconds (hours : Q) : float :=
  float_literal (Qnum hours * 3600 / Zpos (Qden hours)).

Definition num_charts : Z := Z.of_nat (length _label_to_field_map).

(** [d[k]] on the ordered dict. *)
Fixpoint ordered_get {V} (d : list (string * V)) (k : string) : result V :=
  match d with
  | [] => Raise KeyError
  | (k', v) :: d' => if bool_decide (k' = k) then Ok v else ordered_get d' k
  end.

(** [lookup_field_name(chart_label, series_label)]; a missing series label
    is [None]. *)
Definition lookup_field_name (chart_label : string)
    (series_label : option string) : result string :=
  field_name ← ordered_get _label_to_field_map chart_label;
  match field_name with
  | Single name => Ok name
  | Multi names =>
      match series_label with
      | Some l => dict_get names l
      | None => Raise KeyError
      end
  end.

(** A [GChartWrapper.GChart] as the program uses it: the chart's query
    parameters ([chart['chxt']], ...) and the lists of tokens that
    [chart.getdata()] decodes from the extended encoding. *)
Record GChart : Type := {
  params : gmap string string;
  getdata : list (list Z)
}.

(** The normalised position of index [i] in [l]. *)
Definition position {A} (l : list A) (i : Z) : result nat :=
  let n := Z.of_nat (length l) in
  let j := if i <? 0 then i + n else i in
  if (0 <=? j) && (j <? n) then Ok (Z.to_nat j) else Raise IndexError.

(** One turn of the loop of [get_axis_labels] over the segments of "chxl". *)
Definition axis_label_step (n_axes : nat) (st : Z * list (list string))
    (label : string) : result (Z * list (list string)) :=
  let '(axis_index, axis_labels) := st in
  if endswith label ":" then
    axis_index ← int_of_string (first_char label);
    _ ← assert ((0 <=? axis_index) && (axis_index <? Z.of_nat n_axes));
    Ok (axis_index, axis_labels)
  else
    i ← position axis_labels axis_index;
    Ok (axis_index, alter (λ labels, (labels ++ [label])%list) i axis_labels).

Definition get_axis_labels (chart : GChart)
  : result (gmap string (list string)) :=
  chxt ← dict_get (params chart) "chxt";
  let axes := split "," chxt in
  let axis_labels := (λ _, []) <$> axes in
  chxl ← dict_get (params chart) "chxl";
  st ← for_each (axis_label_step (length axes)) (split "|" chxl)
                (0, axis_labels);
  Ok (dict_of_pairs (zip axes st.2)).

(** ** Generators

    What a generator does when it is run to the end: the items it yields,
    then either exhaustion ([None]) or an exception. *)
Definition generator (A : Type) : Type := list A * option exn.

(** A generator that yields [f a] for each [a] of [l], up to the first
    exception. *)
Fixpoint generate {A B} (f : A → result B) (l : list A) : generator B :=
  match l with
  | [] => ([], None)
  | a :: l' =>
      match f a with
      | Ok b => let '(ys, e) := generate f l' in (b :: ys, e)
      | Raise e => ([], Some e)
      end
  end.

(** [for a in g: acc = body(acc, a)] over a generator. *)
Definition for_generated {A S} (body : S → A → result S) (g : generator A)
    (s : S) : result S :=
  s' ← for_each body g.1 s;
  match g.2 with
  | None => Ok s'
  | Some e => Raise e
  end.

(** A list comprehension [[f(a) for a in l]]. *)
Fixpoint comprehension {A B} (f : A → result B) (l : list A)
  : result (list B) :=
  match l with
  | [] => Ok []
  | a :: l' => b ← f a; bs ← comprehension f l'; Ok (b :: bs)
  end.

(** ** The chart series extractor *)

(** [int(float(x) / 4095 * time_delta_seconds)] *)
Definition decode_time (time_delta_seconds : float) (x : Z) : result Z :=
  fx ← float_of_int x;
  int_of_float (fmul (fdiv fx (float_literal 4095)) time_delta_seconds).

(** [round_to_n_significant_digits(float(y) / 4095 * value_max, 4)] *)
Definition decode_value (value_max : float) (y : Z) : result float :=
  fy ← float_of_int y;
  round_to_n_significant_digits
    (fmul (fdiv fy (float_literal 4095)) value_max) 4.

Definition series_labels_of (chart : GChart) : list (option string) :=
  match params chart !! "chdl" with
  | Some chdl => Some <$> split "|" chdl
  | None => [None]
  end.

(** The body of the loop of [unpack_chart_data] for the series of index [i]. *)
Definition unpack_series (series_labels : list (option string))
    (series : list (list Z)) (time_delta_seconds value_max : float) (i : Z)
  : result (option string * list (Z * float)) :=
  series_label ← getitem series_labels i;
  time_series ← getitem series (i * 2);
  value_series ← getitem series (i * 2 + 1);
  time_series ← comprehension (decode_time time_delta_seconds) time_series;
  value_series ← comprehension (decode_value value_max) value_series;
  Ok (series_label, zip time_series value_series).

(** What [unpack_chart_data] does before its loop: the y-axis maximum. *)
Definition unpack_preamble (chart : GChart) : result float :=
  chd ← dict_get (params chart) "chd";
  _ ← assert (startswith chd "e:");
  axis_labels ← get_axis_labels chart;
  y_labels ← dict_get axis_labels "y";
  last_label ← getitem y_labels (-1);
  value_max ← float_of_string last_label;
  chxt ← dict_get (params chart) "chxt";
  _ ← assert (bool_decide (chxt = "x,y"));
  _ ← assert (2 * Z.of_nat (length (series_labels_of chart))
              =? Z.of_nat (length (getdata chart)));
  Ok value_max.

(** [unpack_chart_data(url, time_delta_seconds)], on the chart object that
    [GChart.fromurl(url)] builds. *)
Definition unpack_chart_data (chart : GChart) (time_delta_seconds : float)
  : generator (option string * list (Z * float)) :=
  match unpack_preamble chart with
  | Raise e => ([], Some e)
  | Ok value_max =>
      let series_labels := series_labels_of chart in
      generate
        (unpack_series series_labels (getdata chart) time_delta_seconds
                       value_max)
        (Z.of_nat <$> seq 0 (length series_labels))
  end.

Section Pipeline.

(** Python 2 iterates over a dict in an order that the language leaves
    open; [dict_order] is that order, as a rearrangement of the keys. *)
Variable dict_order : list string → list string.

(** [d.iteritems()] *)
Definition iteritems {V} (d : gmap string V) : list (string * V) :=
  omap (λ k, (k,.) <$> d !! k) (dict_order (map_to_list d).*1).

(** ** The time-bucket aggregator *)

(** The first loop of [aggregate_series_by_time]: the set of x values. *)
Definition x_values_of {Y} (named_series : gmap string (list (Z * Y)))
  : gset Z :=
  foldl (λ (x_values : gset Z) item, x_values ∪ list_to_set item.2.*1)
        ∅ (iteritems named_series).

(** The body of the loop over the series, for one x value: the point of
    the series at [x_value], if there is one, enters the record. *)
Definition add_matched {Y} (x_value : Z) (record : gmap string Y)
    (item : string * list (Z * Y)) : result (gmap string Y) :=
  let matched_pairs := filter (λ xy, xy.1 = x_value) item.2 in
  _ ← assert (bool_decide (length matched_pairs ∈ [0; 1]%nat));
  Ok (match matched_pairs with
      | xy :: _ => <[item.1 := xy.2]> record
      | [] => record
      end).

(** The body of the loop over the sorted x values: the record of one. *)
Definition aggregate_record {Y} (named_series : gmap string (list (Z * Y)))
    (x_value : Z) : result (Z * gmap string Y) :=
  record ← for_each (add_matched x_value) (iteritems named_series) ∅;
  Ok (x_value, record).

Definition aggregate_series_by_time {Y}
    (named_series : gmap string (list (Z * Y)))
  : generator (Z * gmap string Y) :=
  generate (aggregate_record named_series)
           (merge_sort Z.le (elements (x_values_of named_series))).

(** ** The orchestrator *)

(** One element of [input_json]; [chart] is the chart object built from
    [chart_url_data]. *)
Record chart_json : Type := {
  chart_num : Z;
  module : string;
  time_window : Z;
  chart : GChart
}.

(** The values of a record: a number, or the datetime of "utc_datetime",
    held as whole seconds since the epoch. *)
Inductive value : Type :=
| VFloat (y : float)
| VDatetime (t : Z).

(** The body of the inner loop of the extraction: stores one series under
    its field name. *)
Definition store_series (chart_label module_name : string)
    (named_series_by_module : gmap string (gmap string (list (Z * float))))
    (item : option string * list (Z * float))
  : result (gmap string (gmap string (list (Z * float)))) :=
  field_name ← lookup_field_name chart_label item.1;
  let by_module :=
    match named_series_by_module !! module_name with
    | Some _ => named_series_by_module
    | None => <[module_name := ∅]> named_series_by_module
    end in
  named_series ← dict_get by_module module_name;
  Ok (<[module_name := <[field_name := item.2]> named_series]> by_module).

(** The body of the extraction loop, for one chart; the state is
    [named_series_by_module] and the hours of [time_delta], if bound. *)
Definition extract_chart
    (st : gmap string (gmap string (list (Z * float))) * option Q)
    (cj : chart_json)
  : result (gmap string (gmap string (list (Z * float))) * option Q) :=
  chart_label ← getitem _label_to_field_map.*1 (chart_num cj);
  window ← getitem _time_windows (time_window cj);
  let time_duration := window.2 in
  let chart_data :=
    unpack_chart_data (chart cj) (total_seconds time_duration) in
  by_module ← for_generated (store_series chart_label (module cj))
                            chart_data st.1;
  Ok (by_module, Some time_duration).

(** [not start_time_t] *)
Definition not_time (start_time_t : option Z) : bool :=
  match start_time_t with
  | None => true
  | Some t => t =? 0
  end.

(** [not start_time_t or record_time_t > start_time_t] *)
Definition is_new_record (start_time_t : option Z) (record_time_t : float)
  : bool :=
  not_time start_time_t ||
  match start_time_t with
  | Some t => float_gt_int record_time_t t
  | None => false
  end.

(** [datetime.datetime.utcfromtimestamp(t)], in whole seconds: years 1 to
    9999. *)
Definition utcfromtimestamp (t : float) : result Z :=
  z ← int_of_float t;
  if (-62135596800 <=? z) && (z <=? 253402300799) then Ok z
  else Raise ValueError.

(** The body of the loop over the aggregated records of a module. *)
Definition keep_record (chart_start_time_t : float) (start_time_t : option Z)
    (records : list (gmap string value)) (item : Z * gmap string float)
  : result (list (gmap string value)) :=
  time_value ← float_of_int item.1;
  let record_time_t := fadd chart_start_time_t time_value in
  if is_new_record start_time_t record_time_t then
    utc_datetime ← utcfromtimestamp record_time_t;
    Ok (records ++
        [<["utc_datetime" := VDatetime utc_datetime]> (VFloat <$> item.2)])%list
  else Ok records.

(** The body of the loop over the modules. *)
Definition module_records (chart_start_time_t : float)
    (start_time_t : option Z)
    (records_by_module : gmap string (list (gmap string value)))
    (item : string * gmap string (list (Z * float)))
  : result (gmap string (list (gmap string value))) :=
  records ← for_generated (keep_record chart_start_time_t start_time_t)
                          (aggregate_series_by_time item.2) [];
  Ok (<[item.1 := records]> records_by_module).

(** [all(input_json[i]['time_window'] == input_json[0]['time_window'] ...)] *)
Definition same_time_window (input_json : list chart_json) : bool :=
  match input_json with
  | [] => true
  | first :: _ =>
      forallb (λ cj, time_window cj =? time_window first) input_json
  end.

(** The first part of [parse_and_commit_record]: the extraction loop and
    the assertion on the time windows, before any record is built; it
    gives [named_series_by_module] and the hours of [time_delta]. *)
Definition extract_all (input_json : list chart_json)
  : result (gmap string (gmap string (list (Z * float))) * Q) :=
  st ← for_each extract_chart input_json (∅, None);
  _ ← assert (same_time_window input_json);
  time_duration ← match st.2 with
                  | Some h => Ok h
                  | None => Raise UnboundLocalError
                  end;
  Ok (st.1, time_duration).

(** [parse_and_commit_record] up to the records of each module. *)
Definition build_records (input_json : list chart_json)
    (start_time_t : option Z) (download_time_t : Z)
  : result (gmap string (list (gmap string value))) :=
  extracted ← extract_all input_json;
  download ← float_of_int download_time_t;
  let chart_start_time_t := fsub download (total_seconds extracted.2) in
  for_each (module_records chart_start_time_t start_time_t)
           (iteritems extracted.1) ∅.

(** [parse_and_commit_record(input_json, start_time_t, download_time_t,
    graphite_host, verbose, dry_run)]: what it returns or raises, and the
    calls of [maybe_send_to_graphite] it makes, as (module, records).  The
    delivery loop [for (module, records) in ...] rebinds the variable
    [records] that is returned; over an empty dict it has no turn, which is
    all that the guard [elif records_by_module] adds.  [graphite_host] and
    [verbose] only reach the console and the client. *)
Definition parse_and_commit_record (input_json : list chart_json)
    (start_time_t : option Z) (download_time_t : Z) (dry_run : bool)
  : result (option (list (gmap string value))) *
    list (string * list (gmap string value)) :=
  match input_json with
  | [] => (Ok None, [])
  | _ :: _ =>
      match build_records input_json start_time_t download_time_t with
      | Raise e => (Raise e, [])
      | Ok records_by_module =>
          let items := iteritems records_by_module in
          let records := concat items.*2 in
          if dry_run then (Ok (Some []), [])
          else (Ok (Some (match last items with
                          | Some item => item.2
                          | None => records
                          end)), items)
      end
  end.

(** ** The watermark store *)

(** [_time_t_of_latest_record()] on the store [db]: the time in the file,
    or [None] if there is no file. *)
Definition _time_t_of_latest_record (db : option Z) : option Z := db.

(** The time of a record, as [_write_time_t_of_latest_record] reads it. *)
Definition record_time (r : gmap string value) : result Z :=
  v ← dict_get r "utc_datetime";
  match v with
  | VDatetime t => Ok t
  | VFloat _ => Raise TypeError
  end.

(** [_write_time_t_of_latest_record(records)]: the new content of the
    store. *)
Definition _write_time_t_of_latest_record
    (records : list (gmap string value)) : result (option Z) :=
  times ← comprehension record_time records;
  match times with
  | [] => Raise ValueError
  | t :: ts => Ok (Some (foldl Z.max t ts))
  end.

(** [main(input_json, utc_timestamp, graphite_host, verbose, dry_run)] run
    on the store [db] (the time in the file, if the file exists): the
    outcome, the store afterwards and the deliveries made. *)
Definition main (input_json : list chart_json) (utc_timestamp : Z)
    (dry_run : bool) (db : option Z)
  : result unit * option Z * list (string * list (gmap string value)) :=
  let time_t_of_latest_record := _time_t_of_latest_record db in
  let '(r, sent) :=
    parse_and_commit_record input_json time_t_of_latest_record
                            utc_timestamp dry_run in
  match r with
  | Raise e => (Raise e, db, sent)
  | Ok None | Ok (Some []) => (Ok tt, db, sent)
  | Ok (Some records) =>
      match _write_time_t_of_latest_record records with
      | Ok db' => (Ok tt, db', sent)
      | Raise e => (Raise e, db, sent)
      end
  end.

End Pipeline.

(** ** The file of the watermark store

    The store above holds the time that the file holds; these are the two
    ends of that file. *)

(** [str(z)] for an [int]. *)
Definition str_of_int (z : Z) : string :=
  if z <? 0 then String "-" (decimal_string (- z)) else decimal_string z.

(** What [print >>f, t] of [_write_time_t_of_latest_record] leaves in the
    file: the time and a newline. *)
Definition written_db (t : Z) : string :=
  str_of_int t ++ String "010" EmptyString.

(** [int(f.read().strip())] of [_time_t_of_latest_record], on the content
    of the file. *)
Definition read_db (content : string) : result Z :=
  int_of_string (strip content).

(** ** Sample inputs *)

(** A chart in the extended encoding, with its "chxt", "chxl" and "chdl"
    parameters and the tokens of its data. *)
Definition sample_chart (chxt chxl : string) (chdl : option string)
    (data : list (list Z)) : GChart :=
  {| params :=
       let p := dict_of_pairs
                  [("chxt", chxt); ("chxl", chxl); ("chd", "e:")] in
       match chdl with
       | Some labels => <["chdl" := labels]> p
       | None => p
       end;
     getdata := data |}.

(** An unlabelled chart with one series, y axis up to 300. *)
Definition one_series (xs ys : list Z) : GChart :=
  sample_chart "x,y" "0:|now|1:|100|200|300" None [xs; ys].

(** The decoded time of token [t] on a window of [secs] seconds is the
    quotient [t * secs / 4095] rounded down, or one less. *)
Definition within_one_below (secs t : Z) : bool :=
  match decode_time (float_literal secs) t with
  | Ok x => (t * secs / 4095 - 1 <=? x) && (x <=? t * secs / 4095)
  | Raise _ => false
  end.

(** ** Vocabulary of the statements *)

(** The segment that switches to axis [d], for a one-digit [d]. *)
Definition marker (d : Z) : string := decimal_string d ++ ":".

(** A segment that is a label, not a marker. *)
Definition plain (label : string) : Prop := endswith label ":" = false.

(** The segments of a label string made of blocks: a marker, then labels. *)
Definition segments_of (blocks : list (Z * list string)) : list string :=
  concat ((λ b, marker b.1 :: b.2) <$> blocks).

(** The labels that the blocks give to axis [i], in order. *)
Definition labels_of_axis (blocks : list (Z * list string)) (i : Z)
  : list string :=
  concat ((filter (λ b, b.1 = i) blocks).*2).

(** The labels of each of [n] axes, for labels [first] before any marker
    followed by [blocks]. *)
Definition axis_labels_of (first : list string)
    (blocks : list (Z * list string)) (n : nat) : list (list string) :=
  (λ k, labels_of_axis ((0, first) :: blocks) (Z.of_nat k)) <$> seq 0 n.

Definition good_block (n : nat) (b : Z * list string) : Prop :=
  0 ≤ b.1 < Z.of_nat n ∧ b.1 ≤ 9 ∧ Forall plain b.2.

(** The series of the aggregator's example, and a series that reports the
    same time twice. *)
Definition sample_series : gmap string (list (Z * float)) :=
  dict_of_pairs [("A", [(10, float_literal 1); (20, float_literal 2)]);
                 ("B", [(10, float_literal 9)])].

Definition duplicate_series : gmap string (list (Z * float)) :=
  dict_of_pairs [("A", [(10, float_literal 1); (10, float_literal 2)])].

(** A "Latency" chart of module [m] on the 30-minute window. *)
Definition latency_chart (m : string) (xs ys : list Z) : chart_json :=
  {| chart_num := 2; module := m; time_window := 0;
     chart := one_series xs ys |}.

(** A chart with the one labelled series "Client (4xx)". *)
Definition client_errors_chart (num : Z) (xs ys : list Z) : chart_json :=
  {| chart_num := num; module := "default"; time_window := 0;
     chart := sample_chart "x,y" "0:|now|1:|100|200|300"
                           (Some "Client (4xx)") [xs; ys] |}.

(** A record with one field and its time. *)
Definition record_of (field : string) (y : float) (t : Z)
  : gmap string value :=
  <["utc_datetime" := VDatetime t]> {[ field := VFloat y ]}.

(** ** Vocabulary of the further properties *)

(** Every character is a decimal digit. *)
Fixpoint is_digits (s : string) : bool :=
  match s with
  | EmptyString => true
  | String c s' => bool_decide (is_Some (digit_of c)) && is_digits s'
  end.

(** No character is white space. *)
Fixpoint no_space (s : string) : bool :=
  match s with
  | EmptyString => true
  | String c s' => negb (is_space c) && no_space s'
  end.

(** [rest] does not go on with a digit. *)
Definition no_digit_ahead (rest : string) : Prop :=
  match rest with
  | EmptyString => True
  | String c _ => digit_of c = None
  end.

(** The finite float [S754_finite s m e] is, up to its sign, the quotient
    of [numerator m e] by [denominator e]. *)
Definition numerator (m : positive) (e : Z) : Z :=
  if 0 <=? e then Z.pos m * 2 ^ e else Z.pos m.

Definition denominator (e : Z) : Z :=
  if 0 <=? e then 1 else 2 ^ (- e).

(** The digits and the exponent that ['%.*e' % (P, x)] prints for a finite
    non-zero [x], as [format_e] computes them: the integer [D] of the
    digits and the exponent [k] of [D / 10^P * 10^k]. *)
Definition printed_decimal (P : nat) (m : positive) (e : Z) : Z * Z :=
  let p := numerator m e in
  let q := denominator e in
  let k := decimal_exponent p q in
  let sc := Z.of_nat P - k in
  let D := if 0 <=? sc then round_half_even (p * 10 ^ sc) q
           else round_half_even p (q * 10 ^ (- sc)) in
  if D =? 10 ^ (Z.of_nat P + 1) then (10 ^ Z.of_nat P, k + 1) else (D, k).

(** A token of the extended encoding. *)
Definition token (t : Z) : Prop := 0 ≤ t ≤ 4095.

(** The length of a window in seconds. *)
Definition window_seconds (hours : Q) : Z :=
  Qnum hours * 3600 / Zpos (Qden hours).

(** The results are all values, in ascending order from [prev] on. *)
Fixpoint ascending_from (prev : Z) (l : list (result Z)) : bool :=
  match l with
  | [] => true
  | Ok x :: l' => (prev <=? x) && ascending_from x l'
  | Raise _ :: _ => false
  end.

(** The quotients [float(x) / 4095] of the tokens 0 to 4095. *)
Definition quotients : list (result float) :=
  (λ t, fx ← float_of_int (Z.of_nat t); Ok (fdiv fx (float_literal 4095)))
    <$> seq 0 4096.

(** The decoded times of the tokens on a window, from their quotients. *)
Definition times_of (qs : list (result float)) (hours : Q)
  : list (result Z) :=
  (λ q, q ≫= λ q, int_of_float (fmul q (total_seconds hours))) <$> qs.

(** The decoded times ascend from 0 to the length of the window. *)
Definition window_check (qs : list (result float)) (hours : Q) : bool :=
  let times := times_of qs hours in
  ascending_from 0 times &&
  match times !! 4095%nat with
  | Some (Ok x) => x =? window_seconds hours
  | _ => false
  end &&
  match times !! 0%nat with
  | Some (Ok x) => x =? 0
  | _ => false
  end.

(** What [unpack_chart_data] asks of a chart before it yields anything:
    extended encoding, axis labels that parse with a number as the last
    label of the y axis, the axes "x,y", and two lists of tokens per
    series label. *)
Definition readable_chart (chart : GChart) (value_max : float) : Prop :=
  ∃ chd labels y_labels last_label,
    params chart !! "chd" = Some chd ∧ startswith chd "e:" = true ∧
    get_axis_labels chart = Ok labels ∧ labels !! "y" = Some y_labels ∧
    last y_labels = Some last_label ∧
    float_of_string last_label = Ok value_max ∧
    params chart !! "chxt" = Some "x,y" ∧
    length (getdata chart) = (2 * length (series_labels_of chart))%nat.

(** A record that carries a time, not before the watermark [start_time_t]
    when that is a time other than 0. *)
Definition timed_from (start_time_t : option Z) (r : gmap string value)
  : Prop :=
  ∃ t, record_time r = Ok t ∧
       ∀ T, start_time_t = Some T → T ≠ 0 → T ≤ t.

(** [t] is the latest of the times of [records]. *)
Definition latest_time (records : list (gmap string value)) (t : Z) : Prop :=
  (∃ r, r ∈ records ∧ record_time r = Ok t) ∧
  ∀ r, r ∈ records → ∃ t', record_time r = Ok t' ∧ t' ≤ t.

(** The chart of [cj] under another chart number. *)
Definition with_chart_num (cj : chart_json) (n : Z) : chart_json :=
  {| chart_num := n; module := module cj; time_window := time_window cj;
     chart := chart cj |}.

(** The (chart label, field name) pairs of the table. *)
Definition chart_fields : list (string * string) :=
  entry ← _label_to_field_map;
  match entry.2 with
  | Single name => [(entry.1, name)]
  | Multi names => (λ kv, (entry.1, kv.2)) <$> map_to_list names
  end.

(** * Properties *)

(** ** Significant-digit rounding *)

Lemma rstrip_exponent s : rstrip (s ++ "e+00") = s ++ "e+00".
Proof.
  induction s as [|c s IH]; [reflexivity|].
  simpl. rewrite IH. by destruct s.
Qed.

Lemma take_digits_zeros k cnt :
  take_digits (zeros k ++ "e+00") 0 cnt = (0, cnt + Z.of_nat k, "e+00").
Proof.
  revert cnt. induction k as [|k IH]; intros cnt.
  - simpl. do 2 f_equal. lia.
  - simpl. rewrite IH. do 2 f_equal. lia.
Qed.

(** A zero printed with any number of digits reads back as the same zero. *)
Lemma float_of_string_format_e_zero P s :
  float_of_string (format_e P (S754_zero s)) = Ok (S754_zero s).
Proof.
  unfold format_e. destruct P as [|k]; [by destruct s|].
  set (body := String "0" (String "." (zeros (S k) ++ "e+00"))).
  change (sign_string s ++ mantissa_string (String "0" (zeros (S k))) ++ "e+00")
    with (sign_string s ++ body).
  assert (Hstrip : strip (sign_string s ++ body) = sign_string s ++ body).
  { unfold strip, body. destruct s; simpl sign_string; simpl lstrip.
    - exact (rstrip_exponent
               (String "-" (String "0" (String "." (zeros (S k)))))).
    - exact (rstrip_exponent (String "0" (String "." (zeros (S k))))). }
  assert (Hsign : take_sign (sign_string s ++ body) = (s, body))
    by (by destruct s).
  unfold float_of_string. rewrite Hstrip, Hsign. unfold body.
  change (lower (String "0" (String "." (zeros (S k) ++ "e+00"))))
    with (String "0" (lower (String "." (zeros (S k) ++ "e+00")))).
  rewrite !bool_decide_eq_false_2 by discriminate.
  simpl. rewrite take_digits_zeros.
  destruct (Z.eqb_spec (0 + 1 + (0 + 1 + Z.of_nat k)) 0) as [?|_]; [lia|].
  reflexivity.
Qed.

(** C8. [round_to_n_significant_digits] rounds to [n] significant figures,
    not to [n] decimal places: 123456 becomes 123500 (which is not 123456)
    and 0.00012345 becomes 0.0001234; it raises an error for every [n < 1];
    and it maps a zero to that zero, for every [n >= 1]. *)
Theorem round_to_n_significant_digits_spec :
  (∀ x n, n < 1 → round_to_n_significant_digits x n = Raise ValueError) ∧
  (∀ s n, 1 ≤ n →
     round_to_n_significant_digits (S754_zero s) n = Ok (S754_zero s)) ∧
  (float_of_string "123456" = Ok (S754_finite false 8483831719919616 (-36)) ∧
   float_of_string "123500" = Ok (S754_finite false 8486855376896000 (-36)) ∧
   round_to_n_significant_digits (S754_finite false 8483831719919616 (-36)) 4
   = Ok (S754_finite false 8486855376896000 (-36))) ∧
  (float_of_string "0.00012345"
   = Ok (S754_finite false 4554501111798888 (-65)) ∧
   float_of_string "0.0001234"
   = Ok (S754_finite false 4552656437391517 (-65)) ∧
   round_to_n_significant_digits (S754_finite false 4554501111798888 (-65)) 4
   = Ok (S754_finite false 4552656437391517 (-65))).
Proof.
  split; [|split; [|split]].
  - intros x n Hn. unfold round_to_n_significant_digits.
    destruct (Z.ltb_spec n 1); [done|lia].
  - intros s n Hn. unfold round_to_n_significant_digits.
    destruct (Z.ltb_spec n 1); [lia|].
    apply float_of_string_format_e_zero.
  - repeat split; vm_compute; reflexivity.
  - repeat split; vm_compute; reflexivity.
Qed.

Lemma round_to_n_significant_digits_witness :
  round_to_n_significant_digits (float_literal 5) 0 = Raise ValueError ∧
  round_to_n_significant_digits (S754_zero false) 4 = Ok (S754_zero false).
Proof.
  split.
  - apply (proj1 round_to_n_significant_digits_spec). lia.
  - apply (proj1 (proj2 round_to_n_significant_digits_spec)). lia.
Defined.

(** ** Decoding of tokens *)

(** A token of 0 decodes to 0 on both axes, whatever the positive scale. *)
Lemma decode_zero m e :
  decode_time (S754_finite false m e) 0 = Ok 0 ∧
  decode_value (S754_finite false m e) 0 = Ok (S754_zero false).
Proof. split; reflexivity. Qed.

(** Multiplying a float by 4095/4095 leaves it as it is. *)
Lemma fmul_one s m e :
  bounded prec emax m e = true →
  fmul (fdiv (float_literal 4095) (float_literal 4095)) (S754_finite s m e)
  = S754_finite s m e.
Proof.
  intros Hb. apply andb_true_iff in Hb as [Hc He].
  unfold canonical_mantissa in Hc. apply Z.eqb_eq in Hc. apply Z.leb_le in He.
  change (fdiv (float_literal 4095) (float_literal 4095))
    with (S754_finite false 4503599627370496 (-52)).
  unfold fmul, SFmul. cbn [xorb].
  change (4503599627370496 * m)%positive with (Pos.iter xO m 52).
  unfold binary_round_aux, shr_fexp.
  assert (Hd : Zdigits2 (Z.pos (Pos.iter xO m 52)) + (-52 + e)
               = Z.pos (digits2_pos m) + e).
  { cbn [Pos.iter Zdigits2 digits2_pos]. lia. }
  rewrite Hd, Hc.
  replace (e - (-52 + e)) with 52 by lia.
  cbn [Pos.iter shr shr_record_of_loc SpecFloat.iter_pos shr_1 orb].
  cbn [shr_m loc_of_shr_record round_nearest_even].
  replace (-52 + e + 52) with e by lia.
  cbn [Zdigits2]. rewrite Hc, Z.sub_diag. cbn [shr shr_m].
  destruct (Z.leb_spec e (emax - prec)); [done|lia].
Qed.

(** Token 4095 decodes to the y-axis maximum, rounded to 4 digits. *)
Lemma decode_value_max s m e :
  bounded prec emax m e = true →
  decode_value (S754_finite s m e) 4095
  = round_to_n_significant_digits (S754_finite s m e) 4.
Proof.
  intros Hb. unfold decode_value.
  change (float_of_int 4095) with (Ok (float_literal 4095)).
  cbn [mbind result_bind]. by rewrite fmul_one.
Qed.

(** On the 6-hour window, the decoded time of every token is the exact
    quotient [t * 21600 / 4095] rounded down, or one less. *)
Lemma decode_time_rounds_down t :
  0 ≤ t ≤ 4095 →
  ∃ x, decode_time (total_seconds (inject_Z 6)) t = Ok x ∧
       t * 21600 / 4095 - 1 ≤ x ≤ t * 21600 / 4095.
Proof.
  intros Ht.
  assert (Hall : forallb (within_one_below 21600) (Z.of_nat <$> seq 0 4096)
                 = true) by (vm_compute; reflexivity).
  rewrite forallb_forall in Hall.
  assert (Hin : In t (Z.of_nat <$> seq 0 4096)).
  { apply list_elem_of_In, list_elem_of_fmap.
    exists (Z.to_nat t). split; [lia|apply elem_of_seq; lia]. }
  apply Hall in Hin. unfold within_one_below in Hin.
  change (float_literal 21600) with (total_seconds (inject_Z 6)) in Hin.
  destruct (decode_time (total_seconds (inject_Z 6)) t) as [x|]; [|done].
  exists x. split; [done|].
  apply andb_true_iff in Hin as [H1 H2].
  apply Z.leb_le in H1, H2. lia.
Qed.

(** C1. At token 3 on the 6-hour window (21600 seconds) the extractor
    decodes the time to 15, although 3/4095 * 21600 = 15.82... lies within
    half a second of 16: the time is cut off, not rounded to the nearest
    second.  At token 1183 the exact value is the whole number 6240 and the
    extractor gives 6239. *)
Theorem unpack_chart_data_truncates_time :
  unpack_chart_data (one_series [3; 1183] [0; 0])
                    (total_seconds (inject_Z 6))
  = ([(None, [(15, S754_zero false); (6239, S754_zero false)])], None) ∧
  (2 * 16 - 1) * 4095 < 2 * (3 * 21600) < (2 * 16 + 1) * 4095 ∧
  1183 * 21600 = 6240 * 4095.
Proof. split; [vm_compute; reflexivity|lia]. Qed.

(** ** Loops and generators *)

Lemma for_each_cons {A S} (body : S → A → result S) a l s :
  for_each body (a :: l) s = (s' ← body s a; for_each body l s').
Proof. done. Qed.

Lemma for_each_app {A S} (body : S → A → result S) l1 l2 s :
  for_each body (l1 ++ l2) s = (s' ← for_each body l1 s; for_each body l2 s').
Proof.
  revert s. induction l1 as [|a l1 IH]; intros s; simpl; [done|].
  destruct (body s a) as [s1|e]; simpl; [apply IH|done].
Qed.

Lemma for_each_raise_at {A S} (body : S → A → result S) pre a post s s' e :
  for_each body pre s = Ok s' → body s' a = Raise e →
  for_each body (pre ++ a :: post) s = Raise e.
Proof.
  intros Hpre Ha. rewrite for_each_app, Hpre. simpl. by rewrite Ha.
Qed.

Lemma generate_ok {A B} (f : A → result B) (Q : A → B → Prop) l :
  (∀ a, a ∈ l → ∃ b, f a = Ok b ∧ Q a b) →
  ∃ bs, generate f l = (bs, None) ∧ Forall2 Q l bs.
Proof.
  induction l as [|a l IH]; intros H; simpl.
  - exists []. by split.
  - destruct (H a) as (b & -> & Hb); [left|].
    destruct IH as (bs & -> & Hbs); [intros; apply H; by right|].
    exists (b :: bs). split; [done|by constructor].
Qed.

Lemma generate_raise {A B} (f : A → result B) l a e :
  a ∈ l → f a = Raise e →
  (∀ a' e', a' ∈ l → f a' = Raise e' → e' = e) →
  ∃ ys, generate f l = (ys, Some e) ∧
        ∀ b, b ∈ ys → ∃ a', a' ∈ l ∧ f a' = Ok b.
Proof.
  induction l as [|a0 l IH]; intros Hin Ha Hall; [by apply elem_of_nil in Hin|].
  simpl. destruct (f a0) as [b0|e0] eqn:E0.
  - apply elem_of_cons in Hin as [->|Hin]; [congruence|].
    destruct IH as (ys & -> & Hys); [done|done|intros; eapply Hall; [by right|done]|].
    exists (b0 :: ys). split; [done|].
    intros b [->|Hb]%elem_of_cons.
    + exists a0. split; [left|done].
    + destruct (Hys b Hb) as (a' & ? & ?). exists a'. split; [by right|done].
  - rewrite (Hall a0 e0); [|left|done]. exists []. split; [done|].
    intros b Hb. by apply elem_of_nil in Hb.
Qed.

Section iteration.
Variable dict_order : list string → list string.
Hypothesis dict_order_perm : ∀ keys, NoDup keys → dict_order keys ≡ₚ keys.

Lemma omap_lookup_items {V} (d : gmap string V) (l : list (string * V)) :
  (∀ kv, kv ∈ l → d !! kv.1 = Some kv.2) →
  omap (λ k, (k,.) <$> d !! k) l.*1 = l.
Proof.
  induction l as [|[k v] l IH]; intros H; simpl; [done|].
  assert (Hk : d !! k = Some v) by (apply (H (k, v)); left).
  rewrite Hk. simpl. f_equal.
  apply IH. intros kv Hkv. apply H. by right.
Qed.

Lemma iteritems_Permutation {V} (d : gmap string V) :
  iteritems dict_order d ≡ₚ map_to_list d.
Proof.
  unfold iteritems.
  rewrite (dict_order_perm _ (NoDup_fst_map_to_list d)).
  rewrite omap_lookup_items; [done|].
  intros [k v] H. by apply elem_of_map_to_list.
Qed.

Lemma elem_of_iteritems {V} (d : gmap string V) k v :
  (k, v) ∈ iteritems dict_order d ↔ d !! k = Some v.
Proof. by rewrite iteritems_Permutation, elem_of_map_to_list. Qed.

Lemma NoDup_fst_iteritems {V} (d : gmap string V) :
  NoDup (iteritems dict_order d).*1.
Proof. rewrite iteritems_Permutation. apply NoDup_fst_map_to_list. Qed.

End iteration.

(** ** The aggregator *)

Section aggregator.
Context {Y : Type}.
Implicit Types (s : list (Z * Y)) (x : Z).

Lemma filter_x_nil s x : filter (λ xy, xy.1 = x) s = [] ↔ x ∉ s.*1.
Proof.
  induction s as [|[a b] s IH]; simpl.
  - split; [intros _; apply not_elem_of_nil|done].
  - rewrite filter_cons. simpl. case_decide as Ha.
    + subst a. split; [done|]. intros H. destruct H. left.
    + rewrite IH, not_elem_of_cons.
      split; [intros ?; split; [congruence|done]|by intros [_ ?]].
Qed.

Lemma filter_x_NoDup s x :
  NoDup s.*1 → (length (filter (λ xy, xy.1 = x) s) ≤ 1)%nat.
Proof.
  induction s as [|[a b] s IH]; simpl; [lia|].
  intros [Ha Hs]%NoDup_cons. rewrite filter_cons. simpl.
  case_decide as Hx; [|by apply IH].
  subst a. apply filter_x_nil in Ha. rewrite Ha. simpl. lia.
Qed.

Lemma NoDup_fst_unique s x y1 y2 :
  NoDup s.*1 → (x, y1) ∈ s → (x, y2) ∈ s → y1 = y2.
Proof.
  induction s as [|[a b] s IH]; simpl; [by intros _ ?%elem_of_nil|].
  rewrite NoDup_cons, !elem_of_cons. intros [Ha Hs] [H1|H1] [H2|H2].
  - congruence.
  - inversion H1; subst. destruct Ha.
    apply list_elem_of_fmap. by exists (a, y2).
  - inversion H2; subst. destruct Ha.
    apply list_elem_of_fmap. by exists (a, y1).
  - by apply IH.
Qed.

Lemma filter_x_two s x i j y1 y2 :
  (i < j)%nat → s !! i = Some (x, y1) → s !! j = Some (x, y2) →
  (2 ≤ length (filter (λ xy, xy.1 = x) s))%nat.
Proof.
  intros Hij Hi Hj.
  rewrite <- (take_drop_middle s i (x, y1) Hi).
  rewrite filter_app, filter_cons_True by done.
  assert (Hj' : drop (S i) s !! (j - S i)%nat = Some (x, y2)).
  { rewrite lookup_drop. rewrite <- Hj. f_equal. lia. }
  rewrite <- (take_drop_middle _ _ _ Hj').
  rewrite filter_app, filter_cons_True by done.
  rewrite !length_app. simpl. rewrite length_app. simpl. lia.
Qed.

Lemma add_matched_raise x (record : gmap string Y) item e :
  add_matched x record item = Raise e → e = AssertionError.
Proof.
  unfold add_matched. simpl. case_bool_decide; simpl; [done|congruence].
Qed.

Lemma add_matched_two x (record : gmap string Y) item :
  (2 ≤ length (filter (λ xy, xy.1 = x) item.2))%nat →
  add_matched x record item = Raise AssertionError.
Proof.
  intros H. unfold add_matched. simpl.
  rewrite bool_decide_eq_false_2; [done|].
  intros [Hl|[Hl|Hl%elem_of_nil]%elem_of_cons]%elem_of_cons; [lia|lia|done].
Qed.

Lemma add_matched_NoDup x (record : gmap string Y) item :
  NoDup item.2.*1 →
  ((x ∉ item.2.*1) ∧ add_matched x record item = Ok record) ∨
  (∃ y, (x, y) ∈ item.2 ∧
        add_matched x record item = Ok (<[item.1 := y]> record)).
Proof.
  intros Hnd. unfold add_matched. simpl.
  pose proof (filter_x_NoDup item.2 x Hnd) as Hlen.
  destruct (filter (λ xy, xy.1 = x) item.2) as [|[x' y] [|]] eqn:E;
    simpl in Hlen; [| |lia].
  - left. split; [by apply filter_x_nil|done].
  - right. exists y.
    assert (Hin : (x', y) ∈ filter (λ xy : Z * Y, xy.1 = x) item.2)
      by (rewrite E; left).
    apply list_elem_of_filter in Hin as [Hx Hin]. simpl in Hx. subst x'.
    split; [done|]. reflexivity.
Qed.

Lemma record_loop_raise x items (record : gmap string Y) :
  (∃ item, item ∈ items ∧
           (2 ≤ length (filter (λ xy, xy.1 = x) item.2))%nat) →
  for_each (add_matched x) items record = Raise AssertionError.
Proof.
  revert record. induction items as [|item items IH]; intros record.
  - intros (it & Hin & _). by apply elem_of_nil in Hin.
  - intros (it & Hin & Hlen). simpl.
    destruct (add_matched x record item) as [record'|e] eqn:E; simpl.
    + apply IH. exists it. split; [|done].
      apply elem_of_cons in Hin as [->|]; [|done].
      by rewrite add_matched_two in E.
    + by rewrite (add_matched_raise _ _ _ _ E).
Qed.

Lemma record_loop_ok x items (record0 : gmap string Y) :
  NoDup items.*1 → Forall (λ item, NoDup item.2.*1) items →
  ∃ record, for_each (add_matched x) items record0 = Ok record ∧
    ∀ name y, record !! name = Some y ↔
      (∃ s, (name, s) ∈ items ∧ (x, y) ∈ s) ∨
      ((∀ s, (name, s) ∈ items → x ∉ s.*1) ∧ record0 !! name = Some y).
Proof.
  revert record0. induction items as [|[n s] items IH]; intros record0.
  - intros _ _. exists record0. split; [done|]. intros name y. split.
    + intros H. right. split; [|done]. by intros ? ?%elem_of_nil.
    + intros [(? & []%elem_of_nil & _)|[_ ?]]; done.
  - rewrite fmap_cons.
    intros [Hn Hnd]%NoDup_cons [Hs Hall]%Forall_cons.
    cbn [for_each fst snd] in *.
    assert (Hrest : ∀ s', (n, s') ∉ items).
    { intros s' Hin. apply Hn. apply list_elem_of_fmap. by exists (n, s'). }
    destruct (add_matched_NoDup x record0 (n, s) Hs)
      as [[Hx ->]|(y0 & Hy0 & ->)]; cbn [fst snd mbind result_bind] in *;
      [destruct (IH record0 Hnd Hall) as (record & -> & Hrec)
      |destruct (IH (<[n:=y0]> record0) Hnd Hall) as (record & -> & Hrec)];
      exists record; (split; [done|]); intros name y; rewrite Hrec;
      clear Hrec IH.
    + split.
      * intros [(s' & Hin & Hxy)|[Hno Hr]].
        -- left. exists s'. split; [by right|done].
        -- right. split; [|done].
           intros s' [Heq|Hin]%elem_of_cons; [by inversion Heq; subst|].
           by apply Hno.
      * intros [(s' & [Heq|Hin]%elem_of_cons & Hxy)|[Hno Hr]].
        -- inversion Heq; subst. destruct Hx.
           apply list_elem_of_fmap. by exists (x, y).
        -- left. by exists s'.
        -- right. split; [|done]. intros s' Hin. apply Hno. by right.
    + destruct (decide (name = n)) as [->|Hne].
      * rewrite lookup_insert_eq. split.
        -- intros [(s' & Hin & _)|[_ Hr]].
           ++ by apply Hrest in Hin.
           ++ left. exists s. split; [left|]. by inversion Hr; subst.
        -- intros [(s' & [Heq|Hin]%elem_of_cons & Hxy)|[Hno _]].
           ++ inversion Heq; subst. right. split.
              ** intros s0 Hs0. by apply Hrest in Hs0.
              ** f_equal. eapply NoDup_fst_unique; eauto.
           ++ by apply Hrest in Hin.
           ++ destruct (Hno s); [left|].
              apply list_elem_of_fmap. by exists (x, y0).
      * rewrite lookup_insert_ne by done. split.
        -- intros [(s' & Hin & Hxy)|[Hno Hr]].
           ++ left. exists s'. split; [by right|done].
           ++ right. split; [|done].
              intros s' [Heq|Hin]%elem_of_cons; [by inversion Heq|].
              by apply Hno.
        -- intros [(s' & [Heq|Hin]%elem_of_cons & Hxy)|[Hno Hr]].
           ++ by inversion Heq.
           ++ left. by exists s'.
           ++ right. split; [|done]. intros s' Hin. apply Hno. by right.
Qed.

End aggregator.

Lemma StronglySorted_le_lt (l : list Z) :
  StronglySorted Z.le l → NoDup l → StronglySorted Z.lt l.
Proof.
  induction 1 as [|a l Hss IH Hall]; [constructor|].
  rewrite NoDup_cons. intros [Ha Hnd]. constructor; [by apply IH|].
  rewrite Forall_forall in Hall. apply Forall_forall. intros y Hy.
  specialize (Hall y Hy). assert (a ≠ y) by congruence. lia.
Qed.

Lemma Forall2_elem_of_r {A B} (Q : A → B → Prop) l bs b :
  Forall2 Q l bs → b ∈ bs → ∃ a, a ∈ l ∧ Q a b.
Proof.
  induction 1 as [|a b' l bs Hab _ IH]; [by intros ?%elem_of_nil|].
  rewrite elem_of_cons. intros [->|Hb].
  - exists a. split; [left|done].
  - destruct (IH Hb) as (a' & ? & ?). exists a'. split; [by right|done].
Qed.

Lemma Forall2_fst_eq {A B} (Q : A → A * B → Prop) l bs :
  Forall2 Q l bs → (∀ a b, Q a b → b.1 = a) → bs.*1 = l.
Proof.
  intros H HQ. induction H as [|a b l bs Hab _ IH]; [done|].
  rewrite fmap_cons, IH. f_equal. by apply HQ.
Qed.

Section aggregate.
Variable dict_order : list string → list string.
Hypothesis dict_order_perm : ∀ keys, NoDup keys → dict_order keys ≡ₚ keys.
Context {Y : Type}.
Implicit Types (named_series : gmap string (list (Z * Y))).

Lemma elem_of_x_values_fold (items : list (string * list (Z * Y)))
    (X0 : gset Z) x :
  x ∈ foldl (λ (X : gset Z) item, X ∪ list_to_set item.2.*1) X0 items ↔
  x ∈ X0 ∨ ∃ item, item ∈ items ∧ x ∈ item.2.*1.
Proof.
  revert X0. induction items as [|item items IH]; intros X0; simpl.
  - split; [by left|]. intros [?|(? & ?%elem_of_nil & _)]; done.
  - rewrite IH, elem_of_union, elem_of_list_to_set. split.
    + intros [[?|?]|(it & ? & ?)]; [by left| |].
      * right. exists item. split; [left|done].
      * right. exists it. split; [by right|done].
    + intros [?|(it & Hin & ?)]; [by left; left|].
      apply elem_of_cons in Hin as [->|Hin]; [by left; right|].
      right. by exists it.
Qed.

Lemma elem_of_x_values_of named_series x :
  x ∈ x_values_of dict_order named_series ↔
  ∃ name s y, named_series !! name = Some s ∧ (x, y) ∈ s.
Proof.
  unfold x_values_of. rewrite elem_of_x_values_fold. split.
  - intros [?%not_elem_of_empty|([name s] & Hin & Hx)]; [done|].
    apply (elem_of_iteritems dict_order dict_order_perm) in Hin.
    apply list_elem_of_fmap in Hx as ([x' y] & -> & Hxy).
    by exists name, s, y.
  - intros (name & s & y & Hs & Hxy). right. exists (name, s). split.
    + by apply (elem_of_iteritems dict_order dict_order_perm).
    + apply list_elem_of_fmap. by exists (x, y).
Qed.

Lemma aggregate_record_fst named_series a b :
  aggregate_record dict_order named_series a = Ok b → b.1 = a.
Proof.
  unfold aggregate_record.
  destruct (for_each _ _ _); simpl; [|done]. by intros [= <-].
Qed.

Lemma aggregate_record_raise named_series a e :
  aggregate_record dict_order named_series a = Raise e → e = AssertionError.
Proof.
  unfold aggregate_record.
  generalize (∅ : gmap string Y).
  induction (iteritems dict_order named_series) as [|item items IH];
    intros record; simpl; [done|].
  destruct (add_matched a record item) as [record'|e'] eqn:E; simpl.
  - apply IH.
  - intros [= <-]. by apply add_matched_raise in E.
Qed.

(** C2. When no series repeats an x value, the aggregator runs to the end
    and yields the records in strictly ascending order of x, one for each x
    value that appears in any series, and the record at [x] holds field
    [name] with value [y] exactly when the series [name] has the point
    [(x, y)]: a series with no point at [x] is left out of the record. *)
Theorem aggregate_series_by_time_union named_series :
  (∀ name s, named_series !! name = Some s → NoDup s.*1) →
  ∃ records,
    aggregate_series_by_time dict_order named_series = (records, None) ∧
    StronglySorted Z.lt records.*1 ∧
    (∀ x, x ∈ records.*1 ↔
          ∃ name s y, named_series !! name = Some s ∧ (x, y) ∈ s) ∧
    (∀ x record, (x, record) ∈ records →
       ∀ name y, record !! name = Some y ↔
                 ∃ s, named_series !! name = Some s ∧ (x, y) ∈ s).
Proof.
  intros Hnd. unfold aggregate_series_by_time.
  set (xs := merge_sort Z.le (elements (x_values_of dict_order named_series))).
  set (Q := λ (a : Z) (b : Z * gmap string Y),
         b.1 = a ∧ ∀ name y, b.2 !! name = Some y ↔
                             ∃ s, named_series !! name = Some s ∧ (a, y) ∈ s).
  destruct (generate_ok (aggregate_record dict_order named_series) Q xs)
    as (records & Hgen & Hall).
  { intros a _. unfold aggregate_record.
    destruct (record_loop_ok a (iteritems dict_order named_series) ∅)
      as (record & -> & Hrec).
    - by apply NoDup_fst_iteritems.
    - apply Forall_forall. intros [name s] Hin. simpl.
      apply (elem_of_iteritems dict_order dict_order_perm) in Hin. eauto.
    - exists (a, record). split; [done|]. split; [done|].
      intros name y. simpl. rewrite Hrec. split.
      + intros [(s & Hin & Hxy)|[_ Hempty]]; [|by rewrite lookup_empty in Hempty].
        exists s. split; [|done].
        by apply (elem_of_iteritems dict_order dict_order_perm).
      + intros (s & Hs & Hxy). left. exists s. split; [|done].
        by apply (elem_of_iteritems dict_order dict_order_perm). }
  exists records. split; [done|].
  assert (Hfst : records.*1 = xs).
  { apply (Forall2_fst_eq Q); [done|]. by intros a b [? _]. }
  rewrite Hfst. split; [|split].
  - apply StronglySorted_le_lt.
    + apply StronglySorted_merge_sort; apply _.
    + unfold xs. rewrite merge_sort_Permutation. apply NoDup_elements.
  - intros x. unfold xs.
    rewrite merge_sort_Permutation, elem_of_elements.
    apply elem_of_x_values_of.
  - intros x record Hin.
    destruct (Forall2_elem_of_r Q xs records _ Hall Hin) as (a & _ & Ha & Hrec).
    simpl in Ha, Hrec. by subst a.
Qed.

(** C6. When a series has two points with the same x value, the
    aggregator raises an assertion error, and yields no record for that x
    value before it does. *)
Theorem aggregate_series_by_time_duplicate named_series name s i j x y1 y2 :
  named_series !! name = Some s →
  i ≠ j → s !! i = Some (x, y1) → s !! j = Some (x, y2) →
  ∃ records,
    aggregate_series_by_time dict_order named_series
    = (records, Some AssertionError) ∧
    x ∉ records.*1.
Proof.
  intros Hs Hij Hi Hj. unfold aggregate_series_by_time.
  set (xs := merge_sort Z.le (elements (x_values_of dict_order named_series))).
  assert (Hx : x ∈ xs).
  { unfold xs. rewrite merge_sort_Permutation, elem_of_elements.
    apply elem_of_x_values_of. exists name, s, y1. split; [done|].
    by eapply list_elem_of_lookup_2. }
  assert (Hraise : aggregate_record dict_order named_series x
                   = Raise AssertionError).
  { unfold aggregate_record. rewrite record_loop_raise; [done|].
    exists (name, s). split.
    - by apply (elem_of_iteritems dict_order dict_order_perm).
    - simpl. destruct (Nat.lt_total i j) as [?|[?|?]]; [|done|].
      + by apply (filter_x_two s x i j y1 y2).
      + by apply (filter_x_two s x j i y2 y1). }
  destruct (generate_raise (aggregate_record dict_order named_series)
              xs x AssertionError Hx Hraise) as (records & -> & Hok).
  { intros a e _. apply aggregate_record_raise. }
  exists records. split; [done|].
  intros ([x' record] & -> & Hin)%list_elem_of_fmap. simpl in *.
  destruct (Hok _ Hin) as (a & _ & Ha).
  pose proof (aggregate_record_fst _ _ _ Ha) as Hfst. simpl in Hfst.
  subst a. congruence.
Qed.

End aggregate.

Lemma aggregate_series_by_time_union_witness :
  ∃ records,
    aggregate_series_by_time (λ keys, keys) sample_series = (records, None) ∧
    StronglySorted Z.lt records.*1 ∧
    (∀ x, x ∈ records.*1 ↔
          ∃ name s y, sample_series !! name = Some s ∧ (x, y) ∈ s) ∧
    (∀ x record, (x, record) ∈ records →
       ∀ name y, record !! name = Some y ↔
                 ∃ s, sample_series !! name = Some s ∧ (x, y) ∈ s).
Proof.
  apply (aggregate_series_by_time_union (λ keys, keys)).
  - intros keys _. reflexivity.
  - apply (bool_decide_unpack
             (map_Forall (λ _ (s : list (Z * float)), NoDup s.*1)
                         sample_series)).
    vm_compute. exact I.
Defined.

(** The example of the aggregator: A = [(10, 1.0), (20, 2.0)] and
    B = [(10, 9.0)] give (10, {A: 1.0, B: 9.0}) and (20, {A: 2.0}). *)
Example aggregate_series_by_time_sample :
  aggregate_series_by_time (λ keys, keys) sample_series
  = ([(10, dict_of_pairs [("A", float_literal 1); ("B", float_literal 9)]);
      (20, dict_of_pairs [("A", float_literal 2)])], None).
Proof. vm_compute. reflexivity. Qed.

Lemma aggregate_series_by_time_duplicate_witness :
  ∃ records,
    aggregate_series_by_time (λ keys, keys) duplicate_series
    = (records, Some AssertionError) ∧
    10 ∉ records.*1.
Proof.
  apply (aggregate_series_by_time_duplicate (λ keys, keys)
           (λ keys _, reflexivity keys) duplicate_series "A"
           [(10, float_literal 1); (10, float_literal 2)] 0%nat 1%nat 10
           (float_literal 1) (float_literal 2)).
  - reflexivity.
  - lia.
  - reflexivity.
  - reflexivity.
Defined.

(** ** The axis-label parser *)

Lemma marker_shape d :
  0 ≤ d ≤ 9 →
  endswith (marker d) ":" = true ∧
  int_of_string (first_char (marker d)) = Ok d.
Proof.
  intros Hd.
  assert (Hcases : d = 0 ∨ d = 1 ∨ d = 2 ∨ d = 3 ∨ d = 4 ∨ d = 5 ∨ d = 6 ∨
                   d = 7 ∨ d = 8 ∨ d = 9) by lia.
  destruct Hcases as [->|[->|[->|[->|[->|[->|[->|[->|[->| ->]]]]]]]]];
    split; reflexivity.
Qed.

Lemma marker_step n d i labs :
  0 ≤ d ≤ 9 →
  axis_label_step n (i, labs) (marker d)
  = if d <? Z.of_nat n then Ok (d, labs) else Raise AssertionError.
Proof.
  intros Hd. destruct (marker_shape d Hd) as [Hend Hint].
  unfold axis_label_step. rewrite Hend, Hint. simpl.
  destruct (Z.leb_spec 0 d); [|lia]. simpl.
  by destruct (d <? Z.of_nat n).
Qed.

Lemma plain_step n i labs label :
  plain label → (0 ≤ i < Z.of_nat (length labs)) →
  axis_label_step n (i, labs) label
  = Ok (i, alter (λ l, l ++ [label])%list (Z.to_nat i) labs).
Proof.
  intros Hp Hi. unfold axis_label_step, position. rewrite Hp.
  destruct (Z.ltb_spec i 0); [lia|].
  destruct (Z.leb_spec 0 i); [|lia].
  destruct (Z.ltb_spec i (Z.of_nat (length labs))); [|lia].
  reflexivity.
Qed.

Lemma plain_loop n labels i labs :
  Forall plain labels → (0 ≤ i < Z.of_nat (length labs)) →
  for_each (axis_label_step n) labels (i, labs)
  = Ok (i, alter (λ l, l ++ labels)%list (Z.to_nat i) labs).
Proof.
  intros Hp. revert labs. induction Hp as [|label labels Hl _ IH]; intros labs Hi.
  - simpl. f_equal. f_equal. apply list_eq. intros k.
    rewrite list_lookup_alter. case_decide; [subst k|done].
    destruct (labs !! Z.to_nat i); simpl; [|done]. by rewrite app_nil_r.
  - rewrite for_each_cons, plain_step by done. simpl.
    rewrite IH by (by rewrite length_alter).
    f_equal. f_equal. apply list_eq. intros k.
    rewrite !list_lookup_alter. case_decide; [subst k|done].
    rewrite decide_True by done.
    destruct (labs !! Z.to_nat i); simpl; [|done].
    by rewrite <- app_assoc.
Qed.

Lemma labels_of_axis_cons d g blocks i :
  labels_of_axis ((d, g) :: blocks) i
  = if decide (d = i) then (g ++ labels_of_axis blocks i)%list
    else labels_of_axis blocks i.
Proof. unfold labels_of_axis. rewrite filter_cons. simpl. by case_decide. Qed.

Lemma blocks_loop n blocks i labs :
  Forall (good_block n) blocks →
  0 ≤ i < Z.of_nat n → length labs = n →
  ∃ i', 0 ≤ i' < Z.of_nat n ∧
    for_each (axis_label_step n) (segments_of blocks) (i, labs)
    = Ok (i', imap (λ k l, l ++ labels_of_axis blocks (Z.of_nat k))%list labs).
Proof.
  intros Hb. revert i labs.
  induction Hb as [|[d g] blocks (Hd & Hd9 & Hg) _ IH]; intros i labs Hi Hlen.
  - exists i. split; [done|]. simpl. f_equal. f_equal.
    apply list_eq. intros k. rewrite list_lookup_imap.
    destruct (labs !! k); simpl; [|done]. by rewrite app_nil_r.
  - simpl in Hd, Hd9, Hg. unfold segments_of.
    rewrite fmap_cons, concat_cons. cbn [fst snd].
    fold (segments_of blocks).
    rewrite <- app_comm_cons, for_each_cons, marker_step by lia.
    destruct (Z.ltb_spec d (Z.of_nat n)); [|lia]. simpl.
    rewrite for_each_app, plain_loop by (done || lia). simpl.
    destruct (IH d (alter (λ l, l ++ g)%list (Z.to_nat d) labs)) as (i' & Hi' & ->);
      [done|by rewrite length_alter|].
    exists i'. split; [done|]. f_equal. f_equal.
    apply list_eq. intros k. rewrite !list_lookup_imap, list_lookup_alter.
    rewrite labels_of_axis_cons.
    case_decide as Hk.
    + subst k. rewrite Z2Nat.id by lia. rewrite decide_True by done.
      destruct (labs !! Z.to_nat d); simpl; [|done]. by rewrite <- app_assoc.
    + rewrite decide_False by lia. done.
Qed.

Lemma split_length sep s : (0 < length (split sep s))%nat.
Proof.
  induction s as [|c s IH]; simpl; [lia|].
  destruct (Ascii.eqb c sep); simpl; [lia|].
  destruct (split sep s); simpl in *; lia.
Qed.

Lemma segments_loop n first blocks :
  (0 < n)%nat → Forall plain first → Forall (good_block n) blocks →
  ∃ i', 0 ≤ i' < Z.of_nat n ∧
    for_each (axis_label_step n) (first ++ segments_of blocks)
             (0, replicate n [])
    = Ok (i', axis_labels_of first blocks n).
Proof.
  intros Hn Hf Hb.
  rewrite for_each_app, plain_loop by (done || rewrite length_replicate; lia).
  cbn [mbind result_bind].
  destruct (blocks_loop n blocks 0
              (alter (λ l, l ++ first)%list (Z.to_nat 0) (replicate n [])))
    as (i' & Hi' & ->); [done|lia|by rewrite length_alter, length_replicate|].
  exists i'. split; [done|]. f_equal. f_equal.
  apply list_eq. intros k. unfold axis_labels_of.
  rewrite list_lookup_imap, list_lookup_alter, list_lookup_fmap.
  change (Z.to_nat 0) with 0%nat.
  destruct (decide (k < n)%nat) as [Hk|Hk].
  - rewrite lookup_seq_lt by done. simpl. rewrite labels_of_axis_cons.
    case_decide as Hk0.
    + subst k. by rewrite lookup_replicate_2 by done.
    + rewrite lookup_replicate_2 by done. simpl.
      by rewrite decide_False by lia.
  - rewrite lookup_seq_ge by lia. simpl.
    case_decide; [subst k; lia|].
    assert (Hnone : replicate n ([] : list string) !! k = None)
      by (apply lookup_replicate_None; lia).
    by rewrite Hnone.
Qed.

Lemma fmap_const_replicate {A B} (b : B) (l : list A) :
  (λ _, b) <$> l = replicate (length l) b.
Proof. induction l; simpl; [done|by f_equal]. Qed.

(** The example of the function's docstring format, for any chart with these
    two parameters. *)
Lemma get_axis_labels_example chart :
  params chart !! "chxt" = Some "x,y" →
  params chart !! "chxl" = Some "0:|a|b|1:|c|d|e" →
  get_axis_labels chart
  = Ok (dict_of_pairs [("x", ["a"; "b"]); ("y", ["c"; "d"; "e"])]).
Proof.
  intros Hxt Hxl. unfold get_axis_labels, dict_get. rewrite Hxt, Hxl.
  vm_compute. reflexivity.
Qed.

(** C9. With "chxt" = "x,y" and "chxl" = "0:|a|b|1:|c|d|e", parsing yields
    {x: [a, b], y: [c, d, e]}.  More generally, when the segments of "chxl"
    are labels followed by blocks, each a marker "<digit>:" of an axis in
    bounds followed by labels, every axis gets the labels of its blocks, in
    order (labels before the first marker go to axis 0).  A marker whose
    digit is not below the number of axes raises an assertion error. *)
Theorem get_axis_labels_spec :
  (∀ chart,
     params chart !! "chxt" = Some "x,y" →
     params chart !! "chxl" = Some "0:|a|b|1:|c|d|e" →
     get_axis_labels chart
     = Ok (dict_of_pairs [("x", ["a"; "b"]); ("y", ["c"; "d"; "e"])])) ∧
  (∀ chart chxt chxl first blocks,
     params chart !! "chxt" = Some chxt →
     params chart !! "chxl" = Some chxl →
     split "|" chxl = (first ++ segments_of blocks)%list →
     Forall plain first →
     Forall (good_block (length (split "," chxt))) blocks →
     get_axis_labels chart
     = Ok (dict_of_pairs
             (zip (split "," chxt)
                  (axis_labels_of first blocks (length (split "," chxt)))))) ∧
  (∀ chart chxt chxl first blocks d rest,
     params chart !! "chxt" = Some chxt →
     params chart !! "chxl" = Some chxl →
     split "|" chxl = (first ++ segments_of blocks ++ marker d :: rest)%list →
     Forall plain first →
     Forall (good_block (length (split "," chxt))) blocks →
     Z.of_nat (length (split "," chxt)) ≤ d ≤ 9 →
     get_axis_labels chart = Raise AssertionError).
Proof.
  split; [exact get_axis_labels_example|split].
  - intros chart chxt chxl first blocks Hxt Hxl Hsplit Hf Hb.
    unfold get_axis_labels, dict_get. rewrite Hxt, Hxl. simpl.
    rewrite Hsplit, fmap_const_replicate.
    destruct (segments_loop (length (split "," chxt)) first blocks)
      as (i' & _ & ->); [apply split_length|done|done|].
    reflexivity.
  - intros chart chxt chxl first blocks d rest Hxt Hxl Hsplit Hf Hb Hd.
    unfold get_axis_labels, dict_get. rewrite Hxt, Hxl. simpl.
    rewrite Hsplit, fmap_const_replicate, app_assoc, for_each_app.
    destruct (segments_loop (length (split "," chxt)) first blocks)
      as (i' & _ & ->); [apply split_length|done|done|].
    cbn [mbind result_bind]. rewrite for_each_cons, marker_step by lia.
    destruct (Z.ltb_spec d (Z.of_nat (length (split "," chxt)))); [lia|].
    reflexivity.
Qed.

Lemma get_axis_labels_witness :
  get_axis_labels (sample_chart "x,y" "0:|a|b|1:|c|d|e" None [])
  = Ok (dict_of_pairs [("x", ["a"; "b"]); ("y", ["c"; "d"; "e"])]) ∧
  get_axis_labels (sample_chart "x,y" "t|1:|c|0:|a|1:|d" None [])
  = Ok (dict_of_pairs
          (zip ["x"; "y"]
               (axis_labels_of ["t"] [(1, ["c"]); (0, ["a"]); (1, ["d"])]
                               2))) ∧
  get_axis_labels (sample_chart "x,y" "0:|a|2:|b" None [])
  = Raise AssertionError.
Proof.
  split; [|split].
  - apply (proj1 get_axis_labels_spec); reflexivity.
  - apply (proj1 (proj2 get_axis_labels_spec)
             (sample_chart "x,y" "t|1:|c|0:|a|1:|d" None [])
             "x,y" "t|1:|c|0:|a|1:|d" ["t"]
             [(1, ["c"]); (0, ["a"]); (1, ["d"])]);
      try reflexivity.
    + repeat constructor.
    + repeat constructor; simpl; lia.
  - apply (proj2 (proj2 get_axis_labels_spec)
             (sample_chart "x,y" "0:|a|2:|b" None [])
             "x,y" "0:|a|2:|b" [] [(0, ["a"])] 2 ["b"]);
      try reflexivity.
    + constructor.
    + repeat constructor; simpl; lia.
    + simpl. lia.
Defined.

(** ** The orchestrator *)

Lemma same_time_window_mixed input i j ci cj :
  input !! i = Some ci → input !! j = Some cj →
  time_window ci ≠ time_window cj →
  same_time_window input = false.
Proof.
  intros Hi Hj Hne. destruct input as [|first rest]; [done|].
  unfold same_time_window. apply not_true_is_false. intros Hall.
  rewrite forallb_forall in Hall.
  assert (Hci : time_window ci = time_window first).
  { apply Z.eqb_eq, Hall, list_elem_of_In. by eapply list_elem_of_lookup_2. }
  assert (Hcj : time_window cj = time_window first).
  { apply Z.eqb_eq, Hall, list_elem_of_In. by eapply list_elem_of_lookup_2. }
  congruence.
Qed.

Lemma parse_and_commit_record_raise dict_order input start download dry_run e :
  input ≠ [] →
  build_records dict_order input start download = Raise e →
  parse_and_commit_record dict_order input start download dry_run
  = (Raise e, []).
Proof.
  intros Hne Hb. unfold parse_and_commit_record.
  destruct input; [done|]. by rewrite Hb.
Qed.

Lemma parse_and_commit_record_raised dict_order input start download dry_run :
  raised (parse_and_commit_record dict_order input start download dry_run).1 →
  ∃ e, parse_and_commit_record dict_order input start download dry_run
       = (Raise e, []).
Proof.
  unfold parse_and_commit_record. destruct input; [done|].
  destruct (build_records _ _ _ _) as [records|e]; [|by exists e].
  by destruct dry_run.
Qed.

(** C7. A batch in which two charts have different time-window indices
    fails in the first part of [parse_and_commit_record], before any record
    is aggregated: by the assertion, if the extraction of every chart
    succeeds, and by the error of the extraction otherwise.  Nothing is
    delivered and the stored watermark is unchanged. *)
Theorem mixed_time_windows_rejected dict_order input start_time_t
    download_time_t dry_run db i j ci cj :
  input !! i = Some ci → input !! j = Some cj →
  time_window ci ≠ time_window cj →
  raised (extract_all input) ∧
  (∀ st, for_each extract_chart input (∅, None) = Ok st →
         extract_all input = Raise AssertionError) ∧
  ∃ e, parse_and_commit_record dict_order input start_time_t
         download_time_t dry_run = (Raise e, []) ∧
       main dict_order input download_time_t dry_run db = (Raise e, db, []).
Proof.
  intros Hi Hj Hne.
  pose proof (same_time_window_mixed input i j ci cj Hi Hj Hne) as Hmixed.
  assert (Hall : ∀ st, for_each extract_chart input (∅, None) = Ok st →
                       extract_all input = Raise AssertionError).
  { intros st Hst. unfold extract_all. by rewrite Hst, Hmixed. }
  assert (Hraised : ∃ e, extract_all input = Raise e).
  { destruct (for_each extract_chart input (∅, None)) as [st|e] eqn:E.
    - exists AssertionError. by apply (Hall st).
    - exists e. unfold extract_all. by rewrite E. }
  destruct Hraised as [e He].
  split; [by rewrite He|]. split; [done|].
  assert (Hne' : input ≠ []) by (by destruct input).
  assert (Hb : ∀ start, build_records dict_order input start download_time_t
                        = Raise e)
    by (intros start; unfold build_records; by rewrite He).
  exists e. split.
  - by apply parse_and_commit_record_raise.
  - unfold main.
    by rewrite (parse_and_commit_record_raise _ _ _ _ _ e Hne' (Hb db)).
Qed.

(** C5. If a step of the pipeline raises an error -- the extraction of a
    chart (which includes the resolution of its field names), or the
    aggregation and filtering of a module's series, or anything else up to
    the records of each module -- then [main] raises that error, the stored
    watermark is the one it started with and nothing has been delivered.
    Whenever [main] raises, the stored watermark is unchanged. *)
Theorem main_failure_keeps_watermark dict_order input utc_timestamp dry_run db :
  (∀ pre c post st e,
     input = (pre ++ c :: post)%list →
     for_each extract_chart pre (∅, None) = Ok st →
     extract_chart st c = Raise e →
     main dict_order input utc_timestamp dry_run db = (Raise e, db, [])) ∧
  (∀ extracted download pre item post acc e,
     input ≠ [] →
     extract_all input = Ok extracted →
     float_of_int utc_timestamp = Ok download →
     iteritems dict_order extracted.1 = (pre ++ item :: post)%list →
     for_each (module_records dict_order
                 (fsub download (total_seconds extracted.2)) db) pre ∅
     = Ok acc →
     module_records dict_order (fsub download (total_seconds extracted.2)) db
                    acc item = Raise e →
     main dict_order input utc_timestamp dry_run db = (Raise e, db, [])) ∧
  (∀ e, input ≠ [] →
        build_records dict_order input db utc_timestamp = Raise e →
        main dict_order input utc_timestamp dry_run db = (Raise e, db, [])) ∧
  (raised (main dict_order input utc_timestamp dry_run db).1.1 →
   (main dict_order input utc_timestamp dry_run db).1.2 = db).
Proof.
  assert (Hbuild : ∀ e, input ≠ [] →
            build_records dict_order input db utc_timestamp = Raise e →
            main dict_order input utc_timestamp dry_run db = (Raise e, db, [])).
  { intros e Hne Hb. unfold main.
    by rewrite (parse_and_commit_record_raise _ _ _ _ _ e Hne Hb). }
  split; [|split; [|split; [done|]]].
  - intros pre c post st e -> Hpre Hc. apply Hbuild; [by destruct pre|].
    unfold build_records, extract_all.
    by rewrite (for_each_raise_at _ _ _ _ _ _ _ Hpre Hc).
  - intros extracted download pre item post acc e Hne Hex Hd Hitems Hpre Hitem.
    apply Hbuild; [done|]. unfold build_records. rewrite Hex, Hd. simpl.
    rewrite Hitems. by apply (for_each_raise_at _ _ _ _ _ acc).
  - unfold main.
    destruct (parse_and_commit_record _ _ _ _ _) as [[[[|r records]|]|e] sent];
      simpl; try done.
    by destruct (_write_time_t_of_latest_record _).
Qed.

Lemma store_series_spec chart_label module_name
    (by_module : gmap string (gmap string (list (Z * float))))
    series_label xy_pairs field_name :
  lookup_field_name chart_label series_label = Ok field_name →
  store_series chart_label module_name by_module (series_label, xy_pairs)
  = Ok (<[module_name :=
            <[field_name := xy_pairs]> (default ∅ (by_module !! module_name))]>
          by_module).
Proof.
  intros Hf. unfold store_series. simpl. rewrite Hf. simpl.
  destruct (by_module !! module_name) as [named|] eqn:E; simpl.
  - unfold dict_get. by rewrite E.
  - unfold dict_get. rewrite lookup_insert_eq. simpl.
    by rewrite insert_insert_eq.
Qed.

(** C10. 'Summary' and 'Error Details' both map the series 'Client (4xx)'
    to 'client_errors_per_second'.  Storing a series whose field name
    resolves never fails, whatever the module already holds under that
    name: the new series takes the place of the old one, and no other
    field changes.  So a batch with both charts for one module raises no
    error and its records carry the data of the later chart only. *)
Theorem same_field_name_replaces_series :
  (lookup_field_name "Summary" (Some "Client (4xx)")
   = Ok "client_errors_per_second" ∧
   lookup_field_name "Error Details" (Some "Client (4xx)")
   = Ok "client_errors_per_second") ∧
  (∀ chart_label module_name by_module series_label xy_pairs field_name,
     lookup_field_name chart_label series_label = Ok field_name →
     ∃ by_module',
       store_series chart_label module_name by_module
                    (series_label, xy_pairs) = Ok by_module' ∧
       (by_module' !! module_name ≫= (.!! field_name)) = Some xy_pairs ∧
       ∀ m f, (m, f) ≠ (module_name, field_name) →
              (by_module' !! m ≫= (.!! f)) = (by_module !! m ≫= (.!! f))) ∧
  (extract_all [client_errors_chart 0 [0] [4095];
                client_errors_chart 4 [0] [0]]
   = Ok ({[ "default" :=
              {[ "client_errors_per_second" := [(0, S754_zero false)] ]} ]},
         0.5%Q) ∧
   main (λ keys, keys)
        [client_errors_chart 0 [0] [4095]; client_errors_chart 4 [0] [0]]
        1800 false None
   = (Ok tt, Some 0,
      [("default",
        [record_of "client_errors_per_second" (S754_zero false) 0])])).
Proof.
  split; [split; vm_compute; reflexivity|]. split.
  - intros chart_label module_name by_module series_label xy_pairs field_name
      Hf.
    eexists. split; [by apply store_series_spec|]. split.
    + rewrite lookup_insert_eq. simpl. by rewrite lookup_insert_eq.
    + intros m f Hne. destruct (decide (m = module_name)) as [->|Hm].
      * rewrite lookup_insert_eq. simpl.
        rewrite lookup_insert_ne by congruence.
        by destruct (by_module !! module_name).
      * by rewrite lookup_insert_ne.
  - split; vm_compute; reflexivity.
Qed.

(** ** The watermark *)

Lemma is_new_record_no_watermark t : is_new_record None t = true.
Proof. done. Qed.

Lemma is_new_record_watermark T t :
  T ≠ 0 → is_new_record (Some T) t = float_gt_int t T.
Proof.
  intros HT. unfold is_new_record, not_time.
  by destruct (Z.eqb_spec T 0).
Qed.

Lemma is_new_record_watermark_zero t : is_new_record (Some 0) t = true.
Proof. done. Qed.

(** What [parse_and_commit_record] returns when it delivers: the records of
    the module that its delivery loop visits last. *)
Lemma parse_and_commit_record_returns_last dict_order input start download
    records sent :
  parse_and_commit_record dict_order input start download false
  = (Ok (Some records), sent) →
  sent = [] ∧ records = [] ∨ ∃ item, last sent = Some item ∧ records = item.2.
Proof.
  unfold parse_and_commit_record. destruct input as [|c input]; [done|].
  destruct (build_records _ _ _ _) as [records_by_module|e]; [|done].
  intros [= <- <-].
  destruct (last (iteritems dict_order records_by_module)) as [item|] eqn:E.
  - right. by exists item.
  - left. apply last_None in E. by rewrite E.
Qed.

(** The deliveries of [main] are those of [parse_and_commit_record]. *)
Lemma main_deliveries dict_order input utc_timestamp dry_run db :
  (main dict_order input utc_timestamp dry_run db).2
  = (parse_and_commit_record dict_order input db utc_timestamp dry_run).2.
Proof.
  unfold main, _time_t_of_latest_record.
  destruct (parse_and_commit_record _ _ _ _ _) as [[[[|r records]|]|e] sent];
    simpl; try done.
  by destruct (_write_time_t_of_latest_record _).
Qed.

(** A cycle that delivers no record leaves the stored watermark as it is. *)
Lemma main_without_records_keeps_watermark dict_order input utc_timestamp
    dry_run db :
  Forall (λ delivery, delivery.2 = [])
         (main dict_order input utc_timestamp dry_run db).2 →
  (main dict_order input utc_timestamp dry_run db).1.2 = db.
Proof.
  rewrite main_deliveries.
  unfold main, _time_t_of_latest_record, parse_and_commit_record.
  destruct input as [|c input]; [done|].
  destruct (build_records _ _ _ _) as [records_by_module|e]; [|done].
  destruct dry_run; [done|]. cbn [snd].
  destruct (last (iteritems dict_order records_by_module)) as [item|] eqn:E.
  - intros Hall.
    assert (Hitem : item.2 = []).
    { rewrite Forall_forall in Hall. apply Hall.
      apply last_Some in E as [l ->]. apply elem_of_app. right. left. }
    by rewrite Hitem.
  - apply last_None in E. by rewrite E.
Qed.

(** With the watermark 8200, the record at 8200 is dropped and the record
    at 8201 is kept. *)
Example watermark_filter_sample :
  main (λ keys, keys) [latency_chart "default" [0; 3] [4095; 0]]
       10000 false (Some 8200)
  = (Ok tt, Some 8201,
     [("default",
       [record_of "milliseconds_per_dynamic_request" (S754_zero false)
                  8201])]).
Proof. vm_compute. reflexivity. Qed.

(** C3. A watermark of 0 filters nothing: a first run at download time
    1800 on the 30-minute window emits the record of time 0 and stores the
    watermark 0; a second run on the same input, with the watermark 0 in the
    store, emits the record of time 0 again, although its time is not
    greater than the watermark. *)
Theorem watermark_zero_filters_nothing :
  main (λ keys, keys) [latency_chart "default" [0] [4095]] 1800 false None
  = (Ok tt, Some 0,
     [("default",
       [record_of "milliseconds_per_dynamic_request" (float_literal 300)
                  0])]) ∧
  main (λ keys, keys) [latency_chart "default" [0] [4095]] 1800 false
       (Some 0)
  = (Ok tt, Some 0,
     [("default",
       [record_of "milliseconds_per_dynamic_request" (float_literal 300)
                  0])]).
Proof. split; vm_compute; reflexivity. Qed.

(** C4. With two modules, the watermark that is stored is the time of the
    latest record of the module that the loop over the modules visits last,
    not of the latest record of the cycle: here records of times 10000 and
    8200 are delivered and 8200 is stored, whichever of the two modules
    comes last.  When the last module has no new record, the watermark is
    not updated although a record was delivered. *)
Theorem watermark_of_last_module_only :
  main (λ keys, keys)
       [latency_chart "a" [4095] [0]; latency_chart "b" [0] [0]]
       10000 false None
  = (Ok tt, Some 8200,
     [("a", [record_of "milliseconds_per_dynamic_request" (S754_zero false)
                       10000]);
      ("b", [record_of "milliseconds_per_dynamic_request" (S754_zero false)
                       8200])]) ∧
  main reverse
       [latency_chart "a" [0] [0]; latency_chart "b" [4095] [0]]
       10000 false None
  = (Ok tt, Some 8200,
     [("b", [record_of "milliseconds_per_dynamic_request" (S754_zero false)
                       10000]);
      ("a", [record_of "milliseconds_per_dynamic_request" (S754_zero false)
                       8200])]) ∧
  main (λ keys, keys)
       [latency_chart "a" [4095] [0]; latency_chart "b" [0] [0]]
       10000 false (Some 9000)
  = (Ok tt, Some 9000,
     [("a", [record_of "milliseconds_per_dynamic_request" (S754_zero false)
                       10000]);
      ("b", [])]).
Proof. repeat split; vm_compute; reflexivity. Qed.

(** With one module, the watermark is the time of the latest record. *)
Example watermark_single_module_sample :
  main (λ keys, keys) [latency_chart "a" [0; 4095; 3] [0; 0; 0]]
       10000 false (Some 8200)
  = (Ok tt, Some 10000,
     [("a", [record_of "milliseconds_per_dynamic_request" (S754_zero false)
                       8201;
             record_of "milliseconds_per_dynamic_request" (S754_zero false)
                       10000])]).
Proof. vm_compute. reflexivity. Qed.

Lemma mixed_time_windows_rejected_witness :
  raised (extract_all [latency_chart "a" [0] [0];
                       {| chart_num := 2; module := "a"; time_window := 2;
                          chart := one_series [0] [0] |}]) ∧
  (∀ st, for_each extract_chart
           [latency_chart "a" [0] [0];
            {| chart_num := 2; module := "a"; time_window := 2;
               chart := one_series [0] [0] |}] (∅, None) = Ok st →
         extract_all [latency_chart "a" [0] [0];
                      {| chart_num := 2; module := "a"; time_window := 2;
                         chart := one_series [0] [0] |}]
         = Raise AssertionError) ∧
  ∃ e, parse_and_commit_record (λ keys, keys)
         [latency_chart "a" [0] [0];
          {| chart_num := 2; module := "a"; time_window := 2;
             chart := one_series [0] [0] |}] None 10000 false
       = (Raise e, []) ∧
       main (λ keys, keys)
         [latency_chart "a" [0] [0];
          {| chart_num := 2; module := "a"; time_window := 2;
             chart := one_series [0] [0] |}] 10000 false (Some 5)
       = (Raise e, Some 5, []).
Proof.
  apply (mixed_time_windows_rejected (λ keys, keys) _ None 10000 false (Some 5)
           0%nat 1%nat (latency_chart "a" [0] [0])
           {| chart_num := 2; module := "a"; time_window := 2;
              chart := one_series [0] [0] |}).
  - reflexivity.
  - reflexivity.
  - simpl. lia.
Defined.

Lemma main_failure_keeps_watermark_witness :
  main (λ keys, keys) [latency_chart "a" [0; 0] [1; 2]] 10000 false (Some 5)
  = (Raise AssertionError, Some 5, []) ∧
  (main (λ keys, keys) [latency_chart "a" [0; 0] [1; 2]] 10000 false
        (Some 5)).1.2 = Some 5.
Proof.
  split.
  - apply (proj1 (proj2 (proj2 (main_failure_keeps_watermark (λ keys, keys)
             [latency_chart "a" [0; 0] [1; 2]] 10000 false (Some 5))))).
    + discriminate.
    + vm_compute. reflexivity.
  - apply (proj2 (proj2 (proj2 (main_failure_keeps_watermark (λ keys, keys)
             [latency_chart "a" [0; 0] [1; 2]] 10000 false (Some 5))))).
    vm_compute. exact I.
Defined.

Lemma same_field_name_replaces_series_witness :
  ∃ by_module',
    store_series "Error Details" "default"
      {[ "default" := {[ "client_errors_per_second" := [(0, float_literal 300)] ]} ]}
      (Some "Client (4xx)", [(0, S754_zero false)]) = Ok by_module' ∧
    (by_module' !! "default" ≫= (.!! "client_errors_per_second"))
    = Some [(0, S754_zero false)] ∧
    ∀ m f, (m, f) ≠ ("default", "client_errors_per_second") →
      (by_module' !! m ≫= (.!! f))
      = (({[ "default" := {[ "client_errors_per_second" := [(0, float_literal 300)] ]} ]}
          : gmap string (gmap string (list (Z * float)))) !! m ≫= (.!! f)).
Proof.
  apply (proj1 (proj2 same_field_name_replaces_series)).
  vm_compute. reflexivity.
Defined.

(** * Further properties

    Properties of the code beyond the claims above. *)

(** ** The formatter's output is read back *)

Lemma digit_not_space c : is_Some (digit_of c) → is_space c = false.
Proof. destruct c as [[] [] [] [] [] [] [] []]; intros [d [=]]; reflexivity. Qed.

Lemma digit_to_lower c : is_Some (digit_of c) → to_lower c = c.
Proof. destruct c as [[] [] [] [] [] [] [] []]; intros [d [=]]; reflexivity. Qed.

Lemma is_digits_no_space s : is_digits s = true → no_space s = true.
Proof.
  induction s as [|c s IH]; [done|]. simpl.
  intros [Hc Hs]%andb_true_iff. apply bool_decide_eq_true in Hc.
  by rewrite digit_not_space, IH.
Qed.

Lemma no_space_app s1 s2 :
  no_space (s1 ++ s2) = no_space s1 && no_space s2.
Proof.
  induction s1 as [|c s1 IH]; [done|]. simpl. by rewrite IH, andb_assoc.
Qed.

Lemma lstrip_no_space s : no_space s = true → lstrip s = s.
Proof.
  destruct s as [|c s]; [done|]. simpl.
  intros [Hc _]%andb_true_iff. by destruct (is_space c).
Qed.

Lemma rstrip_no_space s : no_space s = true → rstrip s = s.
Proof.
  induction s as [|c s IH]; [done|]. simpl.
  intros [Hc Hs]%andb_true_iff. rewrite IH by done.
  destruct s; [|done]. by destruct (is_space c).
Qed.

Lemma string_of_uint_digits d : is_digits (NilEmpty.string_of_uint d) = true.
Proof. induction d; simpl; done. Qed.

Lemma decimal_string_digits n :
  ∃ c ds, decimal_string n = String c ds ∧ is_Some (digit_of c) ∧
          is_digits ds = true.
Proof.
  unfold decimal_string, NilZero.string_of_uint.
  pose proof (string_of_uint_digits (N.to_uint (Z.to_N n))) as H.
  destruct (N.to_uint (Z.to_N n)) eqn:E; simpl in *;
    try (eexists _, _; split; [reflexivity|]; split; [by eexists|done]).
Qed.

Lemma take_digits_run ds rest acc cnt :
  is_digits ds = true →
  match rest with
  | EmptyString => True
  | String c _ => digit_of c = None
  end →
  ∃ acc', take_digits (ds ++ rest) acc cnt
          = (acc', cnt + Z.of_nat (String.length ds), rest).
Proof.
  intros Hds Hrest. revert acc cnt.
  induction ds as [|c ds IH]; intros acc cnt.
  - exists acc. simpl. rewrite Z.add_0_r.
    destruct rest as [|c r]; [done|]. simpl. by rewrite Hrest.
  - simpl in Hds. apply andb_true_iff in Hds as [Hc Hds].
    apply bool_decide_eq_true in Hc as [d Hd]. simpl. rewrite Hd.
    destruct (IH Hds (10 * acc + d) (cnt + 1)) as [acc' ->].
    exists acc'. do 2 f_equal. lia.
Qed.

Lemma string_app_empty (s : string) : s ++ EmptyString = s.
Proof.
  induction s as [|c s IH]; [done|].
  change (String c (s ++ EmptyString) = String c s). by rewrite IH.
Qed.

Lemma exponent_string_shape k :
  ∃ sg ds, exponent_string k = String sg ds ∧ (sg = "-"%char ∨ sg = "+"%char) ∧
           is_digits ds = true ∧ ds ≠ EmptyString.
Proof.
  unfold exponent_string.
  destruct (decimal_string_digits (Z.abs k)) as (c & ds & -> & Hc & Hds).
  assert (Hall : is_digits (String c ds) = true)
    by (simpl; by rewrite bool_decide_eq_true_2).
  exists (if k <? 0 then "-"%char else "+"%char),
         (if (String.length (String c ds) <? 2)%nat
          then String "0" (String c ds) else String c ds).
  split; [by destruct (k <? 0)|]. split; [destruct (k <? 0); auto|].
  destruct (_ <? 2)%nat; (split; [|done]); [|done].
  simpl. simpl in Hall. by rewrite Hall.
Qed.

Lemma take_exponent_formatted k :
  ∃ ex, take_exponent (String "e" (exponent_string k)) = Some ex.
Proof.
  destruct (exponent_string_shape k) as (sg & ds & -> & Hsg & Hds & Hne).
  unfold take_exponent. change (Ascii.eqb (to_lower "e") "e") with true.
  cbn iota.
  assert (Hsign : ∃ neg, take_sign (String sg ds) = (neg, ds)).
  { destruct Hsg as [-> | ->]; by eexists. }
  destruct Hsign as [neg ->].
  destruct (take_digits_run ds EmptyString 0 0 Hds I) as [v Hv].
  rewrite string_app_empty in Hv. rewrite Hv.
  assert (Hlen : 0 < 0 + Z.of_nat (String.length ds))
    by (destruct ds; [done|simpl; lia]).
  destruct (Z.ltb_spec 0 (0 + Z.of_nat (String.length ds))); [|lia].
  rewrite bool_decide_eq_true_2 by done. by eexists.
Qed.

(** What [format_e] prints for a finite number is read back without error. *)
Lemma float_of_string_formatted s D k :
  ∃ y, float_of_string
         (sign_string s ++ mantissa_string (decimal_string D) ++
          String "e" (exponent_string k)) = Ok y.
Proof.
  destruct (decimal_string_digits D) as (c & ds & -> & Hc & Hds).
  destruct (take_exponent_formatted k) as [ex Hex].
  destruct (exponent_string_shape k) as (sg & es & Hes & Hsg & Hed & _).
  set (tail := String "e" (exponent_string k)) in *.
  assert (Htail : no_space tail = true).
  { unfold tail. rewrite Hes. simpl.
    rewrite (is_digits_no_space es Hed).
    by destruct Hsg as [-> | ->]. }
  set (body := mantissa_string (String c ds) ++ tail).
  assert (Hbody : body = String c (match ds with
                                   | EmptyString => tail
                                   | String _ _ => String "." (ds ++ tail)
                                   end))
    by (unfold body; by destruct ds).
  assert (Hns : no_space body = true).
  { rewrite Hbody. simpl. rewrite (digit_not_space c Hc). simpl.
    destruct ds as [|c' ds']; [done|].
    change (no_space (String "." (String c' ds' ++ tail)))
      with (no_space (String c' ds' ++ tail)).
    rewrite no_space_app, Htail, (is_digits_no_space _ Hds). done. }
  assert (Hstrip : strip (sign_string s ++ body) = sign_string s ++ body).
  { unfold strip. rewrite lstrip_no_space, rstrip_no_space; try done;
      destruct s; simpl; by rewrite ?Hns. }
  assert (Hsign : take_sign (sign_string s ++ body) = (s, body)).
  { rewrite Hbody. destruct s; [done|]. simpl.
    destruct Hc as [d Hd].
    destruct c as [[] [] [] [] [] [] [] []]; try done. }
  unfold float_of_string. rewrite Hstrip, Hsign.
  assert (Hlower : ∃ r, lower body = String c r).
  { rewrite Hbody. simpl. rewrite (digit_to_lower c Hc). by eexists. }
  destruct Hlower as [r ->].
  assert (Hnot : ∀ w, w = "inf" ∨ w = "infinity" ∨ w = "nan" →
                      String c r ≠ w).
  { intros w Hw Heq. destruct Hc as [d Hd].
    destruct Hw as [->|[->| ->]]; injection Heq as -> _; discriminate Hd. }
  rewrite !bool_decide_eq_false_2 by (apply Hnot; auto). cbn [orb].
  rewrite Hbody. destruct Hc as [d Hd].
  cbn [take_digits]. rewrite Hd.
  destruct ds as [|c' ds'].
  - unfold tail at 1. cbn [take_digits].
    change (digit_of "e") with (@None Z). cbn iota beta.
    fold tail. rewrite Hex. by eexists.
  - cbn [take_digits]. change (digit_of ".") with (@None Z). cbn iota beta.
    destruct (take_digits_run (String c' ds') tail (10 * 0 + d) 0 Hds)
      as [acc' ->]; [done|].
    cbn iota beta.
    destruct (Z.eqb_spec (0 + 1 + (0 + Z.of_nat (String.length (String c' ds')))) 0);
      [simpl in *; lia|].
    rewrite Hex. by eexists.
Qed.

(** Whatever [format_e] prints is read back by [float_of_string]. *)
Lemma format_e_read_back P x : ∃ y, float_of_string (format_e P x) = Ok y.
Proof.
  destruct x as [s|s| |s m e].
  - eexists. apply float_of_string_format_e_zero.
  - destruct s; by eexists.
  - by eexists.
  - unfold format_e.
    match goal with
    | |- context [let '(D, k) := ?c in _] => destruct c as [D k]
    end.
    apply float_of_string_formatted.
Qed.

(** X1. For [n >= 1], [round_to_n_significant_digits] raises no error,
    whatever the float, infinities and NaN included: what ['%.*e'] prints is
    always read back by [float]. *)
Theorem round_to_n_significant_digits_total x n :
  1 ≤ n → ∃ y, round_to_n_significant_digits x n = Ok y.
Proof.
  intros Hn. unfold round_to_n_significant_digits.
  destruct (Z.ltb_spec n 1); [lia|]. apply format_e_read_back.
Qed.

Lemma round_to_n_significant_digits_total_witness :
  ∃ y, round_to_n_significant_digits (float_literal 123456) 4 = Ok y.
Proof. apply round_to_n_significant_digits_total. lia. Defined.

(** X2. Infinities and NaN come back from the rounding as they are. *)
Theorem round_to_n_significant_digits_special n :
  1 ≤ n →
  (∀ s, round_to_n_significant_digits (S754_infinity s) n
        = Ok (S754_infinity s)) ∧
  round_to_n_significant_digits S754_nan n = Ok S754_nan.
Proof.
  intros Hn. unfold round_to_n_significant_digits.
  destruct (Z.ltb_spec n 1); [lia|].
  split; [intros []|]; reflexivity.
Qed.

Lemma round_to_n_significant_digits_special_witness :
  (∀ s, round_to_n_significant_digits (S754_infinity s) 4
        = Ok (S754_infinity s)) ∧
  round_to_n_significant_digits S754_nan 4 = Ok S754_nan.
Proof. apply round_to_n_significant_digits_special. lia. Defined.

(** ** Reading decimal numbers back *)

Lemma take_digits_count s acc cnt :
  take_digits s acc cnt
  = ((take_digits s acc 0).1.1, cnt + (take_digits s acc 0).1.2,
     (take_digits s acc 0).2).
Proof.
  revert acc cnt. induction s as [|c s IH]; intros acc cnt; simpl.
  - by rewrite Z.add_0_r.
  - destruct (digit_of c) as [d|]; simpl; [|by rewrite Z.add_0_r].
    rewrite (IH _ (cnt + 1)), (IH _ (0 + 1)). simpl. do 2 f_equal. lia.
Qed.

Lemma take_digits_uint_acc d rest acc cnt :
  no_digit_ahead rest →
  take_digits (NilEmpty.string_of_uint d ++ rest) (Z.pos acc) cnt
  = (Z.pos (Pos.of_uint_acc d acc),
     cnt + Z.of_nat (String.length (NilEmpty.string_of_uint d)), rest).
Proof.
  intros Hrest. revert acc cnt.
  induction d as [|d IH|d IH|d IH|d IH|d IH|d IH|d IH|d IH|d IH|d IH];
    intros acc cnt;
    [simpl; rewrite Z.add_0_r; destruct rest as [|c r]; [done|];
     simpl in *; by rewrite Hrest|..];
    cbn [NilEmpty.string_of_uint Pos.of_uint_acc];
    change (String ?c ?s ++ rest) with (String c (s ++ rest));
    cbn [take_digits];
    match goal with
    | |- context [digit_of ?c] =>
        let v := eval vm_compute in (digit_of c) in
        change (digit_of c) with v
    end; cbn iota beta;
    match goal with
    | |- take_digits _ ?a _ = (Z.pos (Pos.of_uint_acc _ ?b), _, _) =>
        replace a with (Z.pos b) by lia
    end;
    rewrite IH; cbn [String.length]; do 2 f_equal; lia.
Qed.

Lemma take_digits_uint d rest cnt :
  no_digit_ahead rest →
  take_digits (NilEmpty.string_of_uint d ++ rest) 0 cnt
  = (Z.of_N (Pos.of_uint d),
     cnt + Z.of_nat (String.length (NilEmpty.string_of_uint d)), rest).
Proof.
  intros Hrest. revert cnt.
  induction d as [|d IH|d IH|d IH|d IH|d IH|d IH|d IH|d IH|d IH|d IH];
    intros cnt;
    [simpl; rewrite Z.add_0_r; destruct rest as [|c r]; [done|];
     simpl in *; by rewrite Hrest|..];
    cbn [NilEmpty.string_of_uint Pos.of_uint];
    change (String ?c ?s ++ rest) with (String c (s ++ rest));
    cbn [take_digits];
    match goal with
    | |- context [digit_of ?c] =>
        let v := eval vm_compute in (digit_of c) in
        change (digit_of c) with v
    end; cbn iota beta.
  1: { change (10 * 0 + 0) with 0. rewrite IH. cbn [String.length].
       do 2 f_equal. lia. }
  all: match goal with
       | |- take_digits _ ?a _ = _ =>
           let v := eval vm_compute in a in change a with v
       end;
       rewrite (take_digits_uint_acc _ _ _ _ Hrest); cbn [String.length];
       do 2 f_equal; lia.
Qed.

Lemma to_uint_not_Nil n : N.to_uint n ≠ Decimal.Nil.
Proof.
  destruct n as [|p]; [done|]. simpl. intros H.
  pose proof (DecimalPos.Unsigned.of_to p) as Hp. by rewrite H in Hp.
Qed.

Lemma take_digits_decimal n rest cnt :
  0 ≤ n → no_digit_ahead rest →
  take_digits (decimal_string n ++ rest) 0 cnt = (n, cnt + digits10 n, rest).
Proof.
  intros Hn Hrest. unfold digits10, decimal_string, NilZero.string_of_uint.
  pose proof (to_uint_not_Nil (Z.to_N n)) as Hnil.
  pose proof (DecimalN.Unsigned.of_to (Z.to_N n)) as Hval.
  unfold N.of_uint in Hval.
  destruct (N.to_uint (Z.to_N n)) as [|d|d|d|d|d|d|d|d|d|d] eqn:E; [done|..];
    rewrite take_digits_uint by done; rewrite Hval; f_equal; f_equal; lia.
Qed.

Lemma digits10_pos n : 0 < digits10 n.
Proof.
  unfold digits10.
  destruct (decimal_string_digits n) as (c & ds & -> & _). simpl. lia.
Qed.

(** ** The number of digits of an integer *)

Lemma of_uint_acc_bounds d acc :
  Z.pos acc * 10 ^ Z.of_nat (String.length (NilEmpty.string_of_uint d))
  ≤ Z.pos (Pos.of_uint_acc d acc)
  < (Z.pos acc + 1) * 10 ^ Z.of_nat (String.length (NilEmpty.string_of_uint d)).
Proof.
  revert acc.
  induction d as [|d IH|d IH|d IH|d IH|d IH|d IH|d IH|d IH|d IH|d IH];
    intros acc; [simpl; lia|..];
    cbn [NilEmpty.string_of_uint Pos.of_uint_acc String.length];
    rewrite Nat2Z.inj_succ, Z.pow_succ_r by lia;
    match goal with
    | |- _ ≤ Z.pos (Pos.of_uint_acc _ ?a) < _ => specialize (IH a)
    end;
    set (pw := 10 ^ Z.of_nat (String.length (NilEmpty.string_of_uint d)))
      in *;
    assert (0 < pw) by (apply Z.pow_pos_nonneg; lia); nia.
Qed.

Lemma to_uint_head p :
  match Pos.to_uint p with
  | Decimal.Nil | Decimal.D0 _ => False
  | _ => True
  end.
Proof.
  pose proof (DecimalPos.Unsigned.of_to p) as Hof.
  pose proof (DecimalPos.Unsigned.to_of (Pos.to_uint p)) as Hto.
  rewrite Hof in Hto. simpl in Hto.
  destruct (Pos.to_uint p) as [|l|l|l|l|l|l|l|l|l|l] eqn:E; try done.
  unfold Decimal.unorm in Hto. rewrite DecimalFacts.nzhead_D0 in Hto.
  pose proof (DecimalFacts.nzhead_nonzero l) as Hnz.
  destruct (Decimal.nzhead l) as [|u|u|u|u|u|u|u|u|u|u]; try done.
  - injection Hto as ->. done.
  - by destruct (Hnz u).
Qed.

Lemma digits10_bounds n :
  0 < n → 10 ^ (digits10 n - 1) ≤ n < 10 ^ digits10 n.
Proof.
  intros Hn. unfold digits10, decimal_string, NilZero.string_of_uint.
  pose proof (DecimalN.Unsigned.of_to (Z.to_N n)) as Hval.
  unfold N.of_uint in Hval.
  destruct (Z.to_N n) as [|p] eqn:Ep; [lia|]. cbn [N.to_uint] in *.
  pose proof (to_uint_head p) as Hhead.
  assert (Hn' : n = Z.pos p) by lia. subst n. clear Ep Hn.
  destruct (Pos.to_uint p) as [|l|l|l|l|l|l|l|l|l|l]; try done;
    cbn [Pos.of_uint] in Hval; injection Hval as Hval;
    cbn [NilEmpty.string_of_uint String.length];
    rewrite Nat2Z.inj_succ;
    match goal with
    | H : Pos.of_uint_acc l ?a = p |- _ =>
        pose proof (of_uint_acc_bounds l a) as Hb; rewrite H in Hb
    end;
    set (len := Z.of_nat (String.length (NilEmpty.string_of_uint l))) in *;
    replace (Z.succ len - 1) with len by lia;
    rewrite Z.pow_succ_r by lia;
    assert (0 < 10 ^ len) by (apply Z.pow_pos_nonneg; lia); lia.
Qed.

(** ** The decimal exponent and the rounded digits *)

Lemma pow10_pos k : 0 ≤ k → 0 < 10 ^ k.
Proof. intros. apply Z.pow_pos_nonneg; lia. Qed.

Lemma decimal_exponent_spec p q :
  0 < p → 0 < q →
  let k := decimal_exponent p q in
  (0 ≤ k → q * 10 ^ k ≤ p < q * 10 ^ (k + 1)) ∧
  (k < 0 → q ≤ p * 10 ^ (- k) ∧ p * 10 ^ (- k - 1) < q).
Proof.
  intros Hp Hq. unfold decimal_exponent.
  destruct (Z.leb_spec q p) as [Hqp|Hpq].
  - assert (Hd : 0 < p / q) by (apply Z.div_str_pos; lia).
    pose proof (digits10_bounds (p / q) Hd) as [Hlo Hhi].
    pose proof (digits10_pos (p / q)) as Hpos.
    cbv zeta. split; [|lia]. intros _.
    replace (digits10 (p / q) - 1 + 1) with (digits10 (p / q)) by lia.
    pose proof (Z.mod_pos_bound p q Hq) as Hmod.
    pose proof (Z.div_mod p q ltac:(lia)) as Hdm.
    split; nia.
  - pose proof (digits10_bounds p Hp) as [Hplo Hphi].
    pose proof (digits10_bounds q Hq) as [Hqlo Hqhi].
    pose proof (digits10_pos p) as Hdp. pose proof (digits10_pos q) as Hdq.
    assert (Hj : 0 ≤ digits10 q - digits10 p).
    { destruct (Z.le_gt_cases (digits10 p) (digits10 q)) as [|Hgt]; [lia|].
      assert (10 ^ digits10 q ≤ 10 ^ (digits10 p - 1))
        by (apply Z.pow_le_mono_r; lia). lia. }
    set (j := digits10 q - digits10 p) in *.
    set (dq := digits10 q - 1) in *.
    assert (Hdq1 : digits10 q = dq + 1) by (unfold dq; lia).
    rewrite Hdq1 in Hqhi.
    rewrite (Z.pow_add_r 10 dq 1) in Hqhi by lia. change (10 ^ 1) with 10 in Hqhi.
    assert (Hpj : 10 ^ dq ≤ p * 10 ^ j < 10 ^ dq * 10).
    { replace dq with (digits10 p - 1 + j) by lia.
      rewrite !Z.pow_add_r by lia.
      replace (digits10 p) with (digits10 p - 1 + 1) in Hphi by lia.
      rewrite (Z.pow_add_r 10 (digits10 p - 1) 1) in Hphi by lia.
      change (10 ^ 1) with 10 in Hphi.
      pose proof (pow10_pos j Hj). split; nia. }
    cbv zeta. destruct (Z.leb_spec q (p * 10 ^ j)) as [Hle|Hgt].
    + split.
      * intros Hk. assert (Hj0 : j = 0) by lia. rewrite Hj0 in *.
        simpl in *. lia.
      * intros Hk. replace (- - j) with j by lia. split; [done|].
        replace (j) with (j - 1 + 1) in Hpj by lia.
        rewrite (Z.pow_add_r 10 (j - 1) 1) in Hpj by lia.
        change (10 ^ 1) with 10 in Hpj. lia.
    + split; [lia|]. intros _.
      replace (- - (j + 1)) with (j + 1) by lia.
      replace (j + 1 - 1) with j by lia. split; [|done].
      rewrite Z.pow_add_r by lia. change (10 ^ 1) with 10. lia.
Qed.

Lemma round_half_even_spec a b L U :
  0 < b → b * L ≤ a → a < b * U →
  L ≤ round_half_even a b ≤ U ∧
  2 * Z.abs (round_half_even a b * b - a) ≤ b.
Proof.
  intros Hb HL HU. unfold round_half_even.
  pose proof (Z.div_mod a b ltac:(lia)) as Hdm.
  pose proof (Z.mod_pos_bound a b Hb) as Hmod.
  assert (Hd : L ≤ a / b < U).
  { split; [apply Z.div_le_lower_bound; lia|
            apply Z.div_lt_upper_bound; lia]. }
  destruct (Z.compare_spec (2 * (a mod b)) b) as [Heq|Hlt|Hgt];
    [destruct (Z.even (a / b))|..]; split; try lia.
Qed.

Lemma numerator_pos m e : 0 < numerator m e.
Proof.
  unfold numerator. destruct (Z.leb_spec 0 e); [|lia].
  assert (0 < 2 ^ e) by (apply Z.pow_pos_nonneg; lia). nia.
Qed.

Lemma denominator_pos e : 0 < denominator e.
Proof.
  unfold denominator. destruct (Z.leb_spec 0 e); [lia|].
  apply Z.pow_pos_nonneg; lia.
Qed.

Lemma printed_decimal_spec P m e :
  let p := numerator m e in
  let q := denominator e in
  let D := (printed_decimal P m e).1 in
  let k := (printed_decimal P m e).2 in
  10 ^ Z.of_nat P ≤ D < 10 ^ (Z.of_nat P + 1) ∧
  2 * Z.abs (D * 10 ^ Z.max 0 (k - Z.of_nat P) * q
             - p * 10 ^ Z.max 0 (Z.of_nat P - k))
  ≤ 10 ^ Z.max 0 (k - Z.of_nat P) * q.
Proof.
  cbv zeta. unfold printed_decimal.
  pose proof (numerator_pos m e) as Hp. pose proof (denominator_pos e) as Hq.
  set (p := numerator m e) in *. set (q := denominator e) in *.
  pose proof (decimal_exponent_spec p q Hp Hq) as Hk. cbv zeta in Hk.
  set (k := decimal_exponent p q) in *.
  set (N := Z.of_nat P). assert (HN : 0 ≤ N) by (unfold N; lia).
  pose proof (pow10_pos N HN) as HpN.
  assert (HN1 : 10 ^ (N + 1) = 10 * 10 ^ N)
    by (rewrite Z.pow_add_r by lia; change (10 ^ 1) with 10; lia).
  destruct (Z.leb_spec 0 (N - k)) as [Hsc|Hsc].
  - (* the number is scaled up *)
    assert (Hab : q * 10 ^ N ≤ p * 10 ^ (N - k) < q * 10 ^ (N + 1)).
    { destruct (Z.le_gt_cases 0 k) as [Hk0|Hk0].
      - destruct (proj1 Hk Hk0) as [Hlo Hhi].
        assert (E1 : 10 ^ N = 10 ^ k * 10 ^ (N - k))
          by (rewrite <- Z.pow_add_r by lia; f_equal; lia).
        assert (E2 : 10 ^ (N + 1) = 10 ^ (k + 1) * 10 ^ (N - k))
          by (rewrite <- Z.pow_add_r by lia; f_equal; lia).
        rewrite E1, E2. pose proof (pow10_pos (N - k) Hsc). split; nia.
      - destruct (proj2 Hk Hk0) as [Hlo Hhi].
        assert (E1 : 10 ^ (N - k) = 10 ^ (- k) * 10 ^ N)
          by (rewrite <- Z.pow_add_r by lia; f_equal; lia).
        assert (E2 : 10 ^ (N - k) = 10 ^ (- k - 1) * 10 ^ (N + 1))
          by (rewrite <- Z.pow_add_r by lia; f_equal; lia).
        pose proof (pow10_pos (N + 1) ltac:(lia)). split.
        + rewrite E1. nia.
        + rewrite E2. nia. }
    destruct (round_half_even_spec (p * 10 ^ (N - k)) q (10 ^ N) (10 ^ (N + 1))
                Hq (proj1 Hab) (proj2 Hab)) as [HD Hnear].
    set (D := round_half_even (p * 10 ^ (N - k)) q) in *.
    destruct (Z.eqb_spec D (10 ^ (N + 1))) as [Hcarry|Hno]; cbn [fst snd].
    + split; [lia|].
      destruct (Z.eq_dec (N - k) 0) as [Hz|Hnz].
      * replace (Z.max 0 (k + 1 - N)) with 1 by lia.
        replace (Z.max 0 (N - (k + 1))) with 0 by lia.
        rewrite Hz in Hnear. change (10 ^ 1) with 10. change (10 ^ 0) with 1.
        rewrite Hcarry, HN1 in Hnear. lia.
      * replace (Z.max 0 (k + 1 - N)) with 0 by lia.
        replace (Z.max 0 (N - (k + 1))) with (N - k - 1) by lia.
        assert (E : 10 ^ (N - k) = 10 * 10 ^ (N - k - 1)).
        { replace (N - k) with (1 + (N - k - 1)) at 1 by lia.
          rewrite Z.pow_add_r by lia. done. }
        rewrite Hcarry, HN1, E in Hnear. change (10 ^ 0) with 1. lia.
    + split; [lia|].
      replace (Z.max 0 (k - N)) with 0 by lia.
      replace (Z.max 0 (N - k)) with (N - k) by lia.
      change (10 ^ 0) with 1. lia.
  - (* the number is scaled down *)
    assert (Hk0 : 0 ≤ k) by lia. destruct (proj1 Hk Hk0) as [Hlo Hhi].
    pose proof (pow10_pos (- (N - k)) ltac:(lia)) as Hpw.
    assert (E1 : 10 ^ k = 10 ^ (- (N - k)) * 10 ^ N)
      by (rewrite <- Z.pow_add_r by lia; f_equal; lia).
    assert (E2 : 10 ^ (k + 1) = 10 ^ (- (N - k)) * 10 ^ (N + 1))
      by (rewrite <- Z.pow_add_r by lia; f_equal; lia).
    assert (Hb : 0 < q * 10 ^ (- (N - k))) by nia.
    destruct (round_half_even_spec p (q * 10 ^ (- (N - k)))
                (10 ^ N) (10 ^ (N + 1)) Hb) as [HD Hnear].
    { rewrite E1 in Hlo. lia. }
    { rewrite E2 in Hhi. lia. }
    set (D := round_half_even p (q * 10 ^ (- (N - k)))) in *.
    destruct (Z.eqb_spec D (10 ^ (N + 1))) as [Hcarry|Hno]; cbn [fst snd].
    + split; [lia|].
      replace (Z.max 0 (k + 1 - N)) with (1 + (- (N - k))) by lia.
      replace (Z.max 0 (N - (k + 1))) with 0 by lia.
      rewrite Z.pow_add_r by lia. change (10 ^ 1) with 10.
      change (10 ^ 0) with 1. rewrite Hcarry, HN1 in Hnear.
      set (w := 10 ^ (- (N - k))) in *. nia.
    + split; [lia|].
      replace (Z.max 0 (k - N)) with (- (N - k)) by lia.
      replace (Z.max 0 (N - k)) with 0 by lia.
      change (10 ^ 0) with 1. set (w := 10 ^ (- (N - k))) in *. nia.
Qed.

(** ** What the formatter prints is read back exactly *)

Lemma take_exponent_printed k :
  take_exponent (String "e" (exponent_string k)) = Some k.
Proof.
  unfold take_exponent. change (Ascii.eqb (to_lower "e") "e") with true.
  cbn iota. unfold exponent_string.
  pose proof (take_digits_decimal (Z.abs k) EmptyString) as Hd.
  pose proof (digits10_pos (Z.abs k)) as Hpos.
  destruct (decimal_string_digits (Z.abs k)) as (c & ds & Hs & [d Hc] & Hds).
  rewrite string_app_empty in Hd. rewrite Hs in *.
  set (body := if (String.length (String c ds) <? 2)%nat
               then String "0" (String c ds) else String c ds).
  assert (Hbody : ∃ cnt, take_digits body 0 0 = (Z.abs k, cnt, EmptyString) ∧
                         0 < cnt).
  { unfold body. destruct (_ <? 2)%nat.
    - exists (0 + 1 + digits10 (Z.abs k)). split; [|lia].
      cbn [take_digits]. change (digit_of "0") with (Some 0). cbn iota beta.
      change (10 * 0 + 0) with 0. apply Hd; [lia|done].
    - exists (0 + digits10 (Z.abs k)). split; [|lia]. apply Hd; [lia|done]. }
  destruct Hbody as (cnt & Hbody & Hcnt).
  assert (Hsign : take_sign ((if k <? 0 then "-" else "+") ++ body)
                  = (k <? 0, body)) by (by destruct (k <? 0)).
  rewrite Hsign, Hbody.
  destruct (Z.ltb_spec 0 cnt); [|lia].
  rewrite bool_decide_eq_true_2 by done. cbn [andb]. f_equal.
  destruct (Z.ltb_spec k 0); lia.
Qed.

Lemma float_of_string_printed s D k :
  0 ≤ D →
  float_of_string (sign_string s ++ mantissa_string (decimal_string D) ++
                   String "e" (exponent_string k))
  = Ok (float_of_decimal s D (k - (digits10 D - 1))).
Proof.
  intros HD.
  set (tail := String "e" (exponent_string k)) in *.
  assert (Hahead : no_digit_ahead tail) by done.
  pose proof (take_digits_decimal D tail 0 HD Hahead) as Hval.
  pose proof (take_exponent_printed k) as Hex. fold tail in Hex.
  unfold digits10 in *.
  destruct (decimal_string_digits D) as (c & ds & Hs & Hc & Hds).
  rewrite Hs in *. clear Hs.
  destruct (exponent_string_shape k) as (sg & es & Hes & Hsg & Hed & _).
  assert (Htail : no_space tail = true).
  { unfold tail. rewrite Hes. simpl.
    rewrite (is_digits_no_space es Hed).
    by destruct Hsg as [-> | ->]. }
  set (body := mantissa_string (String c ds) ++ tail).
  assert (Hbody : body = String c (match ds with
                                   | EmptyString => tail
                                   | String _ _ => String "." (ds ++ tail)
                                   end))
    by (unfold body; by destruct ds).
  assert (Hns : no_space body = true).
  { rewrite Hbody. simpl. rewrite (digit_not_space c Hc). simpl.
    destruct ds as [|c' ds']; [done|].
    change (no_space (String "." (String c' ds' ++ tail)))
      with (no_space (String c' ds' ++ tail)).
    rewrite no_space_app, Htail, (is_digits_no_space _ Hds). done. }
  assert (Hstrip : strip (sign_string s ++ body) = sign_string s ++ body).
  { unfold strip. rewrite lstrip_no_space, rstrip_no_space; try done;
      destruct s; simpl; by rewrite ?Hns. }
  assert (Hsign : take_sign (sign_string s ++ body) = (s, body)).
  { rewrite Hbody. destruct s; [done|]. simpl.
    destruct Hc as [d Hd].
    destruct c as [[] [] [] [] [] [] [] []]; try done. }
  unfold float_of_string. rewrite Hstrip, Hsign.
  assert (Hlower : ∃ r, lower body = String c r).
  { rewrite Hbody. simpl. rewrite (digit_to_lower c Hc). by eexists. }
  destruct Hlower as [r ->].
  assert (Hnot : ∀ w, w = "inf" ∨ w = "infinity" ∨ w = "nan" →
                      String c r ≠ w).
  { intros w Hw Heq. destruct Hc as [d Hd].
    destruct Hw as [->|[->| ->]]; injection Heq as -> _; discriminate Hd. }
  rewrite !bool_decide_eq_false_2 by (apply Hnot; auto). cbn [orb].
  rewrite Hbody. destruct Hc as [d Hd].
  change (String c ds ++ tail) with (String c (ds ++ tail)) in Hval.
  cbn [take_digits] in Hval |- *. rewrite Hd in Hval |- *.
  destruct ds as [|c' ds'].
  - change (EmptyString ++ tail) with tail in Hval.
    unfold tail at 1 in Hval. unfold tail at 1.
    cbn [take_digits] in Hval |- *.
    change (digit_of "e") with (@None Z) in Hval |- *. cbn iota beta in Hval |- *.
    fold tail in Hval |- *. rewrite Hex.
    apply (f_equal (λ x, x.1.1)) in Hval. cbn [fst snd] in Hval.
    cbn [String.length]. rewrite Hval. f_equal.
  - cbn [take_digits]. change (digit_of ".") with (@None Z). cbn iota beta.
    rewrite take_digits_count in Hval.
    destruct (take_digits (String c' ds' ++ tail) (10 * 0 + d) 0)
      as [[v cnt] rest]. cbn [fst snd] in Hval.
    injection Hval as Hv Hc Hr. subst v rest.
    destruct (Z.eqb_spec (0 + 1 + cnt) 0) as [Hz|_].
    { pose proof (digits10_pos D). cbn [String.length] in Hc. lia. }
    rewrite Hex. f_equal. f_equal. cbn [String.length]. lia.
Qed.

(** ** Rounding to significant digits is correct rounding *)

(** X3. For a finite non-zero float [x = ± numerator / denominator] and
    [n >= 1], [round_to_n_significant_digits x n] is the float nearest to
    the decimal [D * 10^(k - n + 1)] of the same sign, where [D] has exactly
    [n] digits and the decimal lies within half a unit of its last digit of
    [|x|]. *)
Theorem round_to_n_significant_digits_nearest s m e n :
  1 ≤ n →
  ∃ D k,
    round_to_n_significant_digits (S754_finite s m e) n
    = Ok (float_of_decimal s D (k - (n - 1))) ∧
    10 ^ (n - 1) ≤ D < 10 ^ n ∧
    2 * Z.abs (D * 10 ^ Z.max 0 (k - (n - 1)) * denominator e
               - numerator m e * 10 ^ Z.max 0 (n - 1 - k))
    ≤ 10 ^ Z.max 0 (k - (n - 1)) * denominator e.
Proof.
  intros Hn. unfold round_to_n_significant_digits.
  destruct (Z.ltb_spec n 1); [lia|].
  pose proof (printed_decimal_spec (Z.to_nat (n - 1)) m e) as Hspec.
  cbv zeta in Hspec. rewrite Z2Nat.id in Hspec by lia.
  replace (n - 1 + 1) with n in Hspec by lia.
  assert (Hprint : format_e (Z.to_nat (n - 1)) (S754_finite s m e)
            = sign_string s ++
              mantissa_string
                (decimal_string (printed_decimal (Z.to_nat (n - 1)) m e).1) ++
              String "e"
                (exponent_string (printed_decimal (Z.to_nat (n - 1)) m e).2)).
  { unfold format_e, printed_decimal, numerator, denominator.
    match goal with
    | |- context [if ?b then (?x, ?y) else (?x', ?y')] => by destruct b
    end. }
  rewrite Hprint. clear Hprint.
  destruct (printed_decimal (Z.to_nat (n - 1)) m e) as [D k].
  cbn [fst snd] in *. destruct Hspec as [HD Hnear].
  pose proof (pow10_pos (n - 1) ltac:(lia)) as Hpw.
  exists D, k. split; [|done].
  rewrite float_of_string_printed by lia. do 2 f_equal.
  pose proof (digits10_bounds D ltac:(lia)) as [Hlo Hhi].
  pose proof (digits10_pos D) as Hpos.
  assert (digits10 D = n); [|lia].
  destruct (Z.lt_trichotomy (digits10 D) n) as [Hlt|[Heq|Hgt]]; [|done|].
  - assert (10 ^ digits10 D ≤ 10 ^ (n - 1))
      by (apply Z.pow_le_mono_r; lia). lia.
  - assert (10 ^ n ≤ 10 ^ (digits10 D - 1))
      by (apply Z.pow_le_mono_r; lia). lia.
Qed.

Lemma round_to_n_significant_digits_nearest_witness :
  ∃ D k,
    round_to_n_significant_digits (S754_finite false 8483831719919616 (-36)) 4
    = Ok (float_of_decimal false D (k - (4 - 1))) ∧
    10 ^ (4 - 1) ≤ D < 10 ^ 4 ∧
    2 * Z.abs (D * 10 ^ Z.max 0 (k - (4 - 1)) * denominator (-36)
               - numerator 8483831719919616 (-36) * 10 ^ Z.max 0 (4 - 1 - k))
    ≤ 10 ^ Z.max 0 (k - (4 - 1)) * denominator (-36).
Proof.
  apply (round_to_n_significant_digits_nearest false 8483831719919616 (-36) 4).
  lia.
Defined.

(** ** The file of the store *)

Lemma rstrip_newline s :
  no_space s = true → rstrip (s ++ String "010" EmptyString) = s.
Proof.
  induction s as [|c s IH]; [done|]. simpl.
  intros [Hc Hs]%andb_true_iff.
  change (rstrip (String c (s ++ String "010" EmptyString)) = String c s).
  cbn [rstrip]. rewrite IH by done.
  destruct s; [|done]. by destruct (is_space c).
Qed.

Lemma str_of_int_no_space t : no_space (str_of_int t) = true.
Proof.
  unfold str_of_int.
  destruct (t <? 0);
    [destruct (decimal_string_digits (- t)) as (c & ds & -> & Hc & Hds)
    |destruct (decimal_string_digits t) as (c & ds & -> & Hc & Hds)];
    simpl; by rewrite (digit_not_space c Hc), (is_digits_no_space ds Hds).
Qed.

(** X4. The watermark that [_write_time_t_of_latest_record] prints into the
    file is the one that [_time_t_of_latest_record] reads from it. *)
Theorem watermark_file_round_trip t : read_db (written_db t) = Ok t.
Proof.
  unfold read_db, written_db.
  pose proof (str_of_int_no_space t) as Hns.
  assert (Hstrip : strip (str_of_int t ++ String "010" EmptyString)
                   = str_of_int t).
  { unfold strip.
    assert (Hl : lstrip (str_of_int t ++ String "010" EmptyString)
                 = str_of_int t ++ String "010" EmptyString).
    { assert (Hcons : ∃ c s, str_of_int t = String c s).
      { unfold str_of_int. destruct (t <? 0); [by eexists _, _|].
        destruct (decimal_string_digits t) as (c & ds & -> & _).
        by eexists _, _. }
      destruct Hcons as (c & s & Hcs). rewrite Hcs in *. simpl in *.
      apply andb_true_iff in Hns as [Hc _]. by destruct (is_space c). }
    rewrite Hl. by apply rstrip_newline. }
  rewrite Hstrip. unfold int_of_string.
  unfold strip. rewrite lstrip_no_space, rstrip_no_space by done.
  unfold str_of_int. destruct (Z.ltb_spec t 0) as [Hneg|Hpos].
  - cbn [take_sign].
    pose proof (take_digits_decimal (- t) EmptyString 0 ltac:(lia) I) as Hd.
    rewrite string_app_empty in Hd. rewrite Hd.
    pose proof (digits10_pos (- t)).
    destruct (Z.ltb_spec 0 (0 + digits10 (- t))); [|lia].
    rewrite bool_decide_eq_true_2 by done. simpl. f_equal. lia.
  - destruct (decimal_string_digits t) as (c & ds & Hs & [d Hc] & Hds).
    assert (Hsign : take_sign (decimal_string t) = (false, decimal_string t)).
    { rewrite Hs. destruct c as [[] [] [] [] [] [] [] []]; done. }
    rewrite Hsign.
    pose proof (take_digits_decimal t EmptyString 0 Hpos I) as Hd.
    rewrite string_app_empty in Hd. rewrite Hd.
    pose proof (digits10_pos t).
    destruct (Z.ltb_spec 0 (0 + digits10 t)); [|lia].
    by rewrite bool_decide_eq_true_2.
Qed.

(** ** The decoded times on the windows of the table *)

Lemma ascending_from_lookup prev l i j xi xj :
  ascending_from prev l = true → (i ≤ j)%nat →
  l !! i = Some (Ok xi) → l !! j = Some (Ok xj) → prev ≤ xi ≤ xj.
Proof.
  revert prev i j xi xj.
  induction l as [|[x|e] l IH]; intros prev i j xi xj; [done| |done].
  simpl. intros [Hp Hl]%andb_true_iff Hij Hi Hj. apply Z.leb_le in Hp.
  destruct i as [|i], j as [|j]; simpl in *; try lia.
  - injection Hi as <-. injection Hj as <-. lia.
  - injection Hi as <-.
    pose proof (IH x j j xj xj Hl (le_n j) Hj Hj). lia.
  - assert (x ≤ xi ≤ xj) by (apply (IH x i j); [done|lia|done|done]). lia.
Qed.

Lemma ascending_from_total prev l i :
  ascending_from prev l = true → (i < length l)%nat →
  ∃ x, l !! i = Some (Ok x).
Proof.
  revert prev i. induction l as [|[x|e] l IH]; intros prev i; simpl; [lia| |done].
  intros [_ Hl]%andb_true_iff Hi. destruct i as [|i]; [by exists x|].
  apply (IH x); [done|lia].
Qed.

(** The check of all the tokens on all the windows, by evaluation. *)
Lemma windows_checked :
  forallb (window_check quotients) _time_windows.*2 = true.
Proof. vm_cast_no_check (eq_refl true). Qed.

Lemma window_check_sound qs hours :
  window_check qs hours = true →
  ascending_from 0 (times_of qs hours) = true ∧
  times_of qs hours !! 4095%nat = Some (Ok (window_seconds hours)) ∧
  times_of qs hours !! 0%nat = Some (Ok 0).
Proof.
  unfold window_check. cbv zeta.
  intros [[Hasc Hlast]%andb_true_iff Hhead]%andb_true_iff.
  split; [done|].
  destruct (times_of qs hours !! 4095%nat) as [[xl|]|]; try done.
  destruct (times_of qs hours !! 0%nat) as [[x0|]|]; try done.
  apply Z.eqb_eq in Hlast, Hhead. by subst.
Qed.

Lemma decoded_times_checked label hours :
  (label, hours) ∈ _time_windows →
  ascending_from 0 (times_of quotients hours) = true ∧
  times_of quotients hours !! 4095%nat = Some (Ok (window_seconds hours)) ∧
  times_of quotients hours !! 0%nat = Some (Ok 0).
Proof.
  intros Hin. apply window_check_sound.
  pose proof windows_checked as Hall. rewrite forallb_forall in Hall.
  apply Hall, list_elem_of_In, list_elem_of_fmap. by exists (label, hours).
Qed.

Lemma decoded_times_length hours :
  length (times_of quotients hours) = 4096%nat.
Proof. unfold times_of, quotients. by rewrite !length_fmap, length_seq. Qed.

Lemma decoded_times_lookup hours t x :
  token t →
  times_of quotients hours !! Z.to_nat t = Some (Ok x) →
  decode_time (total_seconds hours) t = Ok x.
Proof.
  intros Ht. unfold token in Ht. unfold times_of, quotients.
  rewrite !list_lookup_fmap, lookup_seq_lt by lia.
  cbn [fmap option_fmap option_map]. rewrite Nat.add_0_l, Z2Nat.id by lia.
  unfold decode_time. destruct (float_of_int t) as [fx|]; [|done].
  intros [= H]. exact H.
Qed.

(** On a window of the table, a token decodes to a time of the window. *)
Lemma decode_time_token label hours t :
  (label, hours) ∈ _time_windows → token t →
  ∃ x, decode_time (total_seconds hours) t = Ok x ∧
       0 ≤ x ≤ window_seconds hours.
Proof.
  intros Hin Ht. pose proof Ht as Ht'. unfold token in Ht'.
  destruct (decoded_times_checked label hours Hin) as (Hasc & Hlast & _).
  pose proof (decoded_times_length hours) as Hlen.
  destruct (ascending_from_total 0 _ (Z.to_nat t) Hasc) as [x Hx]; [lia|].
  exists x. split; [by apply decoded_times_lookup|].
  pose proof (ascending_from_lookup 0 _ (Z.to_nat t) 4095%nat x _ Hasc
                ltac:(lia) Hx Hlast). lia.
Qed.

(** X5. On every window of the table, the tokens 0 to 4095 decode without
    error to times that ascend with the token, from 0 for token 0 to the
    length of the window for token 4095. *)
Theorem decode_time_in_window label hours t1 t2 :
  (label, hours) ∈ _time_windows → 0 ≤ t1 ≤ t2 → t2 ≤ 4095 →
  ∃ x1 x2,
    decode_time (total_seconds hours) t1 = Ok x1 ∧
    decode_time (total_seconds hours) t2 = Ok x2 ∧
    0 ≤ x1 ≤ x2 ∧ x2 ≤ window_seconds hours ∧
    decode_time (total_seconds hours) 0 = Ok 0 ∧
    decode_time (total_seconds hours) 4095 = Ok (window_seconds hours).
Proof.
  intros Hin Ht1 Ht2.
  destruct (decoded_times_checked label hours Hin) as (Hasc & Hlast & Hhead).
  pose proof (decoded_times_length hours) as Hlen.
  destruct (ascending_from_total 0 _ (Z.to_nat t1) Hasc) as [x1 H1]; [lia|].
  destruct (ascending_from_total 0 _ (Z.to_nat t2) Hasc) as [x2 H2]; [lia|].
  exists x1, x2.
  pose proof (ascending_from_lookup 0 _ _ _ x1 x2 Hasc
                (proj1 (Z2Nat.inj_le t1 t2 ltac:(lia) ltac:(lia)) ltac:(lia))
                H1 H2).
  pose proof (ascending_from_lookup 0 _ (Z.to_nat t2) 4095%nat x2 _ Hasc
                ltac:(lia) H2 Hlast).
  split; [apply decoded_times_lookup; [unfold token; lia|exact H1]|].
  split; [apply decoded_times_lookup; [unfold token; lia|exact H2]|].
  split; [lia|]. split; [lia|]. split.
  - apply (decoded_times_lookup hours 0); [unfold token; lia|exact Hhead].
  - apply (decoded_times_lookup hours 4095); [unfold token; lia|exact Hlast].
Qed.

Lemma decode_time_in_window_witness :
  ∃ x1 x2,
    decode_time (total_seconds (inject_Z 3)) 1183 = Ok x1 ∧
    decode_time (total_seconds (inject_Z 3)) 2000 = Ok x2 ∧
    0 ≤ x1 ≤ x2 ∧ x2 ≤ window_seconds (inject_Z 3) ∧
    decode_time (total_seconds (inject_Z 3)) 0 = Ok 0 ∧
    decode_time (total_seconds (inject_Z 3)) 4095
    = Ok (window_seconds (inject_Z 3)).
Proof.
  apply (decode_time_in_window "3 hrs" (inject_Z 3) 1183 2000).
  - unfold _time_windows. right. left.
  - lia.
  - lia.
Defined.

(** ** The chart series extractor on a whole chart *)

Lemma getitem_lookup {A} (l : list A) (i : nat) a :
  l !! i = Some a → getitem l (Z.of_nat i) = Ok a.
Proof.
  intros H. pose proof (lookup_lt_Some _ _ _ H) as Hlt. unfold getitem.
  destruct (Z.ltb_spec (Z.of_nat i) 0); [lia|].
  destruct (Z.leb_spec 0 (Z.of_nat i)); [|lia].
  destruct (Z.ltb_spec (Z.of_nat i) (Z.of_nat (length l))); [|lia].
  simpl. by rewrite Nat2Z.id, H.
Qed.

Lemma getitem_last {A} (l : list A) a :
  getitem l (-1) = Ok a ↔ last l = Some a.
Proof.
  unfold getitem. change (-1 <? 0) with true. cbv iota.
  rewrite last_lookup. destruct l as [|b l]; [done|].
  cbn [length]. destruct (Z.leb_spec 0 (-1 + Z.of_nat (S (length l)))); [|lia].
  destruct (Z.ltb_spec (-1 + Z.of_nat (S (length l)))
                       (Z.of_nat (S (length l)))); [|lia].
  cbn [andb pred].
  replace (Z.to_nat (-1 + Z.of_nat (S (length l)))) with (length l) by lia.
  destruct ((b :: l) !! length l) eqn:E; rewrite ?E; split; congruence.
Qed.

Lemma comprehension_ok {A B} (f : A → result B) (Q : A → B → Prop) l :
  Forall (λ a, ∃ b, f a = Ok b ∧ Q a b) l →
  ∃ bs, comprehension f l = Ok bs ∧ Forall2 Q l bs.
Proof.
  induction 1 as [|a l (b & Hb & HQ) _ (bs & Hbs & IH)].
  - by exists [].
  - exists (b :: bs). simpl. rewrite Hb. simpl. rewrite Hbs. simpl.
    split; [done|by constructor].
Qed.

Lemma unpack_preamble_ok chart value_max :
  unpack_preamble chart = Ok value_max ↔ readable_chart chart value_max.
Proof.
  unfold unpack_preamble, readable_chart, dict_get. split.
  - destruct (params chart !! "chd") as [chd|]; [|done]. simpl.
    destruct (startswith chd "e:") eqn:Es; [|done]. simpl.
    destruct (get_axis_labels chart) as [labels|]; [|done]. simpl.
    destruct (labels !! "y") as [ys|] eqn:Ey; [|done]. simpl.
    destruct (getitem ys (-1)) as [l|] eqn:El; [|done]. simpl.
    destruct (float_of_string l) as [v|] eqn:Ev; [|done]. simpl.
    destruct (params chart !! "chxt") as [chxt|]; [|done]. simpl.
    case_bool_decide as Hx; [|done]. simpl.
    destruct (Z.eqb_spec (2 * Z.of_nat (length (series_labels_of chart)))
                (Z.of_nat (length (getdata chart)))) as [Hl|]; [|done].
    simpl. intros [= <-]. exists chd, labels, ys, l.
    apply getitem_last in El. subst chxt. repeat split; try done. lia.
  - intros (chd & labels & ys & l & Hd & Hs & Ha & Hy & Hl & Hv & Hx & Hn).
    rewrite Hd. simpl. rewrite Hs. simpl. rewrite Ha. simpl.
    rewrite Hy. simpl. apply getitem_last in Hl. rewrite Hl. simpl.
    rewrite Hv. simpl. rewrite Hx. simpl.
    destruct (Z.eqb_spec (2 * Z.of_nat (length (series_labels_of chart)))
                (Z.of_nat (length (getdata chart)))) as [_|]; [done|lia].
Qed.

(** X6. A chart from which [unpack_chart_data] yields a series, or on which it
    ends without an exception, is in the extended encoding with the axes
    "x,y", has axis labels that parse, a number as the last label of its y
    axis and two lists of tokens for each series label. *)
Theorem unpack_chart_data_requires chart secs :
  (unpack_chart_data chart secs).1 ≠ [] ∨
  (unpack_chart_data chart secs).2 = None →
  ∃ value_max, readable_chart chart value_max.
Proof.
  unfold unpack_chart_data.
  destruct (unpack_preamble chart) as [v|e] eqn:E.
  - intros _. exists v. by apply unpack_preamble_ok.
  - simpl. intros [?|?]; done.
Qed.

Lemma unpack_chart_data_requires_witness :
  ∃ value_max, readable_chart (one_series [0; 4095] [0; 4095]) value_max.
Proof.
  apply (unpack_chart_data_requires _ (total_seconds 0.5)).
  right. vm_compute. reflexivity.
Defined.

Lemma float_of_int_token t : token t → ∃ f, float_of_int t = Ok f.
Proof.
  intros Ht.
  destruct (decode_time_token "3 hrs" (inject_Z 3) t) as (x & Hx & _);
    [unfold _time_windows; right; left|done|].
  unfold decode_time in Hx. destruct (float_of_int t) as [f|]; [by exists f|done].
Qed.

Lemma decode_value_total value_max y :
  token y → ∃ v, decode_value value_max y = Ok v.
Proof.
  intros [f Hf]%float_of_int_token. unfold decode_value. rewrite Hf. simpl.
  unfold round_to_n_significant_digits. apply format_e_read_back.
Qed.

(** X7. On a readable chart whose tokens are in range, over a window of the
    table, [unpack_chart_data] ends without an exception; it yields one item
    per series label, in order; the item of index [i] zips the decoded times
    of list [2 i] with the decoded values of list [2 i + 1], and the times lie
    within the window. *)
Theorem unpack_chart_data_total chart value_max label hours :
  readable_chart chart value_max →
  (label, hours) ∈ _time_windows →
  Forall (Forall token) (getdata chart) →
  ∃ items,
    unpack_chart_data chart (total_seconds hours) = (items, None) ∧
    items.*1 = series_labels_of chart ∧
    ∀ i item, items !! i = Some item →
      ∃ ts vs xs ys,
        getdata chart !! (2 * i)%nat = Some ts ∧
        getdata chart !! (2 * i + 1)%nat = Some vs ∧
        Forall2 (λ t x, decode_time (total_seconds hours) t = Ok x ∧
                        0 ≤ x ≤ window_seconds hours) ts xs ∧
        Forall2 (λ v y, decode_value value_max v = Ok y) vs ys ∧
        item.2 = zip xs ys.
Proof.
  intros Hr Hw Htok. pose proof Hr as Hpre. apply unpack_preamble_ok in Hpre.
  destruct Hr as (_ & _ & _ & _ & _ & _ & _ & _ & _ & _ & _ & Hlen).
  unfold unpack_chart_data. rewrite Hpre.
  set (labels := series_labels_of chart) in *.
  set (Q := λ (z : Z) (item : option string * list (Z * float)),
         labels !! Z.to_nat z = Some item.1 ∧
         ∃ ts vs xs ys,
           getdata chart !! (2 * Z.to_nat z)%nat = Some ts ∧
           getdata chart !! (2 * Z.to_nat z + 1)%nat = Some vs ∧
           Forall2 (λ t x, decode_time (total_seconds hours) t = Ok x ∧
                           0 ≤ x ≤ window_seconds hours) ts xs ∧
           Forall2 (λ v y, decode_value value_max v = Ok y) vs ys ∧
           item.2 = zip xs ys).
  destruct (generate_ok
              (unpack_series labels (getdata chart) (total_seconds hours)
                 value_max) Q (Z.of_nat <$> seq 0 (length labels)))
    as (items & Hgen & HQ).
  { intros z (i & -> & Hi)%list_elem_of_fmap.
    apply elem_of_seq in Hi.
    destruct (lookup_lt_is_Some_2 labels i) as [lab Hlab]; [lia|].
    destruct (lookup_lt_is_Some_2 (getdata chart) (2 * i)) as [ts Hts]; [lia|].
    destruct (lookup_lt_is_Some_2 (getdata chart) (2 * i + 1)) as [vs Hvs];
      [lia|].
    pose proof (Forall_lookup_1 _ _ _ _ Htok Hts) as Htts.
    pose proof (Forall_lookup_1 _ _ _ _ Htok Hvs) as Htvs.
    destruct (comprehension_ok (decode_time (total_seconds hours))
                (λ t x, decode_time (total_seconds hours) t = Ok x ∧
                        0 ≤ x ≤ window_seconds hours) ts)
      as (xs & Hxs & Hxs2).
    { eapply Forall_impl; [exact Htts|]. intros t Ht.
      destruct (decode_time_token label hours t Hw Ht) as (x & Hx & Hb).
      by exists x. }
    destruct (comprehension_ok (decode_value value_max)
                (λ v y, decode_value value_max v = Ok y) vs)
      as (ys & Hys & Hys2).
    { eapply Forall_impl; [exact Htvs|]. intros v Hv.
      destruct (decode_value_total value_max v Hv) as [y Hy]. by exists y. }
    exists (lab, zip xs ys). split.
    - unfold unpack_series.
      replace (Z.of_nat i * 2 + 1) with (Z.of_nat (2 * i + 1)) by lia.
      replace (Z.of_nat i * 2) with (Z.of_nat (2 * i)) by lia.
      rewrite (getitem_lookup _ _ _ Hlab), (getitem_lookup _ _ _ Hts),
        (getitem_lookup _ _ _ Hvs).
      cbn [mbind result_bind]. rewrite Hxs, Hys. reflexivity.
    - unfold Q. rewrite Nat2Z.id. split; [done|].
      by exists ts, vs, xs, ys. }
  exists items. split; [done|].
  assert (Hlen' : length items = length labels).
  { apply Forall2_length in HQ. by rewrite length_fmap, length_seq in HQ. }
  assert (Hat : ∀ i item, items !! i = Some item → Q (Z.of_nat i) item).
  { intros i item Hi.
    destruct (Forall2_lookup_r _ _ _ _ _ HQ Hi) as (z & Hz & HQz).
    rewrite list_lookup_fmap in Hz.
    destruct (seq 0 (length labels) !! i) as [k|] eqn:Ek; [|done].
    apply lookup_seq in Ek as [-> _]. simpl in Hz. by injection Hz as <-. }
  split.
  - apply list_eq. intros i. rewrite list_lookup_fmap.
    destruct (items !! i) as [item|] eqn:Ei; simpl.
    + destruct (Hat i item Ei) as [Hl _]. by rewrite Nat2Z.id in Hl.
    + symmetry. apply lookup_ge_None. apply lookup_ge_None in Ei. lia.
  - intros i item Hi. destruct (Hat i item Hi) as [_ H].
    by rewrite Nat2Z.id in H.
Qed.

Lemma unpack_chart_data_total_witness :
  ∃ items,
    unpack_chart_data (one_series [0; 4095] [0; 4095])
                      (total_seconds (inject_Z 3)) = (items, None) ∧
    items.*1 = series_labels_of (one_series [0; 4095] [0; 4095]).
Proof.
  destruct (unpack_chart_data_total (one_series [0; 4095] [0; 4095])
              (float_literal 300) "3 hrs" (inject_Z 3))
    as (items & Hitems & Hlabels & _).
  - exists "e:", (dict_of_pairs [("x", ["now"]); ("y", ["100"; "200"; "300"])]),
      ["100"; "200"; "300"], "300".
    repeat split; vm_compute; reflexivity.
  - unfold _time_windows. right. left.
  - repeat (apply Forall_cons; split); try apply Forall_nil; unfold token; lia.
  - exists items. by split.
Defined.

(** ** More on the axis-label parser *)

Lemma int_of_string_char c :
  int_of_string (String c EmptyString)
  = match digit_of c with Some d => Ok d | None => Raise ValueError end.
Proof. destruct c as [[] [] [] [] [] [] [] []]; reflexivity. Qed.

Lemma digit_of_range c d : digit_of c = Some d → 0 ≤ d ≤ 9.
Proof. destruct c as [[] [] [] [] [] [] [] []]; intros [= <-]; lia. Qed.

(** A segment that ends in a colon is read by its first character only. *)
Lemma colon_step n i labs c tail :
  endswith (String c tail) ":" = true →
  axis_label_step n (i, labs) (String c tail)
  = match digit_of c with
    | Some d => if d <? Z.of_nat n then Ok (d, labs) else Raise AssertionError
    | None => Raise ValueError
    end.
Proof.
  intros Hend. unfold axis_label_step. rewrite Hend.
  cbn [first_char]. rewrite int_of_string_char.
  destruct (digit_of c) as [d|] eqn:E; [|done].
  apply digit_of_range in E. cbn [mbind result_bind].
  destruct (Z.leb_spec 0 d); [|lia]. simpl.
  by destruct (d <? Z.of_nat n).
Qed.

Lemma colon_step_marker n st c tail d :
  endswith (String c tail) ":" = true → digit_of c = Some d →
  axis_label_step n st (String c tail) = axis_label_step n st (marker d).
Proof.
  intros Hend Hd. destruct st as [i labs].
  rewrite colon_step, Hd by done.
  by rewrite marker_step by (by eapply digit_of_range).
Qed.

(** X8. A segment that ends in a colon is read by its first character alone:
    when that character is the digit [d], the segment switches to axis [d]
    whatever stands between the digit and the colon, so "12:" and "1abc:" both
    select axis 1. *)
Theorem get_axis_labels_first_character chart chart' chxt pre c tail post d :
  params chart !! "chxt" = Some chxt →
  params chart' !! "chxt" = Some chxt →
  (∃ chxl, params chart !! "chxl" = Some chxl ∧
           split "|" chxl = (pre ++ String c tail :: post)%list) →
  (∃ chxl', params chart' !! "chxl" = Some chxl' ∧
            split "|" chxl' = (pre ++ marker d :: post)%list) →
  endswith (String c tail) ":" = true → digit_of c = Some d →
  get_axis_labels chart = get_axis_labels chart'.
Proof.
  intros Hxt Hxt' (chxl & Hxl & Hs) (chxl' & Hxl' & Hs') Hend Hd.
  unfold get_axis_labels, dict_get. rewrite Hxt, Hxt', Hxl, Hxl'. simpl.
  rewrite Hs, Hs', !for_each_app.
  destruct (for_each _ pre _) as [st|e]; [|done]. cbn [mbind result_bind].
  by rewrite !for_each_cons, (colon_step_marker _ _ c tail d).
Qed.

Lemma get_axis_labels_first_character_witness :
  get_axis_labels (sample_chart "x,y" "0:|a|12:|b" None [])
  = get_axis_labels (sample_chart "x,y" "0:|a|1:|b" None []).
Proof.
  apply (get_axis_labels_first_character _ _ "x,y" ["0:"; "a"] "1" "2:" ["b"] 1).
  - vm_compute. reflexivity.
  - vm_compute. reflexivity.
  - exists "0:|a|12:|b". split; vm_compute; reflexivity.
  - exists "0:|a|1:|b". split; vm_compute; reflexivity.
  - reflexivity.
  - reflexivity.
Defined.

(** X9. A segment that ends in a colon and does not start with a digit makes
    the parser raise [ValueError], when the segments before it are well
    formed. *)
Theorem get_axis_labels_bad_marker chart chxt chxl first blocks c tail rest :
  params chart !! "chxt" = Some chxt →
  params chart !! "chxl" = Some chxl →
  split "|" chxl = (first ++ segments_of blocks ++ String c tail :: rest)%list →
  Forall plain first →
  Forall (good_block (length (split "," chxt))) blocks →
  endswith (String c tail) ":" = true → digit_of c = None →
  get_axis_labels chart = Raise ValueError.
Proof.
  intros Hxt Hxl Hsplit Hf Hb Hend Hc.
  unfold get_axis_labels, dict_get. rewrite Hxt, Hxl. simpl.
  rewrite Hsplit, fmap_const_replicate, app_assoc, for_each_app.
  destruct (segments_loop (length (split "," chxt)) first blocks)
    as (i' & _ & ->); [apply split_length|done|done|].
  cbn [mbind result_bind]. by rewrite for_each_cons, colon_step, Hc.
Qed.

Lemma get_axis_labels_bad_marker_witness :
  get_axis_labels (sample_chart "x,y" "0:|a|x:|b" None []) = Raise ValueError.
Proof.
  apply (get_axis_labels_bad_marker _ "x,y" "0:|a|x:|b" [] [(0, ["a"])]
           "x" ":" ["b"]).
  - vm_compute. reflexivity.
  - vm_compute. reflexivity.
  - vm_compute. reflexivity.
  - constructor.
  - repeat constructor; simpl; lia.
  - reflexivity.
  - reflexivity.
Defined.

(** [dict(pairs)] of pairs with distinct keys holds exactly those pairs. *)
Lemma dict_of_pairs_snoc {V} (l : list (string * V)) k v :
  dict_of_pairs (l ++ [(k, v)]) = <[k := v]> (dict_of_pairs l).
Proof. unfold dict_of_pairs. by rewrite foldl_snoc. Qed.

Lemma dict_of_pairs_lookup_None {V} (l : list (string * V)) k :
  k ∉ l.*1 → dict_of_pairs l !! k = None.
Proof.
  induction l as [|[k' v'] l IH] using rev_ind; [done|].
  rewrite fmap_app, not_elem_of_app, dict_of_pairs_snoc. simpl.
  intros [Hl Hk]. rewrite lookup_insert_ne; [by apply IH|].
  intros ->. apply Hk. left.
Qed.

Lemma map_to_list_dict_of_pairs {V} (l : list (string * V)) :
  NoDup l.*1 → map_to_list (dict_of_pairs l) ≡ₚ l.
Proof.
  induction l as [|[k v] l IH] using rev_ind; [done|].
  rewrite fmap_app, NoDup_app, dict_of_pairs_snoc. simpl.
  intros (Hl & Hk & _).
  rewrite map_to_list_insert.
  - rewrite IH by done. by rewrite Permutation_app_comm.
  - apply dict_of_pairs_lookup_None. intros Hin. apply (Hk k Hin). left.
Qed.

Lemma concat_alter_snoc {A} (labs : list (list A)) k (x : list A) :
  (k < length labs)%nat →
  concat (alter (λ l, l ++ x)%list k labs) ≡ₚ (concat labs ++ x)%list.
Proof.
  revert k. induction labs as [|l labs IH]; intros k Hk; simpl in Hk; [lia|].
  destruct k as [|k]; simpl.
  - rewrite <- !app_assoc. f_equiv. apply Permutation_app_comm.
  - change (list_alter ?f k labs) with (alter f k labs).
    rewrite IH by lia. by rewrite app_assoc.
Qed.

Lemma concat_const_nil {A B} (l : list A) :
  concat ((λ _, ([] : list B)) <$> l) = [].
Proof. induction l as [|a l IH]; [done|]. by rewrite fmap_cons. Qed.

Lemma axis_loop_conserves n segs i labs i' labs' :
  for_each (axis_label_step n) segs (i, labs) = Ok (i', labs') →
  length labs' = length labs ∧
  concat labs' ≡ₚ
    (concat labs ++ filter (λ l, endswith l ":" = false) segs)%list.
Proof.
  revert i labs. induction segs as [|label segs IH]; intros i labs.
  - intros [= <- <-]. split; [done|]. by rewrite app_nil_r.
  - rewrite for_each_cons, filter_cons.
    destruct (axis_label_step n (i, labs) label) as [[i1 labs1]|e] eqn:E;
      [|done].
    cbn [mbind result_bind]. intros Hrest.
    destruct (IH _ _ Hrest) as [Hlen Hperm].
    unfold axis_label_step in E.
    destruct (endswith label ":") eqn:Hend.
    + rewrite decide_False by done.
      destruct (int_of_string (first_char label)) as [d|]; [|done].
      cbn [mbind result_bind] in E.
      destruct (assert _); [|done]. by injection E as <- <-.
    + rewrite decide_True by done.
      unfold position in E.
      destruct ((0 <=? _) && _) eqn:Hpos; [|done].
      cbn [mbind result_bind] in E. injection E as <- <-.
      rewrite length_alter in Hlen. split; [done|].
      rewrite Hperm, concat_alter_snoc.
      * by rewrite <- app_assoc.
      * apply andb_true_iff in Hpos as [H1 H2].
        apply Z.leb_le in H1. apply Z.ltb_lt in H2.
        destruct (i <? 0); lia.
Qed.

(** X10. On success, [get_axis_labels] gives every axis of "chxt" a list of
    labels, and when the axes are distinct these lists hold together exactly
    the segments of "chxl" that do not end in a colon. *)
Theorem get_axis_labels_keeps_labels chart chxt chxl labels :
  params chart !! "chxt" = Some chxt →
  params chart !! "chxl" = Some chxl →
  get_axis_labels chart = Ok labels →
  (∀ axis, axis ∈ split "," chxt → is_Some (labels !! axis)) ∧
  (NoDup (split "," chxt) →
   concat (map_to_list labels).*2 ≡ₚ
     filter (λ l, endswith l ":" = false) (split "|" chxl)).
Proof.
  intros Hxt Hxl. unfold get_axis_labels, dict_get. rewrite Hxt, Hxl. simpl.
  destruct (for_each _ _ _) as [[i' labs']|e] eqn:E; [|done].
  cbn [mbind result_bind snd]. intros [= <-].
  apply axis_loop_conserves in E as [Hlen Hperm].
  rewrite length_fmap in Hlen.
  assert (Hfst : (zip (split "," chxt) labs').*1 = split "," chxt)
    by (apply fst_zip; lia).
  assert (Hsnd : (zip (split "," chxt) labs').*2 = labs')
    by (apply snd_zip; lia).
  split.
  - intros axis Hin. rewrite <- Hfst in Hin.
    apply list_elem_of_fmap in Hin as ([k v] & -> & Hin). simpl.
    destruct (dict_of_pairs (zip (split "," chxt) labs') !! k) eqn:Hk; [done|].
    exfalso. revert Hk Hin. generalize (zip (split "," chxt) labs').
    intros l. induction l as [|[k' v'] l IH] using rev_ind.
    + by intros _ ?%elem_of_nil.
    + rewrite dict_of_pairs_snoc, elem_of_app. simpl.
      destruct (decide (k' = k)) as [->|Hne].
      * by rewrite lookup_insert_eq.
      * rewrite lookup_insert_ne by done. intros Hk [Hin|Hin]; [by apply IH|].
        apply list_elem_of_singleton in Hin. congruence.
  - intros Hnd. rewrite map_to_list_dict_of_pairs by (by rewrite Hfst).
    rewrite Hsnd, Hperm.
    by rewrite concat_const_nil.
Qed.

Lemma get_axis_labels_keeps_labels_witness :
  (∀ axis, axis ∈ split "," "x,y" →
           is_Some (dict_of_pairs [("x", ["a"; "b"]); ("y", ["c"])] !! axis)) ∧
  (NoDup (split "," "x,y") →
   concat (map_to_list
             (dict_of_pairs [("x", ["a"; "b"]); ("y", ["c"])])).*2 ≡ₚ
     filter (λ l, endswith l ":" = false) (split "|" "0:|a|b|1:|c")).
Proof.
  apply (get_axis_labels_keeps_labels
           (sample_chart "x,y" "0:|a|b|1:|c" None []));
    vm_compute; reflexivity.
Defined.

(** ** The aggregator and the order of the dict *)

Lemma generate_ext {A B} (f g : A → result B) l :
  (∀ a, f a = g a) → generate f l = generate g l.
Proof.
  intros H. induction l as [|a l IH]; simpl; [done|]. by rewrite H, IH.
Qed.

Section iteration_order.
Context {Y : Type}.
Implicit Types (named_series : gmap string (list (Z * Y))).

Lemma add_matched_comm x (record : gmap string Y) a b :
  a.1 ≠ b.1 →
  (add_matched x record a ≫= λ r, add_matched x r b)
  = (add_matched x record b ≫= λ r, add_matched x r a).
Proof.
  intros Hne. unfold add_matched.
  destruct (bool_decide (length (filter (λ xy, xy.1 = x) a.2) ∈ [0; 1]%nat));
    destruct (bool_decide (length (filter (λ xy, xy.1 = x) b.2) ∈ [0; 1]%nat));
    simpl; try done.
  destruct (filter (λ xy, xy.1 = x) a.2) as [|p ?];
    destruct (filter (λ xy, xy.1 = x) b.2) as [|q ?]; try done.
  by rewrite insert_insert_ne.
Qed.

Lemma record_loop_Permutation x (items items' : list (string * list (Z * Y)))
    (record : gmap string Y) :
  items ≡ₚ items' → NoDup items.*1 →
  for_each (add_matched x) items record
  = for_each (add_matched x) items' record.
Proof.
  intros Hp. revert record.
  induction Hp as [|a l l' Hp IH|a b l|l l' l'' Hp IH Hp' IH'];
    intros record Hnd.
  - done.
  - rewrite !for_each_cons. apply NoDup_cons in Hnd as [_ Hnd].
    destruct (add_matched x record a); simpl; [by apply IH|done].
  - rewrite !for_each_cons.
    assert (Hne : b.1 ≠ a.1).
    { rewrite !fmap_cons in Hnd. apply NoDup_cons in Hnd as [Hin _].
      intros Heq. apply Hin. rewrite Heq. left. }
    pose proof (add_matched_comm x record b a Hne) as Hc.
    destruct (add_matched x record b) as [r1|];
      destruct (add_matched x record a) as [r2|];
      cbn [mbind result_bind] in *; rewrite ?for_each_cons;
      cbn [mbind result_bind] in *.
    + by rewrite Hc.
    + by rewrite Hc.
    + by rewrite <- Hc.
    + congruence.
  - rewrite IH by done. apply IH'. by rewrite <- Hp.
Qed.

Variables order1 order2 : list string → list string.
Hypothesis order1_perm : ∀ keys, NoDup keys → order1 keys ≡ₚ keys.
Hypothesis order2_perm : ∀ keys, NoDup keys → order2 keys ≡ₚ keys.

Lemma iteritems_order {V} (d : gmap string V) :
  iteritems order1 d ≡ₚ iteritems order2 d.
Proof.
  by rewrite (iteritems_Permutation order1 order1_perm),
             (iteritems_Permutation order2 order2_perm).
Qed.

Lemma x_values_of_order named_series :
  x_values_of order1 named_series = x_values_of order2 named_series.
Proof.
  apply set_eq. intros x.
  by rewrite (elem_of_x_values_of order1 order1_perm),
             (elem_of_x_values_of order2 order2_perm).
Qed.

Lemma aggregate_record_order named_series x :
  aggregate_record order1 named_series x
  = aggregate_record order2 named_series x.
Proof.
  unfold aggregate_record.
  rewrite (record_loop_Permutation x (iteritems order1 named_series)
             (iteritems order2 named_series)); [done| |].
  - apply iteritems_order.
  - by apply NoDup_fst_iteritems.
Qed.

(** X11. The order in which the dict of series is iterated has no effect on
    what the aggregator yields, nor on whether it raises. *)
Theorem aggregate_series_by_time_any_order named_series :
  aggregate_series_by_time order1 named_series
  = aggregate_series_by_time order2 named_series.
Proof.
  unfold aggregate_series_by_time. rewrite x_values_of_order.
  apply generate_ext, aggregate_record_order.
Qed.

End iteration_order.

Lemma aggregate_series_by_time_any_order_witness :
  aggregate_series_by_time (λ keys, keys) duplicate_series
  = aggregate_series_by_time reverse duplicate_series ∧
  aggregate_series_by_time (λ keys, keys) sample_series
  = aggregate_series_by_time reverse sample_series.
Proof.
  split; apply aggregate_series_by_time_any_order;
    (intros keys _; reflexivity) || (intros keys _; apply reverse_Permutation).
Defined.

(** ** The batch and the order of the dicts *)

Lemma for_each_ext {A S} (f g : S → A → result S) l s :
  (∀ s a, f s a = g s a) → for_each f l s = for_each g l s.
Proof.
  intros H. revert s. induction l as [|a l IH]; intros s; [done|].
  rewrite !for_each_cons, H. destruct (g s a); simpl; [apply IH|done].
Qed.

(** A module's records do not depend on the records of the others. *)
Lemma module_records_insert dict_order chart_start_time_t start_time_t
    records_by_module item result :
  module_records dict_order chart_start_time_t start_time_t
                 records_by_module item = Ok result →
  ∃ records,
    result = <[item.1 := records]> records_by_module ∧
    ∀ others, module_records dict_order chart_start_time_t start_time_t
                             others item
              = Ok (<[item.1 := records]> others).
Proof.
  unfold module_records.
  destruct (for_generated _ _ _) as [records|]; simpl; [|done].
  intros [= <-]. by exists records.
Qed.

Lemma module_loop_Permutation dict_order chart_start_time_t start_time_t
    (items items' : list (string * gmap string (list (Z * float))))
    records_by_module result :
  items ≡ₚ items' → NoDup items.*1 →
  for_each (module_records dict_order chart_start_time_t start_time_t) items
           records_by_module = Ok result →
  for_each (module_records dict_order chart_start_time_t start_time_t) items'
           records_by_module = Ok result.
Proof.
  intros Hp. revert records_by_module result.
  induction Hp as [|a l l' Hp IH|a b l|l l' l'' Hp IH Hp' IH'];
    intros records_by_module result Hnd.
  - done.
  - rewrite !for_each_cons. apply NoDup_cons in Hnd as [_ Hnd].
    destruct (module_records _ _ _ _ a); simpl; [by apply IH|done].
  - assert (Hne : b.1 ≠ a.1).
    { rewrite !fmap_cons in Hnd. apply NoDup_cons in Hnd as [Hin _].
      intros Heq. apply Hin. rewrite Heq. left. }
    rewrite for_each_cons.
    destruct (module_records _ _ _ records_by_module b) as [s1|] eqn:Eb;
      [|done].
    cbn [mbind result_bind]. rewrite for_each_cons.
    destruct (module_records _ _ _ s1 a) as [s2|] eqn:Ea; [|done].
    cbn [mbind result_bind]. intros Hrest.
    apply module_records_insert in Eb as (rb & -> & Hb).
    apply module_records_insert in Ea as (ra & -> & Ha).
    rewrite for_each_cons, Ha. cbn [mbind result_bind].
    rewrite for_each_cons, Hb. cbn [mbind result_bind].
    by rewrite insert_insert_ne.
  - intros H. apply IH', IH; [by rewrite <- Hp|done|done].
Qed.

Section batch_order.
Variables order1 order2 : list string → list string.
Hypothesis order1_perm : ∀ keys, NoDup keys → order1 keys ≡ₚ keys.
Hypothesis order2_perm : ∀ keys, NoDup keys → order2 keys ≡ₚ keys.

Lemma module_records_order chart_start_time_t start_time_t records_by_module
    item :
  module_records order1 chart_start_time_t start_time_t records_by_module item
  = module_records order2 chart_start_time_t start_time_t records_by_module
                   item.
Proof.
  unfold module_records, aggregate_series_by_time.
  rewrite (x_values_of_order order1 order2 order1_perm order2_perm).
  by rewrite (generate_ext _ _ _
                (aggregate_record_order order1 order2 order1_perm order2_perm
                   item.2)).
Qed.

Lemma build_records_order input start_time_t download_time_t
    records_by_module :
  build_records order1 input start_time_t download_time_t
  = Ok records_by_module →
  build_records order2 input start_time_t download_time_t
  = Ok records_by_module.
Proof.
  unfold build_records.
  destruct (extract_all input) as [extracted|]; simpl; [|done].
  destruct (float_of_int download_time_t) as [download|]; simpl; [|done].
  intros H.
  rewrite <- (for_each_ext _ _ _ _
                (module_records_order
                   (fsub download (total_seconds extracted.2)) start_time_t)).
  apply (module_loop_Permutation order1 _ _ (iteritems order1 extracted.1));
    [|by apply NoDup_fst_iteritems|done].
  apply (iteritems_order order1 order2 order1_perm order2_perm).
Qed.

End batch_order.
(** ** Invariants of the loops *)

Lemma for_each_invariant {A S} (P : S → Prop) (body : S → A → result S)
    l s0 s :
  P s0 → (∀ s a s', P s → body s a = Ok s' → P s') →
  for_each body l s0 = Ok s → P s.
Proof.
  intros H0 Hstep. revert s0 H0.
  induction l as [|a l IH]; intros s0 H0; simpl.
  - by intros [= <-].
  - destruct (body s0 a) as [s1|] eqn:E; simpl; [|done].
    apply IH. by eapply Hstep.
Qed.

Lemma for_generated_invariant {A S} (P : S → Prop) (body : S → A → result S)
    g s0 s :
  P s0 → (∀ s a s', P s → body s a = Ok s' → P s') →
  for_generated body g s0 = Ok s → P s.
Proof.
  intros H0 Hstep. unfold for_generated.
  destruct (for_each body g.1 s0) as [s1|] eqn:E; simpl; [|done].
  destruct g.2; [done|]. intros [= <-].
  by eapply for_each_invariant.
Qed.

Lemma elem_of_iteritems_lookup {V} dict_order (d : gmap string V) k v :
  (k, v) ∈ iteritems dict_order d → d !! k = Some v.
Proof.
  unfold iteritems. intros (k' & _ & H)%list_elem_of_omap.
  destruct (d !! k') as [v'|] eqn:E; simpl in H; [|done].
  by injection H as -> ->.
Qed.

(** ** The times of the records *)

Lemma float_gt_int_le f T z :
  float_gt_int f T = true → int_of_float f = Ok z → T ≤ z.
Proof.
  destruct f as [s|s| |s m e]; simpl; try done.
  - intros H%Z.ltb_lt [= <-]. lia.
  - destruct (Z.leb_spec 0 e) as [He|He].
    + intros H%Z.ltb_lt [= <-]. rewrite Z.shiftl_mul_pow2 by done.
      destruct s; simpl in *; lia.
    + intros H%Z.ltb_lt [= <-].
      replace e with (- (- e)) by lia. rewrite Z.shiftl_opp_r.
      rewrite Z.shiftr_div_pow2 by lia.
      assert (HP : 0 < 2 ^ (- e)) by (apply Z.pow_pos_nonneg; lia).
      destruct s; simpl in *.
      * assert (Z.pos m / 2 ^ (- e) < - T); [|lia].
        apply Z.div_lt_upper_bound; lia.
      * apply Z.div_le_lower_bound; lia.
Qed.

Lemma record_time_insert (r : gmap string value) t :
  record_time (<["utc_datetime" := VDatetime t]> r) = Ok t.
Proof. unfold record_time, dict_get. by rewrite lookup_insert_eq. Qed.

Lemma keep_record_timed chart_start_time_t start_time_t records item records' :
  Forall (timed_from start_time_t) records →
  keep_record chart_start_time_t start_time_t records item = Ok records' →
  Forall (timed_from start_time_t) records'.
Proof.
  intros Hall. unfold keep_record.
  destruct (float_of_int item.1) as [time_value|]; simpl; [|done].
  destruct (is_new_record _ _) eqn:Enew; [|by intros [= <-]].
  destruct (utcfromtimestamp _) as [utc|] eqn:Eutc; simpl; [|done].
  intros [= <-]. apply Forall_app. split; [done|].
  apply Forall_singleton. exists utc. split; [apply record_time_insert|].
  intros T -> HT. rewrite is_new_record_watermark in Enew by done.
  unfold utcfromtimestamp in Eutc.
  destruct (int_of_float _) as [z|] eqn:Ez; simpl in Eutc; [|done].
  destruct (_ && _); [|done]. injection Eutc as <-.
  by eapply float_gt_int_le.
Qed.

Lemma module_records_timed dict_order chart_start_time_t start_time_t
    records_by_module item records_by_module' :
  map_Forall (λ _, Forall (timed_from start_time_t)) records_by_module →
  module_records dict_order chart_start_time_t start_time_t
                 records_by_module item = Ok records_by_module' →
  map_Forall (λ _, Forall (timed_from start_time_t)) records_by_module'.
Proof.
  intros Hall. unfold module_records.
  destruct (for_generated _ _ _) as [records|] eqn:E; simpl; [|done].
  intros [= <-]. apply map_Forall_insert_2; [|done].
  apply (for_generated_invariant (Forall (timed_from start_time_t)) _ _ _ _
           (Forall_nil_2 _)) in E; [done|].
  intros s a s'. apply keep_record_timed.
Qed.

Lemma build_records_timed dict_order input start_time_t download_time_t
    records_by_module :
  build_records dict_order input start_time_t download_time_t
  = Ok records_by_module →
  map_Forall (λ _, Forall (timed_from start_time_t)) records_by_module.
Proof.
  unfold build_records.
  destruct (extract_all input) as [extracted|]; simpl; [|done].
  destruct (float_of_int download_time_t) as [download|]; simpl; [|done].
  apply for_each_invariant; [apply map_Forall_empty|].
  intros s a s'. apply module_records_timed.
Qed.

Lemma comprehension_record_time start_time_t records :
  Forall (timed_from start_time_t) records →
  ∃ times, comprehension record_time records = Ok times ∧
           Forall2 (λ r t, record_time r = Ok t) records times.
Proof.
  intros H. apply comprehension_ok. eapply Forall_impl; [exact H|].
  intros r (t & Ht & _). by exists t.
Qed.

Lemma foldl_max_latest t ts :
  foldl Z.max t ts ∈ t :: ts ∧ ∀ t', t' ∈ t :: ts → t' ≤ foldl Z.max t ts.
Proof.
  revert t. induction ts as [|a ts IH]; intros t; simpl.
  - split; [left|]. intros t' ?%list_elem_of_singleton. lia.
  - destruct (IH (Z.max t a)) as [Hin Hle]. split.
    + apply elem_of_cons in Hin as [Heq|Hin]; [|by right; right].
      rewrite Heq. destruct (Z.max_spec t a) as [[_ ->]|[_ ->]];
        [right; left|left].
    + intros t' [->|[->|Hin']%elem_of_cons]%elem_of_cons.
      * etrans; [|apply Hle; left]. lia.
      * etrans; [|apply Hle; left]. lia.
      * apply Hle. by right.
Qed.

Lemma write_time_latest start_time_t records :
  Forall (timed_from start_time_t) records → records ≠ [] →
  ∃ t, _write_time_t_of_latest_record records = Ok (Some t) ∧
       latest_time records t.
Proof.
  intros Hall Hne. unfold _write_time_t_of_latest_record.
  destruct (comprehension_record_time _ _ Hall) as (times & -> & Htimes).
  simpl. destruct times as [|t ts].
  { apply Forall2_nil_inv_r in Htimes. done. }
  exists (foldl Z.max t ts). split; [done|].
  destruct (foldl_max_latest t ts) as [Hin Hle]. split.
  - apply list_elem_of_lookup in Hin as [i Hi].
    destruct (Forall2_lookup_r _ _ _ _ _ Htimes Hi) as (r & Hr & Ht).
    exists r. split; [by eapply list_elem_of_lookup_2|done].
  - intros r [i Hi]%list_elem_of_lookup.
    destruct (Forall2_lookup_l _ _ _ _ _ Htimes Hi) as (t' & Ht' & Hrt).
    exists t'. split; [done|]. apply Hle. by eapply list_elem_of_lookup_2.
Qed.

(** What [main] does once the records of each module are built. *)
Lemma main_built dict_order input utc_timestamp db records_by_module :
  input ≠ [] →
  build_records dict_order input db utc_timestamp = Ok records_by_module →
  main dict_order input utc_timestamp true db = (Ok tt, db, []) ∧
  ∃ db',
    main dict_order input utc_timestamp false db
    = (Ok tt, db', iteritems dict_order records_by_module) ∧
    match last (iteritems dict_order records_by_module) with
    | None => db' = db
    | Some item =>
        if decide (item.2 = []) then db' = db
        else ∃ t, db' = Some t ∧ latest_time item.2 t
    end.
Proof.
  intros Hne Hb. pose proof (build_records_timed _ _ _ _ _ Hb) as Htimed.
  unfold main, _time_t_of_latest_record, parse_and_commit_record.
  destruct input as [|c input]; [done|]. rewrite Hb. split; [done|].
  destruct (last (iteritems dict_order records_by_module)) as [[m rs]|] eqn:E.
  - simpl. destruct rs as [|r rs]; [by exists db|].
    assert (Hrs : Forall (timed_from db) (r :: rs)).
    { apply (Htimed m). apply (elem_of_iteritems_lookup dict_order).
      apply last_Some in E as [l ->]. apply elem_of_app. right. left. }
    destruct (write_time_latest db (r :: rs) Hrs) as (t & -> & Hlatest);
      [done|].
    exists (Some t). split; [done|]. by exists t.
  - apply last_None in E. rewrite E. by exists db.
Qed.

(** ** What a cycle does to the store and sends *)

(** X12. Every record that [main] delivers carries a time; when the stored
    watermark is a time other than 0, none of them is earlier. *)
Theorem main_delivers_timed_records dict_order input utc_timestamp dry_run db
    module_name records r :
  (module_name, records) ∈ (main dict_order input utc_timestamp dry_run db).2 →
  r ∈ records →
  timed_from db r.
Proof.
  rewrite main_deliveries. unfold parse_and_commit_record.
  destruct input as [|c input]; [by intros ?%elem_of_nil|].
  destruct (build_records _ _ _ _) as [records_by_module|] eqn:Hb;
    [|by intros ?%elem_of_nil].
  destruct dry_run; [by intros ?%elem_of_nil|]. cbn [snd].
  intros Hin%elem_of_iteritems_lookup Hr.
  pose proof (build_records_timed _ _ _ _ _ Hb _ _ Hin) as Hall.
  rewrite Forall_forall in Hall. by apply Hall.
Qed.


(** X14. A stored watermark other than 0 never moves back. *)
Theorem watermark_never_moves_back dict_order input utc_timestamp dry_run T :
  T ≠ 0 →
  ∃ T', (main dict_order input utc_timestamp dry_run (Some T)).1.2 = Some T' ∧
        T ≤ T'.
Proof.
  intros HT. destruct input as [|c input]; [by exists T|].
  destruct (build_records dict_order (c :: input) (Some T) utc_timestamp)
    as [records_by_module|e] eqn:Hb.
  - destruct (main_built _ (c :: input) _ _ _ ltac:(done) Hb)
      as [Hdry (db' & Hrun & Hdb')].
    destruct dry_run; [rewrite Hdry; by exists T|]. rewrite Hrun. cbn [fst snd].
    destruct (last (iteritems dict_order records_by_module)) as [[m rs]|] eqn:E;
      [|exists T; by rewrite Hdb'].
    destruct (decide ((m, rs).2 = [])) as [|Hne];
      [exists T; by rewrite Hdb'|].
    destruct Hdb' as (t & -> & (r & Hr & Ht) & _). exists t. split; [done|].
    assert (Hin : (m, rs) ∈ iteritems dict_order records_by_module).
    { apply last_Some in E as [l ->]. apply elem_of_app. right. left. }
    apply elem_of_iteritems_lookup in Hin.
    pose proof (build_records_timed _ _ _ _ _ Hb _ _ Hin) as Hall.
    rewrite Forall_forall in Hall.
    destruct (Hall r Hr) as (t' & Ht' & Hle).
    assert (t' = t) by congruence. subst t'. by apply Hle.
  - unfold main.
    rewrite (parse_and_commit_record_raise _ (c :: input) _ _ _ e
               ltac:(done) Hb).
    by exists T.
Qed.

(** X15. The watermark that a cycle stores is the latest time among the
    records of its last delivery; when that delivery has no record, the store
    is left as it is. *)
Theorem watermark_of_last_delivery dict_order input utc_timestamp dry_run db
    module_name records :
  last (main dict_order input utc_timestamp dry_run db).2
  = Some (module_name, records) →
  if decide (records = [])
  then (main dict_order input utc_timestamp dry_run db).1.2 = db
  else ∃ t, (main dict_order input utc_timestamp dry_run db).1.2 = Some t ∧
            latest_time records t.
Proof.
  destruct input as [|c input]; [done|].
  destruct (build_records dict_order (c :: input) db utc_timestamp)
    as [records_by_module|e] eqn:Hb.
  - destruct (main_built _ (c :: input) _ _ _ ltac:(done) Hb)
      as [Hdry (db' & Hrun & Hdb')].
    destruct dry_run; [by rewrite Hdry|]. rewrite Hrun. cbn [fst snd].
    intros E. rewrite E in Hdb'. exact Hdb'.
  - unfold main.
    by rewrite (parse_and_commit_record_raise _ (c :: input) _ _ _ e
               ltac:(done) Hb).
Qed.

(** X16. A dry run delivers nothing and leaves the store as it is; so does an
    empty batch. *)
Theorem main_dry_run_has_no_effect dict_order input utc_timestamp db :
  ((main dict_order input utc_timestamp true db).1.2 = db ∧
   (main dict_order input utc_timestamp true db).2 = []) ∧
  ∀ dry_run, main dict_order [] utc_timestamp dry_run db = (Ok tt, db, []).
Proof.
  split; [|done]. destruct input as [|c input]; [done|].
  destruct (build_records dict_order (c :: input) db utc_timestamp)
    as [records_by_module|e] eqn:Hb.
  - destruct (main_built _ (c :: input) _ _ _ ltac:(done) Hb) as [-> _]. done.
  - unfold main.
    by rewrite (parse_and_commit_record_raise _ (c :: input) _ _ _ e
               ltac:(done) Hb).
Qed.

Lemma main_delivers_timed_records_witness :
  timed_from (Some 8200)
    (record_of "milliseconds_per_dynamic_request" (S754_zero false) 8201).
Proof.
  apply (main_delivers_timed_records (λ keys, keys)
           [latency_chart "default" [0; 3] [4095; 0]] 10000 false (Some 8200)
           "default"
           [record_of "milliseconds_per_dynamic_request" (S754_zero false)
                      8201]).
  - vm_compute. left.
  - left.
Defined.


Lemma watermark_never_moves_back_witness :
  ∃ T', (main (λ keys, keys) [latency_chart "default" [0; 3] [4095; 0]]
              10000 false (Some 8200)).1.2 = Some T' ∧
        8200 ≤ T'.
Proof. apply watermark_never_moves_back. lia. Defined.

Lemma watermark_of_last_delivery_witness :
  ∃ t, (main (λ keys, keys)
             [latency_chart "a" [4095] [0]; latency_chart "b" [0] [0]]
             10000 false None).1.2 = Some t ∧
       latest_time [record_of "milliseconds_per_dynamic_request"
                              (S754_zero false) 8200] t.
Proof.
  apply (watermark_of_last_delivery (λ keys, keys)
           [latency_chart "a" [4095] [0]; latency_chart "b" [0] [0]]
           10000 false None "b"
           [record_of "milliseconds_per_dynamic_request" (S754_zero false)
                      8200]).
  vm_compute. reflexivity.
Defined.

(** ** The modules of a batch *)

Ltac union_solver :=
  rewrite ?dom_empty_L; apply set_eq; intros ?;
  rewrite ?elem_of_union, ?elem_of_list_to_set, ?elem_of_cons,
    ?elem_of_singleton, ?elem_of_empty, ?elem_of_nil;
  tauto.

Lemma generate_length {A B} (f : A → result B) l ys :
  generate f l = (ys, None) → length ys = length l.
Proof.
  revert ys. induction l as [|a l IH]; intros ys; simpl.
  - by intros [= <-].
  - destruct (f a) as [b|]; [|done].
    destruct (generate f l) as [ys' e] eqn:E. intros [= <- ->].
    simpl. f_equal. by apply IH.
Qed.

Lemma series_labels_of_length chart :
  (0 < length (series_labels_of chart))%nat.
Proof.
  unfold series_labels_of. destruct (params chart !! "chdl"); simpl; [|lia].
  rewrite length_fmap. apply split_length.
Qed.

Lemma unpack_chart_data_yields chart secs :
  (unpack_chart_data chart secs).2 = None →
  (unpack_chart_data chart secs).1 ≠ [].
Proof.
  unfold unpack_chart_data.
  destruct (unpack_preamble chart) as [value_max|]; [|done].
  destruct (generate _ _) as [ys e] eqn:E. simpl. intros ->.
  apply generate_length in E. rewrite length_fmap, length_seq in E.
  pose proof (series_labels_of_length chart). intros ->. simpl in E. lia.
Qed.

Lemma store_series_dom chart_label module_name by_module item by_module' :
  store_series chart_label module_name by_module item = Ok by_module' →
  dom by_module' = dom by_module ∪ {[module_name]}.
Proof.
  unfold store_series.
  destruct (lookup_field_name _ _) as [field_name|]; simpl; [|done].
  destruct (by_module !! module_name) as [named|] eqn:E; unfold dict_get.
  - rewrite E. simpl. intros [= <-]. rewrite dom_insert_L. union_solver.
  - rewrite lookup_insert_eq. simpl. intros [= <-].
    rewrite !dom_insert_L. union_solver.
Qed.

Lemma store_loop_dom chart_label module_name items by_module by_module' :
  for_each (store_series chart_label module_name) items by_module
  = Ok by_module' →
  items ≠ [] → dom by_module' = dom by_module ∪ {[module_name]}.
Proof.
  revert by_module. induction items as [|item items IH]; [done|].
  intros by_module. rewrite for_each_cons.
  destruct (store_series _ _ _ _) as [by_module1|] eqn:E; simpl; [|done].
  apply store_series_dom in E. intros H _.
  destruct items as [|item' items'].
  - injection H as <-. done.
  - apply IH in H; [|done]. rewrite H, E. union_solver.
Qed.

Lemma extract_chart_dom st cj st' :
  extract_chart st cj = Ok st' → dom st'.1 = dom st.1 ∪ {[module cj]}.
Proof.
  unfold extract_chart.
  destruct (getitem _ (chart_num cj)) as [chart_label|]; simpl; [|done].
  destruct (getitem _ (time_window cj)) as [window|]; simpl; [|done].
  destruct (for_generated _ _ _) as [by_module|] eqn:E; simpl; [|done].
  intros [= <-]. simpl. unfold for_generated in E.
  destruct (for_each _ _ _) as [by_module'|] eqn:Eloop; simpl in E; [|done].
  destruct (unpack_chart_data _ _).2 eqn:Eend; [done|]. injection E as ->.
  apply store_loop_dom in Eloop; [done|].
  by apply unpack_chart_data_yields.
Qed.

Lemma extract_loop_dom input st st' :
  for_each extract_chart input st = Ok st' →
  dom st'.1 = dom st.1 ∪ list_to_set (module <$> input).
Proof.
  revert st. induction input as [|cj input IH]; intros st.
  - intros [= <-]. union_solver.
  - rewrite for_each_cons.
    destruct (extract_chart st cj) as [st1|] eqn:E; simpl; [|done].
    intros H%IH. apply extract_chart_dom in E. rewrite H, E. union_solver.
Qed.

Lemma extract_all_dom input extracted :
  extract_all input = Ok extracted →
  dom extracted.1 = list_to_set (module <$> input).
Proof.
  unfold extract_all.
  destruct (for_each _ _ _) as [st|] eqn:E; simpl; [|done].
  destruct (same_time_window input); simpl; [|done].
  destruct st.2; simpl; [|done]. intros [= <-]. simpl.
  apply extract_loop_dom in E. rewrite E. simpl. union_solver.
Qed.

Lemma module_records_dom dict_order chart_start_time_t start_time_t
    records_by_module item records_by_module' :
  module_records dict_order chart_start_time_t start_time_t
                 records_by_module item = Ok records_by_module' →
  dom records_by_module' = dom records_by_module ∪ {[item.1]}.
Proof.
  unfold module_records.
  destruct (for_generated _ _ _) as [records|]; simpl; [|done].
  intros [= <-]. rewrite dom_insert_L. union_solver.
Qed.

Lemma module_loop_dom dict_order chart_start_time_t start_time_t items
    records_by_module records_by_module' :
  for_each (module_records dict_order chart_start_time_t start_time_t) items
           records_by_module = Ok records_by_module' →
  dom records_by_module' = dom records_by_module ∪ list_to_set items.*1.
Proof.
  revert records_by_module.
  induction items as [|item items IH]; intros records_by_module.
  - intros [= <-]. union_solver.
  - rewrite for_each_cons.
    destruct (module_records _ _ _ _ item) as [records_by_module1|] eqn:E;
      simpl; [|done].
    intros H%IH. apply module_records_dom in E. rewrite H, E. union_solver.
Qed.

Section deliveries.
Variable dict_order : list string → list string.
Hypothesis dict_order_perm : ∀ keys, NoDup keys → dict_order keys ≡ₚ keys.

Lemma iteritems_dom {V} (d : gmap string V) :
  list_to_set (iteritems dict_order d).*1 = dom d.
Proof.
  apply set_eq. intros k. rewrite elem_of_list_to_set, elem_of_dom. split.
  - intros ([k' v] & -> & Hin)%list_elem_of_fmap.
    apply (elem_of_iteritems dict_order dict_order_perm) in Hin. by exists v.
  - intros [v Hv]. apply list_elem_of_fmap. exists (k, v). split; [done|].
    by apply (elem_of_iteritems dict_order dict_order_perm).
Qed.

(** X17. A cycle that succeeds makes one delivery for each module of the
    batch, and no other delivery. *)
Theorem main_delivers_each_module input utc_timestamp db db' sent :
  main dict_order input utc_timestamp false db = (Ok tt, db', sent) →
  NoDup sent.*1 ∧
  ∀ module_name, module_name ∈ sent.*1 ↔
                 ∃ cj, cj ∈ input ∧ module cj = module_name.
Proof.
  destruct input as [|c input].
  { intros [= <- <-]. split; [constructor|]. intros m. split.
    - by intros ?%elem_of_nil.
    - by intros (cj & ?%elem_of_nil & _). }
  destruct (build_records dict_order (c :: input) db utc_timestamp)
    as [records_by_module|e] eqn:Hb.
  - destruct (main_built _ (c :: input) _ _ _ ltac:(done) Hb)
      as [_ (db'' & -> & _)].
    intros [= <- <-]. split; [by apply NoDup_fst_iteritems|].
    intros m. rewrite <- (elem_of_list_to_set (C := gset string)).
    rewrite iteritems_dom.
    unfold build_records in Hb.
    destruct (extract_all (c :: input)) as [extracted|] eqn:Hex;
      simpl in Hb; [|done].
    destruct (float_of_int utc_timestamp) as [download|]; simpl in Hb;
      [|done].
    apply module_loop_dom in Hb. rewrite Hb, iteritems_dom.
    rewrite (extract_all_dom _ _ Hex), dom_empty_L, (left_id_L ∅ (∪)).
    rewrite elem_of_list_to_set, list_elem_of_fmap. split.
    + intros (cj & -> & Hin). by exists cj.
    + intros (cj & Hin & <-). by exists cj.
  - unfold main.
    by rewrite (parse_and_commit_record_raise _ (c :: input) _ _ _ e
                  ltac:(done) Hb).
Qed.

End deliveries.

Lemma main_delivers_each_module_witness :
  NoDup ["a"; "b"] ∧
  ∀ module_name, module_name ∈ ["a"; "b"] ↔
    ∃ cj, cj ∈ [latency_chart "a" [4095] [0]; latency_chart "b" [0] [0]] ∧
          module cj = module_name.
Proof.
  apply (main_delivers_each_module (λ keys, keys) (λ keys _, reflexivity keys)
           [latency_chart "a" [4095] [0]; latency_chart "b" [0] [0]]
           10000 None (Some 8200)
           [("a", [record_of "milliseconds_per_dynamic_request"
                             (S754_zero false) 10000]);
            ("b", [record_of "milliseconds_per_dynamic_request"
                             (S754_zero false) 8200])]).
  vm_compute. reflexivity.
Defined.

(** ** Indices into the tables *)

Lemma getitem_out_of_range {A} (l : list A) i :
  ¬ (- Z.of_nat (length l) ≤ i < Z.of_nat (length l)) →
  getitem l i = Raise IndexError.
Proof.
  intros H. unfold getitem.
  destruct (Z.ltb_spec i 0);
    destruct (Z.leb_spec 0 (i + Z.of_nat (length l)));
    destruct (Z.leb_spec 0 i);
    destruct (Z.ltb_spec (i + Z.of_nat (length l)) (Z.of_nat (length l)));
    destruct (Z.ltb_spec i (Z.of_nat (length l))); simpl; try done; lia.
Qed.

Lemma getitem_in_range {A} (l : list A) i :
  - Z.of_nat (length l) ≤ i < Z.of_nat (length l) →
  ∃ a, getitem l i = Ok a.
Proof.
  intros H. unfold getitem.
  set (j := if i <? 0 then i + Z.of_nat (length l) else i).
  assert (Hj : 0 ≤ j < Z.of_nat (length l))
    by (unfold j; destruct (Z.ltb_spec i 0); lia).
  destruct (Z.leb_spec 0 j); [|lia].
  destruct (Z.ltb_spec j (Z.of_nat (length l))); [|lia]. simpl.
  destruct (lookup_lt_is_Some_2 l (Z.to_nat j)) as [a ->]; [lia|].
  by exists a.
Qed.

Lemma getitem_negative {A} (l : list A) i :
  - Z.of_nat (length l) ≤ i < 0 →
  getitem l i = getitem l (i + Z.of_nat (length l)).
Proof.
  intros H. unfold getitem.
  destruct (Z.ltb_spec i 0); [|lia].
  destruct (Z.ltb_spec (i + Z.of_nat (length l)) 0); [lia|]. done.
Qed.

(** X18. A chart number outside [-num_charts, num_charts), or a time-window
    index outside [-10, 10), makes the extraction of the chart raise
    [IndexError]; a negative chart number in range counts from the end of the
    table. *)
Theorem extract_chart_index_range st cj :
  (¬ (- num_charts ≤ chart_num cj < num_charts) →
   extract_chart st cj = Raise IndexError) ∧
  (- num_charts ≤ chart_num cj < num_charts →
   ¬ (- 10 ≤ time_window cj < 10) →
   extract_chart st cj = Raise IndexError) ∧
  (- num_charts ≤ chart_num cj < 0 →
   extract_chart st cj
   = extract_chart st (with_chart_num cj (chart_num cj + num_charts))).
Proof.
  unfold extract_chart. split; [|split].
  - intros H. rewrite (getitem_out_of_range (_label_to_field_map.*1));
      [reflexivity|].
    rewrite length_fmap. exact H.
  - intros H1 H2.
    destruct (getitem_in_range (_label_to_field_map.*1) (chart_num cj))
      as [label ->]; [rewrite length_fmap; exact H1|].
    cbn [mbind result_bind].
    rewrite (getitem_out_of_range _time_windows); [reflexivity|].
    exact H2.
  - intros H. rewrite (getitem_negative (_label_to_field_map.*1))
      by (rewrite length_fmap; exact H).
    rewrite length_fmap. reflexivity.
Qed.

Lemma extract_chart_index_range_witness :
  extract_chart (∅, None) (with_chart_num (latency_chart "a" [0] [0]) 14)
  = Raise IndexError ∧
  extract_chart (∅, None) (with_chart_num (latency_chart "a" [0] [0]) (-12))
  = extract_chart (∅, None) (latency_chart "a" [0] [0]).
Proof.
  split.
  - apply (proj1 (extract_chart_index_range _ _)). vm_compute. intros [_ H]. done.
  - apply (proj2 (proj2 (extract_chart_index_range (∅, None)
             (with_chart_num (latency_chart "a" [0] [0]) (-12))))).
    vm_compute. split; [discriminate|reflexivity].
Defined.

(** ** The field names of the table *)

Lemma ordered_get_elem_of {V} (d : list (string * V)) k v :
  ordered_get d k = Ok v → (k, v) ∈ d.
Proof.
  induction d as [|[k' v'] d IH]; simpl; [done|].
  case_bool_decide as Hk; [intros [= ->]; subst; left|].
  intros H. right. by apply IH.
Qed.

Lemma lookup_field_name_in_table chart_label series_label field_name :
  lookup_field_name chart_label series_label = Ok field_name →
  (chart_label, field_name) ∈ chart_fields.
Proof.
  unfold lookup_field_name.
  destruct (ordered_get _ _) as [names|] eqn:E; cbn [mbind result_bind];
    [|done].
  apply ordered_get_elem_of in E. intros H. unfold chart_fields.
  apply list_elem_of_bind. exists (chart_label, names). split; [|done].
  cbn [fst snd]. destruct names as [name|names].
  - injection H as ->. left.
  - destruct series_label as [l|]; [|done]. unfold dict_get in H.
    destruct (names !! l) as [f|] eqn:El; [|done]. injection H as ->.
    apply list_elem_of_fmap. exists (l, field_name). split; [done|].
    by apply elem_of_map_to_list.
Qed.

Lemma NoDup_values_inj (d : gmap string string) k1 k2 v :
  NoDup (map_to_list d).*2 → d !! k1 = Some v → d !! k2 = Some v → k1 = k2.
Proof.
  intros Hnd H1%elem_of_map_to_list H2%elem_of_map_to_list.
  apply list_elem_of_lookup in H1 as [i Hi], H2 as [j Hj].
  assert (i = j).
  { apply (NoDup_lookup _ i j v Hnd); by rewrite list_lookup_fmap, ?Hi, ?Hj. }
  subst j. congruence.
Qed.

(** X19. Within one chart, two series labels that resolve to the same field
    name are the same label, unless the chart has one name for whatever series
    it holds: no two series of a chart share a field. *)
Theorem lookup_field_name_injective chart_label l1 l2 field_name :
  lookup_field_name chart_label l1 = Ok field_name →
  lookup_field_name chart_label l2 = Ok field_name →
  l1 = l2 ∨ ∀ l, lookup_field_name chart_label l = Ok field_name.
Proof.
  unfold lookup_field_name.
  destruct (ordered_get _ _) as [names|] eqn:E; cbn [mbind result_bind];
    [|done].
  destruct names as [name|names]; [intros [= ->] _; by right|].
  destruct l1 as [l1|], l2 as [l2|]; try done. unfold dict_get.
  destruct (names !! l1) as [f1|] eqn:E1; [|done].
  destruct (names !! l2) as [f2|] eqn:E2; [|done].
  intros [= ->] [= ->]. left. f_equal.
  apply ordered_get_elem_of in E.
  assert (Hall : forallb (λ entry : string * field_names,
                    match entry.2 with
                    | Single _ => true
                    | Multi d => bool_decide (NoDup (map_to_list d).*2)
                    end) _label_to_field_map = true)
    by (vm_compute; reflexivity).
  rewrite forallb_forall in Hall.
  specialize (Hall _ (proj1 (list_elem_of_In _ _) E)). cbn [snd] in Hall.
  apply bool_decide_eq_true in Hall. by eapply NoDup_values_inj.
Qed.

(** X20. Two different charts resolve series to the same field name only for
    the client and server errors of "Summary" and "Error Details". *)
Theorem lookup_field_name_shared chart1 l1 chart2 l2 field_name :
  lookup_field_name chart1 l1 = Ok field_name →
  lookup_field_name chart2 l2 = Ok field_name →
  chart1 ≠ chart2 →
  field_name ∈ ["client_errors_per_second"; "server_errors_per_second"] ∧
  chart1 ∈ ["Summary"; "Error Details"] ∧
  chart2 ∈ ["Summary"; "Error Details"].
Proof.
  intros H1%lookup_field_name_in_table H2%lookup_field_name_in_table Hne.
  assert (Hall : forallb (λ p : string * string, forallb (λ q : string * string,
            implb (bool_decide (p.2 = q.2) && negb (bool_decide (p.1 = q.1)))
              (bool_decide
                 (p.2 ∈ ["client_errors_per_second";
                         "server_errors_per_second"]) &&
               bool_decide (p.1 ∈ ["Summary"; "Error Details"]) &&
               bool_decide (q.1 ∈ ["Summary"; "Error Details"])))
            chart_fields) chart_fields = true)
    by (vm_compute; reflexivity).
  rewrite forallb_forall in Hall.
  specialize (Hall _ (proj1 (list_elem_of_In _ _) H1)).
  rewrite forallb_forall in Hall.
  specialize (Hall _ (proj1 (list_elem_of_In _ _) H2)). cbn [fst snd] in Hall.
  rewrite bool_decide_eq_true_2 in Hall by done.
  rewrite (bool_decide_eq_false_2 (chart1 = chart2)) in Hall by done.
  cbn [andb negb implb] in Hall.
  apply andb_true_iff in Hall as [[Hf Hc1]%andb_true_iff Hc2].
  by repeat split; eapply bool_decide_eq_true.
Qed.

Lemma lookup_field_name_injective_witness :
  Some "Sent" = Some "Sent" ∨
  ∀ l, lookup_field_name "Traffic (Bytes/Second)" l
       = Ok "bytes_sent_per_second".
Proof.
  apply (lookup_field_name_injective "Traffic (Bytes/Second)"
           (Some "Sent") (Some "Sent") "bytes_sent_per_second");
    vm_compute; reflexivity.
Defined.

Lemma lookup_field_name_shared_witness :
  "server_errors_per_second"
    ∈ ["client_errors_per_second"; "server_errors_per_second"] ∧
  "Summary" ∈ ["Summary"; "Error Details"] ∧
  "Error Details" ∈ ["Summary"; "Error Details"].
Proof.
  apply (lookup_field_name_shared "Summary" (Some "Server (5xx)")
           "Error Details" (Some "Server (5xx)")).
  - vm_compute. reflexivity.
  - vm_compute. reflexivity.
  - discriminate.
Defined.

(** ** A cycle and the order of the dicts *)

Section cycle_order.
Variables order1 order2 : list string → list string.
Hypothesis order1_perm : ∀ keys, NoDup keys → order1 keys ≡ₚ keys.
Hypothesis order2_perm : ∀ keys, NoDup keys → order2 keys ≡ₚ keys.

(** X21. Whether a cycle succeeds, and which deliveries it makes, does not
    depend on the order in which the dicts are iterated: only the order of the
    deliveries, and with it the watermark that is stored, does. *)
Theorem main_deliveries_any_order input utc_timestamp dry_run db db1 sent1 :
  main order1 input utc_timestamp dry_run db = (Ok tt, db1, sent1) →
  ∃ db2 sent2,
    main order2 input utc_timestamp dry_run db = (Ok tt, db2, sent2) ∧
    sent1 ≡ₚ sent2.
Proof.
  destruct input as [|c input]; [intros [= <- <-]; by exists db, []|].
  destruct (build_records order1 (c :: input) db utc_timestamp)
    as [records_by_module|e] eqn:Hb.
  - pose proof (build_records_order order1 order2 order1_perm order2_perm
                  _ _ _ _ Hb) as Hb'.
    destruct (main_built order1 (c :: input) _ _ _ ltac:(done) Hb)
      as [Hdry1 (db1' & Hrun1 & _)].
    destruct (main_built order2 (c :: input) _ _ _ ltac:(done) Hb')
      as [Hdry2 (db2' & Hrun2 & _)].
    destruct dry_run.
    + rewrite Hdry1, Hdry2. intros [= <- <-]. by exists db, [].
    + rewrite Hrun1, Hrun2. intros [= <- <-].
      exists db2', (iteritems order2 records_by_module). split; [done|].
      apply (iteritems_order order1 order2 order1_perm order2_perm).
  - unfold main.
    by rewrite (parse_and_commit_record_raise _ (c :: input) _ _ _ e
                  ltac:(done) Hb).
Qed.

End cycle_order.

Lemma main_deliveries_any_order_witness :
  ∃ db2 sent2,
    main reverse [latency_chart "a" [4095] [0]; latency_chart "b" [0] [0]]
         10000 false None = (Ok tt, db2, sent2) ∧
    [("a", [record_of "milliseconds_per_dynamic_request" (S754_zero false)
                      10000]);
     ("b", [record_of "milliseconds_per_dynamic_request" (S754_zero false)
                      8200])] ≡ₚ sent2.
Proof.
  apply (main_deliveries_any_order (λ keys, keys) reverse
           (λ keys _, reflexivity keys) (λ keys _, reverse_Permutation keys)
           [latency_chart "a" [4095] [0]; latency_chart "b" [0] [0]]
           10000 false None (Some 8200)).
  vm_compute. reflexivity.
Defined.
